(** * CAMS helper library and model generator: a shallow embedding

    The development follows the three source files of the repository:
    - [cams/lib.py]: [printe], [getconfig], [hsize], [mkcontext], [theme];
    - [cams/management/commands/genmodels.py]: [configmodels] and the
      theme discovery and CSS compilation steps of [Command.handle];
    - [src/lib.py]: [csv2list].

    Python values are modelled at the types the program uses them at.
    A raised exception is a value of [exn]; a call returns [Returns v] or
    [Raises e].  Text written with [print] is collected in a console log. *)

From Stdlib Require Import ZArith QArith Qround Qabs String Ascii List Lia Lqa.
From stdpp Require Import base option list gmap strings pretty.

Local Open Scope Z_scope.

(** ** Exceptions and results *)

Inductive exn :=
| NameError (name : string)
| UnboundLocalError (name : string)
| OverflowError
| KeyError (key : string)
| FileNotFoundError (path : string)
| IsADirectoryError (path : string)
| CsvError (msg : string).

Inductive result (A : Type) :=
| Returns (a : A)
| Raises (e : exn).
Arguments Returns {A} a.
Arguments Raises {A} e.

#[global] Instance result_ret : MRet result := fun _ a => Returns a.
#[global] Instance result_bind : MBind result := fun _ _ f m =>
  match m with
  | Returns a => f a
  | Raises e => Raises e
  end.

(** ** The console

    [print] appends a line to the console log.  A computation that prints
    and may raise takes the log so far and gives its result with the log
    after it; what was printed before an exception stays printed. *)

Definition console : Type := list string.

Definition io (A : Type) : Type := console -> result A * console.

#[global] Instance io_ret : MRet io := fun _ a c => (Returns a, c).
#[global] Instance io_bind : MBind io := fun _ _ f m c =>
  match m c with
  | (Returns a, c') => f a c'
  | (Raises e, c') => (Raises e, c')
  end.

Definition raise {A : Type} (e : exn) : io A := fun c => (Raises e, c).

Definition lift {A : Type} (r : result A) : io A := fun c => (r, c).

Definition print (text : string) : io unit := fun c => (Returns tt, c ++ [text]).

(** The double quote and the line feed, for the texts that contain them. *)
Definition dq : string := String (ascii_of_nat 34) EmptyString.
Definition nl : string := String (ascii_of_nat 10) EmptyString.

(** ** Numbers

    [hsize] starts with a Python [int] and, after the first division by
    [1024.0], holds a [float].  A finite binary64 value is a rational; the
    divisions of [hsize] are by a power of two and are applied to values of
    magnitude at least 1024, so they are exact.  The only rounding is the
    conversion of an [int] to a [float]. *)

Inductive pynum :=
| PyInt (n : Z)
| PyFloat (x : Q).

(** [float(n)]: round to nearest, ties to even, on 53 significant bits;
    [OverflowError] when the rounded value does not fit a binary64. *)
Definition float_of_int (n : Z) : result Q :=
  let a := Z.abs n in
  let sh := Z.max 0 (Z.log2 a - 52) in
  let q := Z.shiftr a sh in
  let r := a - Z.shiftl q sh in
  let q' := match (2 * r ?= 2 ^ sh)%Z with
            | Lt => q
            | Gt => q + 1
            | Eq => if Z.even q then q else q + 1
            end in
  let v := Z.shiftl q' sh in
  if 2 ^ 1024 <=? v then Raises OverflowError
  else Returns (inject_Z (Z.sgn n * v)).

(** [abs(fsize) < 1024.0]; Python compares an [int] with a [float] exactly. *)
Definition abs_lt_1024 (fsize : pynum) : bool :=
  match fsize with
  | PyInt n => Z.abs n <? 1024
  | PyFloat x => negb (Qle_bool 1024 (Qabs x))
  end.

(** [fsize / 1024.0] *)
Definition truediv_1024 (fsize : pynum) : result Q :=
  match fsize with
  | PyInt n => x ← float_of_int n; Returns (x / 1024)%Q
  | PyFloat x => Returns (x / 1024)%Q
  end.

(** Rounding of a non-negative rational to an integer, ties to even: the
    rounding of the [f] presentation type at precision 0. *)
Definition round_half_even (x : Q) : Z :=
  let f := Qfloor x in
  match ((x - inject_Z f) ?= 1 # 2)%Q with
  | Lt => f
  | Gt => f + 1
  | Eq => if Z.even f then f else f + 1
  end.

Definition str_of_nonneg (n : Z) : string := pretty (Z.to_N n).

(** [format(x, ".0f")] for a float [x] *)
Definition format_0f (x : Q) : string :=
  (if Qle_bool 0 x then EmptyString else "-") +:+ str_of_nonneg (round_half_even (Qabs x)).

Fixpoint spaces (n : nat) : string :=
  match n with
  | O => EmptyString
  | S n' => String " " (spaces n')
  end.

(** Width 3 without an alignment flag: numbers are right-aligned. *)
Definition pad3 (s : string) : string :=
  spaces (3 - String.length s) +:+ s.

(** [f"{fsize:3.0f}"]: an [int] is converted to [float] first. *)
Definition format_3_0f (fsize : pynum) : result string :=
  match fsize with
  | PyInt n => x ← float_of_int n; Returns (pad3 (format_0f x))
  | PyFloat x => Returns (pad3 (format_0f x))
  end.

Definition suffix : string := "Bytes".

Definition units : list string :=
  [" "; "Ki"; "Mi"; "Gi"; "Ti"; "Pi"; "Ei"; "Zi"].

(** The [for] loop of [hsize]; when the units are exhausted the final
    [return] reads the name [num], which is bound nowhere. *)
Fixpoint hsize_loop (us : list string) (fsize : pynum) : result string :=
  match us with
  | [] => Raises (NameError "num")
  | unit :: us' =>
      if abs_lt_1024 fsize then
        s ← format_3_0f fsize; Returns (s +:+ unit +:+ suffix)
      else
        x ← truediv_1024 fsize; hsize_loop us' (PyFloat x)
  end.

Definition hsize (fsize : Z) : result string :=
  hsize_loop units (PyInt fsize).


(** ** [cams/lib.py] *)

(** Values loaded by [json.loads], and the values of a render context. *)
#[warnings="-register-all"]
Inductive pyval :=
| PNone
| PBool (b : bool)
| PInt (n : Z)
| PStr (s : string)
| PList (l : list pyval)
| PDict (d : list (string * pyval)).

(** The module globals: [jsondata] (the [config] member of
    config/config.json), [themes] (themecfg.json, or the empty dict when
    the file does not exist) and [__version__]. *)
Record lib_globals := LibGlobals {
  jsondata : gmap string pyval;
  themes : gmap string pyval;
  version : string
}.

(** [printe]: [print] inside a [try] whose [except OSError] clause does
    nothing.  The console log always accepts a line, so the handler is
    never entered. *)
Definition printe (text : string) : io unit := print text.

(** The text of a key in an f-string: a [str] is itself, [None] is
    written [None]. *)
Definition key_text (k : option string) : string :=
  match k with
  | Some s => s
  | None => "None"
  end.

(** Subscription of a dict whose keys are all [str] with a key that is a
    [str] or [None]. *)
Definition dict_get {V : Type} (d : gmap string V) (k : option string) : option V :=
  match k with
  | Some s => d !! s
  | None => None
  end.

Definition getconfig (g : lib_globals) (part : string) : io pyval :=
  match jsondata g !! part with
  | Some v => mret v
  | None =>
      printe ("lib.py WARNING: Key " +:+ dq +:+ part +:+ dq
              +:+ " does not exist in config/config.json");;
      mret PNone
  end.

Definition theme (g : lib_globals) (tname : option string) : io pyval :=
  match dict_get (themes g) tname with
  | Some v => mret v
  | None =>
      printe ("lib.py WARNING: Theme " +:+ dq +:+ key_text tname +:+ dq
              +:+ " not found, using default");;
      match themes g !! "default" with
      | Some v => mret v
      | None => raise (KeyError "default")
      end
  end.

Record request := Request {
  COOKIES : gmap string string
}.

(** The entries of the dict display are evaluated in order: [theme],
    [getconfig("misc")], [getconfig("navbar")]. *)
Definition mkcontext (g : lib_globals) (req : request) (title : pyval)
    (scripts : string) : io (gmap string pyval) :=
  styling ← theme g (COOKIES req !! "theme");
  misc ← getconfig g "misc";
  navbar ← getconfig g "navbar";
  let context : gmap string pyval :=
    <["ver" := PStr (version g)]> (<["navbar" := navbar]> (<["misc" := misc]>
      (<["styling" := styling]> (<["title" := title]> ∅)))) in
  let flags (fa jq ts s2 : bool) : gmap string pyval :=
    <["s2" := PBool s2]> (<["ts" := PBool ts]> (<["jq" := PBool jq]>
      (<["fa" := PBool fa]> context))) in
  mret (if String.eqb scripts "font" then flags true false false false
        else if String.eqb scripts "form" then flags false true false true
        else if String.eqb scripts "table" then flags true true true false
        else flags false false false false).


(** ** [cams/management/commands/genmodels.py] *)

(** A [for] loop whose body updates the loop-carried variables [s]. *)
Fixpoint for_each {A S : Type} (body : A -> S -> io S) (l : list A) (s : S)
    : io S :=
  match l with
  | [] => mret s
  | a :: l' => s' ← body a s; for_each body l' s'
  end.

(** [d[k] = v] on a dict kept in insertion order: an existing key keeps
    its place. *)
Fixpoint dict_set {V : Type} (k : string) (v : V) (d : list (string * V))
    : list (string * V) :=
  match d with
  | [] => [(k, v)]
  | (k', v') :: d' =>
      if String.eqb k' k then (k', v) :: d' else (k', v') :: dict_set k v d'
  end.

(** [a in b] for two [str]: [a] occurs in [b] as a substring. *)
Fixpoint str_in (a b : string) : bool :=
  String.prefix a b ||
  match b with
  | EmptyString => false
  | String _ b' => str_in a b'
  end.

(** A column definition of the [table] section.  [max] and [ddfile] are
    optional members; reading an absent one raises [KeyError]. *)
Record column := Column {
  col : string;
  datatype : string;
  max : option Z;
  ddfile : option string
}.

(** [jsonconfig]: the [table] section in key order, and
    [misc.basecss]. *)
Record jsonconfig := JsonConfig {
  table : list (string * list column);
  basecss : option string
}.

Definition member {A : Type} (key : string) (o : option A) : io A :=
  match o with
  | Some a => mret a
  | None => raise (KeyError key)
  end.

Definition group_line (y : column) (x : string) : string :=
  "    " +:+ col y +:+ ".group = " +:+ dq +:+ x +:+ dq +:+ nl.

(** The body of the inner loop of [configmodels]: the loop-carried
    variables are [table] and [cfgdata]. *)
Definition column_step (x : string) (y : column)
    (st : string * list (string * column))
    : io (string * list (string * column)) :=
  let '(table, cfgdata) := st in
  let dt := datatype y in
  let cfgdata := dict_set (col y) y cfgdata in
  if str_in dt "select" then
    dd ← member "ddfile" (ddfile y);
    mret (table +:+ "    " +:+ col y
          +:+ " = models.CharField(blank = True, max_length = 128, choices = Choices.totuplelist("
          +:+ dq +:+ dd +:+ dq +:+ "))" +:+ nl +:+ group_line y x, cfgdata)
  else if String.eqb dt "string" then
    m ← member "max" (max y);
    mret (table +:+ "    " +:+ col y
          +:+ " = models.CharField(blank = True, max_length = " +:+ pretty m
          +:+ ")" +:+ nl +:+ group_line y x, cfgdata)
  else if String.eqb dt "text" then
    mret (table +:+ "    " +:+ col y
          +:+ " = models.TextField(blank = True, null = True)" +:+ nl
          +:+ group_line y x, cfgdata)
  else if String.eqb dt "date" then
    mret (table +:+ "    " +:+ col y +:+ " = models.DateField(null = True)"
          +:+ nl +:+ group_line y x, cfgdata)
  else
    print ("WARNING: Unknown datatype " +:+ dq +:+ dt +:+ dq +:+ ", skipping");;
    mret (table, cfgdata).

(** The body of the outer loop: [g] is a key [x] of the [table] section
    with its list of columns [jsonconfig["table"][x]]. *)
Definition group_step (g : string * list column)
    (st : string * list (string * column))
    : io (string * list (string * column)) :=
  for_each (column_step (fst g)) (snd g) st.

(** The first loop nest: the text of the field declarations and
    [cfgdata]. *)
Definition table_loop (cfg : jsonconfig)
    : io (string * list (string * column)) :=
  for_each group_step (table cfg) (EmptyString, []).

(** The third loop nest and the three statements after it. *)
Definition colnames_of (cfg : jsonconfig) : list string :=
  let colnames :=
    fold_left
      (fun acc g => fold_left (fun acc y => acc ++ [col y]) (snd g) acc)
      (table cfg) [] in
  let colnames := ["inid"] ++ colnames in
  let colnames := colnames ++ ["tcrd"] in
  colnames ++ ["tmod"].

Definition todict_of (colnames : list string) : string :=
  let todict :=
    fold_left (fun todict i =>
                 todict +:+ dq +:+ i +:+ dq +:+ ": self." +:+ i +:+ ", ")
              colnames EmptyString in
  "{" +:+ todict +:+ "}".

(** The module text: the template with its fields filled in. *)
Definition modelspy (date table todict cfgdata colnames : string) : string :=
  "# CAMS Asset Management System - CTCL 2017-2023" +:+ nl +:+
  "# Generated: " +:+ date +:+ nl +:+
  "# Purpose: Database model metadata" +:+ nl +:+
  "# THIS FILE IS AUTOMATICALLY GENERATED" +:+ nl +:+
  nl +:+
  "from django.utils import timezone" +:+ nl +:+
  "from django.db import models" +:+ nl +:+
  "from .choices import Choices" +:+ nl +:+
  nl +:+
  "class ContactItem(models.Model):" +:+ nl +:+
  "    # inid, tcrd, tmod are not defined by the configuration file" +:+ nl +:+
  "    inid = models.AutoField(primary_key = True)" +:+ nl +:+
  "    tcrd = models.DateTimeField(null = True)" +:+ nl +:+
  "    tmod = models.DateTimeField(null = True)" +:+ nl +:+
  nl +:+
  table +:+ nl +:+
  "    class Meta:" +:+ nl +:+
  "        verbose_name_plural = " +:+ dq +:+ "Contact Entries" +:+ dq +:+ nl +:+
  nl +:+
  "    def todict(self):" +:+ nl +:+
  "        return " +:+ todict +:+ nl +:+
  "        " +:+ nl +:+
  "    def cfgdata():" +:+ nl +:+
  "        return " +:+ cfgdata +:+ nl +:+
  "        " +:+ nl +:+
  "    def fieldnames():" +:+ nl +:+
  "        return " +:+ colnames +:+ nl +:+
  "        " +:+ nl +:+
  "    def __str__(self):" +:+ nl +:+
  "        return self.name" +:+ nl.

Section ConfigModels.

(** [str] of a dict of column definitions and of a list of [str], and the
    date [d.strftime("%B %e, %Y")] of the run. *)
Variable str_of_cfgdata : list (string * column) -> string.
Variable str_of_list : list string -> string.
Variable today : string.

(** [configmodels].  The second loop builds [groups], which the template
    has no field for; it has no effect on the result. *)
Definition configmodels (cfg : jsonconfig) : io string :=
  '(table, cfgdata) ← table_loop cfg;
  let colnames := colnames_of cfg in
  let todict := todict_of colnames in
  mret (modelspy today table todict (str_of_cfgdata cfgdata)
          (str_of_list colnames)).

End ConfigModels.


(** *** The file system *)

(** What the generator and [csv2list] see of the file system: the names
    listed in config/themes (or nothing when that directory is absent),
    which paths are directories, and the contents of the regular files. *)
Record world := World {
  themes_listing : option (list string);
  is_dir : string -> bool;
  files : gmap string string
}.

(** [os.path.exists] *)
Definition path_exists (w : world) (p : string) : bool :=
  bool_decide (is_Some (files w !! p)) || is_dir w p.

(** [open(p)] followed by [f.read()] *)
Definition open_read (w : world) (p : string) : result string :=
  match files w !! p with
  | Some content => Returns content
  | None => if is_dir w p then Raises (IsADirectoryError p)
            else Raises (FileNotFoundError p)
  end.

Fixpoint ends_with_slash (s : string) : bool :=
  match s with
  | EmptyString => false
  | String c EmptyString => Ascii.eqb c "/"
  | String _ s' => ends_with_slash s'
  end.

(** [os.path.join(a, b)] on a POSIX system *)
Definition path_join (a b : string) : string :=
  if String.prefix "/" b then b
  else if String.eqb a EmptyString || ends_with_slash a then a +:+ b
  else a +:+ "/" +:+ b.

(** [l.remove(x)]: the first occurrence goes. *)
Fixpoint remove_first (x : string) (l : list string) : list string :=
  match l with
  | [] => []
  | y :: l' => if String.eqb y x then l' else y :: remove_first x l'
  end.

(** A theme descriptor, the [theme] member of an index.json.  [fonts] is
    a dict from font family to font file, in key order; [css] is the path
    of the theme's stylesheet until the compilation replaces it by the
    compiled text. *)
Record theme_desc := ThemeDesc {
  int_name : string;
  disp_name : string;
  fonts : list (string * string);
  css : string
}.

Section Generator.

(** Library functions the generator calls.  [json_load_index] is
    [json.load] on the text of an index.json: the message of a
    [JSONDecodeError], or the document, a JSON object whose members are
    theme descriptors. *)
Variable json_load_index : string -> string + gmap string theme_desc.
Variable path_suffix : string -> string.     (* pathlib.Path(p).suffix *)
Variable b64encode : string -> string.
Variable compress : string -> string.        (* csscompressor.compress *)

(** *** Theme discovery: the body of the loop over [themedir] *)
Definition discover_step (w : world) (name : string)
    (themeindices : list theme_desc) : io (list theme_desc) :=
  let index := "config/themes/" +:+ name +:+ "/index.json" in
  if path_exists w index then
    content ← lift (open_read w index);
    match json_load_index content with
    | inr doc =>
        themedata ← member "theme" (doc !! "theme");
        mret (themeindices ++ [themedata])
    | inl e =>
        print ("genmodels.py WARNING: Exception " +:+ dq +:+ e +:+ dq
               +:+ " raised by JSON library, the theme would not be available");;
        mret themeindices
    end
  else
    print ("genmodels.py WARNING: Theme " +:+ dq +:+ name +:+ dq
           +:+ " does not have a index.json, the theme would not be available");;
    mret themeindices.

(** The directories the loop visits. *)
Definition theme_dirs (w : world) : io (list string) :=
  match themes_listing w with
  | None => raise (FileNotFoundError "config/themes")
  | Some names =>
      let themedir :=
        List.filter (fun f => is_dir w (path_join "config/themes" f)) names in
      mret (if bool_decide ("common" ∈ themedir)
            then remove_first "common" themedir else themedir)
  end.

Definition discover_themes (w : world) : io (list theme_desc) :=
  themedir ← theme_dirs w;
  for_each (discover_step w) themedir [].

(** *** CSS compilation *)

Definition font_face (fontfamily filetype font_b64 : string) : string :=
  nl +:+ "@font-face {" +:+ nl +:+
  "    font-family: " +:+ fontfamily +:+ ";" +:+ nl +:+
  "    src: url(data:font/" +:+ filetype +:+ ";charset=utf-8;base64,"
    +:+ font_b64 +:+ ") format('" +:+ filetype +:+ "');" +:+ nl +:+
  "}" +:+ nl +:+ nl.

(** The body of the loop over the fonts of a theme.  The loop-carried
    variables are [themecss] and [fontfiletype]; the latter is unbound
    until a font with one of the two known suffixes has been seen, and
    keeps its value when the suffix is another one. *)
Definition font_step (w : world) (font : string * string)
    (st : string * option string) : io (string * option string) :=
  let '(themecss, fontfiletype) := st in
  let ext := path_suffix (snd font) in
  let fontfiletype :=
    if String.eqb ext ".otf" then Some "opentype"
    else if String.eqb ext ".ttf" then Some "truetype"
    else fontfiletype in
  bytes ← lift (open_read w (snd font));
  let font_b64 := b64encode bytes in
  match fontfiletype with
  | None => raise (UnboundLocalError "fontfiletype")
  | Some filetype =>
      mret (themecss +:+ font_face (fst font) filetype font_b64, fontfiletype)
  end.

Definition fonts_loop (w : world) (themeindices : list theme_desc)
    : io (string * option string) :=
  for_each (fun th st => for_each (font_step w) (fonts th) st) themeindices
           (EmptyString, None).

(** The body of the second loop over [themeindices]: [themes] is the
    loop-carried dict. *)
Definition compile_step (w : world) (themecss : string) (th : theme_desc)
    (themes : list (string * theme_desc)) : io (list (string * theme_desc)) :=
  let themedir := path_join "config/themes" (int_name th) in
  let themeind := path_join themedir "index.json" in
  if path_exists w themeind then
    own ← lift (open_read w (css th));
    let th' := ThemeDesc (int_name th) (disp_name th) (fonts th)
                         (compress (themecss +:+ own)) in
    mret (dict_set (int_name th) th' themes)
  else
    print ("themecfg.py WARNING: Theme directory " +:+ dq +:+ themedir +:+ dq
           +:+ " does not have an index.json. The theme would not be available.");;
    mret themes.

(** The CSS compile step of [handle]: from [themecss = ...] to the dict
    [themes] that is written to themecfg.json. *)
Definition compile_css (w : world) (cfg : jsonconfig)
    (themeindices : list theme_desc) : io (list (string * theme_desc)) :=
  '(themecss, _) ← fonts_loop w themeindices;
  base_path ← member "basecss" (basecss cfg);
  base ← lift (open_read w base_path);
  let themecss := themecss +:+ base in
  for_each (compile_step w themecss) themeindices [].

End Generator.

(** ** [src/lib.py] *)

(** *** [csv.reader] with the default dialect

    The states of the parser, the delimiter [,] and the quote character
    are those of the [excel] dialect: quotes are doubled inside a quoted
    field, and no character escapes another. *)
Inductive csv_state :=
| START_RECORD | START_FIELD | IN_FIELD | IN_QUOTED_FIELD
| QUOTE_IN_QUOTED_FIELD | EAT_CRNL.

Record csv_parser := CsvParser {
  cstate : csv_state;
  cfield : string;
  cfields : list string
}.

Definition parse_reset : csv_parser := CsvParser START_RECORD EmptyString [].

(** [csv.field_size_limit()] *)
Definition field_size_limit : N := 131072%N.

(** A character is added to the field unless the field has reached the
    limit, in whatever state the parser is. *)
Definition add_char (c : ascii) (st : csv_state) (p : csv_parser)
    : result csv_parser :=
  if (field_size_limit <=? N.of_nat (String.length (cfield p)))%N
  then Raises (CsvError "field larger than field limit (131072)")
  else Returns (CsvParser st (cfield p +:+ String c EmptyString) (cfields p)).

Definition save_field (st : csv_state) (p : csv_parser) : csv_parser :=
  CsvParser st EmptyString (cfields p ++ [cfield p]).

Definition set_state (st : csv_state) (p : csv_parser) : csv_parser :=
  CsvParser st (cfield p) (cfields p).

Definition is_newline (c : ascii) : bool :=
  Ascii.eqb c (ascii_of_nat 10) || Ascii.eqb c (ascii_of_nat 13).

Definition is_quote (c : ascii) : bool := Ascii.eqb c (ascii_of_nat 34).

Definition is_delimiter (c : ascii) : bool := Ascii.eqb c ",".

(** One character of a line; [None] is the end of the line. *)
Definition process_char (c : option ascii) (p : csv_parser) : result csv_parser :=
  let start_field p :=
    match c with
    | None => Returns (save_field START_RECORD p)
    | Some ch =>
        if is_newline ch then Returns (save_field EAT_CRNL p)
        else if is_quote ch then Returns (set_state IN_QUOTED_FIELD p)
        else if is_delimiter ch then Returns (save_field START_FIELD p)
        else add_char ch IN_FIELD p
    end in
  match cstate p with
  | START_RECORD =>
      match c with
      | None => Returns p
      | Some ch => if is_newline ch then Returns (set_state EAT_CRNL p)
                   else start_field p
      end
  | START_FIELD => start_field p
  | IN_FIELD =>
      match c with
      | None => Returns (save_field START_RECORD p)
      | Some ch =>
          if is_newline ch then Returns (save_field EAT_CRNL p)
          else if is_delimiter ch then Returns (save_field START_FIELD p)
          else add_char ch IN_FIELD p
      end
  | IN_QUOTED_FIELD =>
      match c with
      | None => Returns p
      | Some ch => if is_quote ch then Returns (set_state QUOTE_IN_QUOTED_FIELD p)
                   else add_char ch IN_QUOTED_FIELD p
      end
  | QUOTE_IN_QUOTED_FIELD =>
      match c with
      | None => Returns (save_field START_RECORD p)
      | Some ch =>
          if is_quote ch then add_char ch IN_QUOTED_FIELD p
          else if is_delimiter ch then Returns (save_field START_FIELD p)
          else if is_newline ch then Returns (save_field EAT_CRNL p)
          else add_char ch IN_FIELD p
      end
  | EAT_CRNL =>
      match c with
      | None => Returns (set_state START_RECORD p)
      | Some ch => if is_newline ch then Returns p
                   else Raises (CsvError "new-line character seen in unquoted field")
      end
  end.

Fixpoint process_line (line : string) (p : csv_parser) : result csv_parser :=
  match line with
  | EmptyString => process_char None p
  | String ch line' => p' ← process_char (Some ch) p; process_line line' p'
  end.

(** The rows the reader yields from the lines of the file.  A record ends
    when a line leaves the parser in [START_RECORD]; at the end of the
    input an unfinished record is yielded with its last field. *)
Fixpoint reader (lines : list string) (p : csv_parser)
    : result (list (list string)) :=
  match lines with
  | [] =>
      match cstate p, cfield p with
      | IN_QUOTED_FIELD, _ | _, String _ _ =>
          Returns [(cfields p ++ [cfield p])]
      | _, _ => Returns []
      end
  | line :: lines' =>
      p' ← process_line line p;
      match cstate p' with
      | START_RECORD => rows ← reader lines' parse_reset; Returns (cfields p' :: rows)
      | _ => reader lines' p'
      end
  end.

(** The iteration of a text file: universal newlines, each line with its
    line feed. *)
Fixpoint file_lines (s : string) (cur : string) : list string :=
  match s with
  | EmptyString =>
      match cur with
      | EmptyString => []
      | _ => [cur]
      end
  | String c s' =>
      if Ascii.eqb c (ascii_of_nat 13) then
        match s' with
        | String c' s'' =>
            if Ascii.eqb c' (ascii_of_nat 10)
            then (cur +:+ nl) :: file_lines s'' EmptyString
            else (cur +:+ nl) :: file_lines s' EmptyString
        | EmptyString => [cur +:+ nl]
        end
      else if Ascii.eqb c (ascii_of_nat 10) then
        (cur +:+ nl) :: file_lines s' EmptyString
      else file_lines s' (cur +:+ String c EmptyString)
  end.

(** *** [csv.DictReader] *)

(** The values of a row dict: the text of a cell, [None] for a field the
    row has no cell for, and the list of the cells beyond the header. *)
Inductive cell :=
| Text (s : string)
| Missing
| Rest (l : list string).

(** A row dict: its keys are header names, and [None] for the rest. *)
Definition row_dict (fieldnames row : list string) : gmap (option string) cell :=
  let d := fold_left (fun d kv => <[Some (fst kv) := Text (snd kv)]> d)
                     (zip fieldnames row) ∅ in
  let lf := length fieldnames in
  let lr := length row in
  if (lf <? lr)%nat then <[None := Rest (drop lf row)]> d
  else fold_left (fun d key => <[Some key := Missing]> d) (drop lr fieldnames) d.

Definition is_empty_row (row : list string) : bool :=
  match row with
  | [] => true
  | _ => false
  end.

(** The first row is the header; empty rows after it are skipped. *)
Definition dict_reader (rows : list (list string))
    : list (gmap (option string) cell) :=
  match rows with
  | [] => []
  | fieldnames :: data =>
      map (row_dict fieldnames) (List.filter (fun r => negb (is_empty_row r)) data)
  end.

Definition csv2list (w : world) (path : string)
    : result (list (gmap (option string) cell)) :=
  content ← open_read w path;
  rows ← reader (file_lines content EmptyString) parse_reset;
  Returns (dict_reader rows).

(** ** Texts, paths and sample inputs used in the statements *)

Definition theme_warning (tname : option string) : string :=
  "lib.py WARNING: Theme " +:+ dq +:+ key_text tname +:+ dq
  +:+ " not found, using default".

Definition globals_with_default : lib_globals :=
  LibGlobals ∅ {["default" := PStr "plain"]} "1.0".

Definition globals_without_themes : lib_globals :=
  LibGlobals ∅ ∅ "1.0".

(** The four flags of a context. *)
Definition flags_are (ctx : gmap string pyval) (fa jq ts s2 : bool) : Prop :=
  ctx !! "fa" = Some (PBool fa) /\ ctx !! "jq" = Some (PBool jq) /\
  ctx !! "ts" = Some (PBool ts) /\ ctx !! "s2" = Some (PBool s2).

Definition request_without_cookies : request := Request ∅.

(** The columns of a schema, group after group. *)
Definition all_columns (cfg : jsonconfig) : list column :=
  flat_map snd (table cfg).

(** A column that has the member its branch of [configmodels] reads:
    [ddfile] when the datatype occurs in [select], [max] when it is
    [string]. *)
Definition column_complete (y : column) : Prop :=
  (str_in (datatype y) "select" = true -> is_Some (ddfile y)) /\
  (str_in (datatype y) "select" = false -> datatype y = "string" ->
   is_Some (max y)).

Definition unknown_warning (dt : string) : string :=
  "WARNING: Unknown datatype " +:+ dq +:+ dt +:+ dq +:+ ", skipping".

(** A schema with a column of an unknown datatype. *)
Definition schema_with_blob : jsonconfig :=
  JsonConfig [("main", [Column "name" "text" None None;
                        Column "photo" "blob" None None])] None.

(** C2, the failing input: a column whose datatype is [sel]. *)
Definition schema_with_sel : jsonconfig :=
  JsonConfig [("main", [Column "kind" "sel" None (Some "kinds")])] None.

Definition index_path (name : string) : string :=
  "config/themes/" +:+ name +:+ "/index.json".

Definition missing_index_warning (name : string) : string :=
  "genmodels.py WARNING: Theme " +:+ dq +:+ name +:+ dq
  +:+ " does not have a index.json, the theme would not be available".

Definition malformed_index_warning (e : string) : string :=
  "genmodels.py WARNING: Exception " +:+ dq +:+ e +:+ dq
  +:+ " raised by JSON library, the theme would not be available".

(** [json.load] on the two texts of the example below: an empty JSON
    object, and a text that is not JSON. *)
Definition sample_json_load (s : string) : string + gmap string theme_desc :=
  if String.eqb s "{}" then inr ∅
  else inl "Expecting value: line 1 column 1 (char 0)".

(** C6, the failing input: one theme directory, [broken], whose
    index.json is the empty JSON object. *)
Definition world_with_empty_index : world :=
  World (Some ["broken"])
        (fun p => String.eqb p "config/themes/broken")
        {["config/themes/broken/index.json" := "{}"]}.



(** Two file systems with the same theme, font and stylesheets; the
    second holds one more file, which the compile step does not read. *)
Definition plain_theme : theme_desc :=
  ThemeDesc "plain" "Plain" [("Body", "fonts/body.ttf")] "config/themes/plain/plain.css".

Definition plain_config : jsonconfig := JsonConfig [] (Some "config/base.css").

Definition plain_files : gmap string string :=
  {["fonts/body.ttf" := "FONT";
    "config/base.css" := "body { margin: 0 }";
    "config/themes/plain/plain.css" := "body { color: black }";
    "config/themes/plain/index.json" := "{}"]}.

Definition world_one : world :=
  World (Some ["plain"]) (fun _ => false) plain_files.


(** The dict of a row that has a cell for every header name and no more:
    each name with the text of its cell, the last one for a name that the
    header repeats. *)
Definition text_dict (fieldnames row : list string) : gmap (option string) cell :=
  list_to_map (reverse (zip (Some <$> fieldnames) (Text <$> row))).

Definition csv_world (content : string) : world :=
  World None (fun _ => false) {["data.csv" := content]}.

(** [m] is an integer nearest to [y], the even one when [y] is halfway
    between two integers. *)
Definition nearest_even (y : Q) (m : Z) : Prop :=
  (Qabs (y - inject_Z m) <= 1 # 2)%Q /\
  ((Qabs (y - inject_Z m) == 1 # 2)%Q -> Z.even m = true).

(** The sign that [format] writes before the digits. *)
Definition sign_text (negative : bool) : string :=
  if negative then "-" else EmptyString.

(** ** [dt2fmt] of [cams/lib.py] *)

(** [dt2fmt] can fail with a [TypeError], which none of the functions
    above raises. *)
Inductive failure :=
| Exn (e : exn)
| TypeError (msg : string).

(** [v[k]] for a value loaded from JSON and a key that is a [str]: only
    a dict can be subscripted with a [str]. *)
Definition py_getitem (v : pyval) (k : string) : failure + pyval :=
  match v with
  | PDict d =>
      match list_find (fun kv => String.eqb (fst kv) k = true) d with
      | Some (_, kv) => inr (snd kv)
      | None => inl (Exn (KeyError k))
      end
  | PList _ => inl (TypeError "list indices must be integers or slices, not str")
  | PStr _ => inl (TypeError "string indices must be integers, not 'str'")
  | PNone => inl (TypeError "'NoneType' object is not subscriptable")
  | PBool _ => inl (TypeError "'bool' object is not subscriptable")
  | PInt _ => inl (TypeError "'int' object is not subscriptable")
  end.

(** [dt2fmt(dt)]: [dt] is given by its [strftime] method, which takes a
    [str]. *)
Definition dt2fmt (g : lib_globals) (dt_strftime : string -> string)
    (c : console) : (failure + string) * console :=
  match getconfig g "misc" c with
  | (Raises e, c') => (inl (Exn e), c')
  | (Returns misc, c') =>
      match py_getitem misc "strftime" with
      | inl f => (inl f, c')
      | inr (PStr strfstr) => (inr (dt_strftime strfstr), c')
      | inr _ =>
          (inl (TypeError "strftime() argument 1 must be str"), c')
      end
  end.

(** The value [getconfig] returns, and the lines it prints. *)
Definition config_value (g : lib_globals) (part : string) : pyval :=
  default PNone (jsondata g !! part).

Definition config_warnings (g : lib_globals) (part : string) : list string :=
  match jsondata g !! part with
  | Some _ => []
  | None => ["lib.py WARNING: Key " +:+ dq +:+ part +:+ dq
             +:+ " does not exist in config/config.json"]
  end.

(** The lines [theme] prints. *)
Definition theme_warnings (g : lib_globals) (tname : option string) : list string :=
  match dict_get (themes g) tname with
  | Some _ => []
  | None => [theme_warning tname]
  end.

(** The keys of a render context. *)
Definition context_keys : gset string :=
  {[ "title"; "styling"; "misc"; "navbar"; "ver"; "fa"; "jq"; "ts"; "s2" ]}.

(** Globals with a [misc] section that holds the format of dates, and a
    request whose cookie names a theme that is not registered. *)
Definition globals_with_misc : lib_globals :=
  LibGlobals {["misc" := PDict [("strftime", PStr "%B %e, %Y")]]}
             {["default" := PStr "plain"]} "1.0".

Definition request_with_unknown_theme : request :=
  Request {["theme" := "neon"]}.

(** ** [configfields] and [configchoices] of [genmodels.py] *)

(** [d[k]] on a dict kept in insertion order; [None] stands for the
    [KeyError]. *)
Fixpoint dict_lookup {V : Type} (k : string) (d : list (string * V)) : option V :=
  match d with
  | [] => None
  | (k', v) :: d' => if String.eqb k' k then Some v else dict_lookup k d'
  end.

(** [x in l] for a list of [str] *)
Definition in_list (x : string) (l : list string) : bool :=
  existsb (String.eqb x) l.

(** [jsonconfig] with the two other sections the generator reads:
    [headers], from column name to label, and [dropdown], from the name
    of a choice list to the dict of its choices. *)
Record genconfig := GenConfig {
  schema : jsonconfig;
  headers : list (string * string);
  dropdown : list (string * list (string * string))
}.

(** The first loop of [configfields]. *)
Definition allfields_of (cfg : jsonconfig) : list column :=
  fold_left (fun allfields g => allfields ++ snd g) (table cfg) [].

(** The body of its second loop: [fields] and [labels] are carried. *)
Definition field_step (hconfig : list (string * string)) (i : column)
    (st : list string * list (string * string))
    : io (list string * list (string * string)) :=
  let '(fields, labels) := st in
  let dt := datatype i in
  let col := col i in
  if in_list dt ["date"; "select"; "string"; "text"] then
    let fields := fields ++ [col] in
    label ← member col (dict_lookup col hconfig);
    mret (fields, dict_set col label labels)
  else mret (fields, labels).

Definition fields_loop (cfg : genconfig)
    : io (list string * list (string * string)) :=
  for_each (field_step (headers cfg)) (allfields_of (schema cfg)) ([], []).

Definition fieldspy (date fields labels : string) : string :=
  "# CAMS Asset Management System - CTCL 2017-2023" +:+ nl +:+
  "# Generated: " +:+ date +:+ nl +:+
  "# Purpose: Django form data" +:+ nl +:+
  "# THIS FILE IS AUTOMATICALLY GENERATED" +:+ nl +:+
  nl +:+
  "from django import forms" +:+ nl +:+
  "from .choices import Choices" +:+ nl +:+
  "from .models import ContactItem" +:+ nl +:+
  nl +:+
  "class ContactForm(forms.ModelForm):" +:+ nl +:+
  "    class Meta:" +:+ nl +:+
  "        model = ContactItem" +:+ nl +:+
  "        fields = " +:+ fields +:+ nl +:+
  "        labels = " +:+ labels +:+ nl +:+
  nl +:+
  "class SettingsForm(forms.Form):" +:+ nl +:+
  "    theme = forms.CharField(label = " +:+ dq +:+ "Theme Selection" +:+ dq
    +:+ ", widget = forms.Select(choices = Choices.totuplelist("
    +:+ dq +:+ "themes" +:+ dq +:+ ")))" +:+ nl +:+
  nl +:+
  "class SearchForm(forms.Form):" +:+ nl +:+
  "    query = forms.CharField(label = " +:+ dq +:+ "Search" +:+ dq
    +:+ ", max_length = 128)" +:+ nl +:+
  nl.

Definition choicespy (date choicedict : string) : string :=
  "# CAMS Asset Management System - CTCL 2017-2023" +:+ nl +:+
  "# Generated: " +:+ date +:+ nl +:+
  "# Purpose: Dropdown choices" +:+ nl +:+
  "# THIS FILE IS AUTOMATICALLY GENERATED" +:+ nl +:+
  nl +:+
  "class Choices:" +:+ nl +:+
  "    choicedict = " +:+ choicedict +:+ nl +:+
  nl +:+
  "    def totuplelist(ddfile):" +:+ nl +:+
  "        return list(Choices.choicedict[ddfile].items())" +:+ nl +:+
  nl.

(** The loop of [configchoices] over [themes.items()]. *)
Definition themechoices_of (themes : list (string * theme_desc))
    : list (string * string) :=
  fold_left (fun themechoices kv =>
               dict_set (fst kv) (disp_name (snd kv)) themechoices)
            themes [].

Section FormsAndChoices.

(** [str] of the values that are formatted into the texts, and the date
    of the run. *)
Variable str_of_list : list string -> string.
Variable str_of_labels : list (string * string) -> string.
Variable str_of_choicedict : list (string * list (string * string)) -> string.
Variable today : string.

Definition configfields (cfg : genconfig) : io string :=
  '(fields, labels) ← fields_loop cfg;
  mret (fieldspy today (str_of_list fields) (str_of_labels labels)).

(** [configchoices].  [choicedict] is the [dropdown] dict of [jsonconfig]
    itself, not a copy: the assignment of [choicedict["themes"]] changes
    [jsonconfig].  The result is the text with the [dropdown] section as
    the call leaves it. *)
Definition configchoices (cfg : genconfig) (themes : list (string * theme_desc))
    : string * genconfig :=
  let choicedict := dict_set "themes" (themechoices_of themes) (dropdown cfg) in
  (choicespy today (str_of_choicedict choicedict),
   GenConfig (schema cfg) (headers cfg) choicedict).

End FormsAndChoices.

(** The four datatypes of the form fields. *)
Definition form_datatype (dt : string) : Prop :=
  dt = "date" \/ dt = "select" \/ dt = "string" \/ dt = "text".

#[global] Instance form_datatype_dec (dt : string) : Decision (form_datatype dt).
Proof. unfold form_datatype. apply _. Defined.

(** A schema with a [select], a [string] and a [blob] column, its
    headers and one dropdown list. *)
Definition contacts_config : genconfig :=
  GenConfig
    (JsonConfig [("main", [Column "name" "string" (Some 64) None;
                           Column "kind" "select" None (Some "kinds");
                           Column "photo" "blob" None None])] None)
    [("name", "Name"); ("kind", "Kind")]
    [("kinds", [("p", "Person"); ("c", "Company")])].

Definition contacts_without_kind_header : genconfig :=
  GenConfig (schema contacts_config) [("name", "Name")] (dropdown contacts_config).

(** The columns of a table section as the two loops of [configmodels]
    meet them: each with the name of its group. *)
Definition grouped_columns (tbl : list (string * list column))
    : list (string * column) :=
  flat_map (fun g => map (fun y => (fst g, y)) (snd g)) tbl.

(** ** The registry of themes *)

(** The entry that the compile step stores for the descriptor [th0]:
    the descriptor with its [css] path replaced by the compiled text. *)
Definition compiled_theme (compress : string -> string)
    (themecss own : string) (th0 : theme_desc) : theme_desc :=
  ThemeDesc (int_name th0) (disp_name th0) (fonts th0)
            (compress (themecss +:+ own)).

(** The index.json that the compile step looks for. *)
Definition theme_index (name : string) : string :=
  path_join (path_join "config/themes" name) "index.json".

Definition index_warning (name : string) : string :=
  "themecfg.py WARNING: Theme directory " +:+ dq
  +:+ path_join "config/themes" name +:+ dq
  +:+ " does not have an index.json. The theme would not be available.".

(** What the registry holds under [k], for the descriptors [l]. *)
Definition registered (compress : string -> string) (w : world)
    (themecss : string) (l : list theme_desc) (k : string) (th : theme_desc)
    : Prop :=
  path_exists w (theme_index k) = true /\
  exists th0 own,
    th0 ∈ l /\ int_name th0 = k /\ open_read w (css th0) = Returns own /\
    th = compiled_theme compress themecss own th0.

(** ** [Command.handle] of [genmodels.py] *)

(** Writing to the file system.  A path that names a file is removed or
    overwritten; a path that names a directory and no file is refused. *)

(** [os.remove(p)] *)
Definition remove_file (w : world) (p : string) : result world :=
  match files w !! p with
  | Some _ => Returns (World (themes_listing w) (is_dir w) (delete p (files w)))
  | None => if is_dir w p then Raises (IsADirectoryError p)
            else Raises (FileNotFoundError p)
  end.

(** [open(p, "w")] followed by [f.write(content)] *)
Definition write_file (w : world) (p content : string) : result world :=
  match files w !! p with
  | None =>
      if is_dir w p then Raises (IsADirectoryError p)
      else Returns (World (themes_listing w) (is_dir w) (<[p := content]> (files w)))
  | Some _ =>
      Returns (World (themes_listing w) (is_dir w) (<[p := content]> (files w)))
  end.

(** [shutil.copyfile(src, dst)]: the source is opened first. *)
Definition copyfile (w : world) (src dst : string) : result world :=
  content ← open_read w src;
  write_file w dst content.

(** The backup of the database, with the file system it leaves: what
    [os.remove] has deleted stays deleted when [shutil.copyfile] raises. *)
Definition backup_db (w : world) : result unit * world :=
  if path_exists w "db.sqlite3" then
    match (if path_exists w "db_backup.sqlite3"
           then remove_file w "db_backup.sqlite3" else Returns w) with
    | Raises e => (Raises e, w)
    | Returns w1 =>
        match copyfile w1 "db.sqlite3" "db_backup.sqlite3" with
        | Raises e => (Raises e, w1)
        | Returns w2 => (Returns tt, w2)
        end
    end
  else (Returns tt, w).

Definition config_missing_error (cwd : string) : string :=
  "genmodels.py ERROR: config/config.json does not exist. "
  +:+ "Current working directory is " +:+ dq +:+ cwd +:+ dq +:+ ".".

Definition config_json_error (e : string) : string :=
  "genmodels.py ERROR: Exception " +:+ dq +:+ e +:+ dq
  +:+ " raised by JSON library".

Section Handle.

(** [json.loads] on the text of config.json: the message of a
    [JSONDecodeError], or the document, a JSON object.  [json_dumps] is
    [json.dumps] on the registry, and [cwd] is [os.getcwd()]. *)
Variable json_loads_config : string -> string + gmap string jsonconfig.
Variable json_load_index : string -> string + gmap string theme_desc.
Variable path_suffix : string -> string.
Variable b64encode : string -> string.
Variable compress : string -> string.
Variable json_dumps : list (string * theme_desc) -> string.
Variable cwd : string.

(** The configuration, or [None] where [handle] prints an error and
    returns. *)
Definition load_config (w : world) : io (option jsonconfig) :=
  if path_exists w "config/config.json" then
    content ← lift (open_read w "config/config.json");
    match json_loads_config content with
    | inr doc =>
        jsonconfig ← member "config" (doc !! "config");
        mret (Some jsonconfig)
    | inl e =>
        print (config_json_error e);;
        mret None
    end
  else
    print (config_missing_error cwd);;
    mret None.

(** The result of [handle], the file system after it and the console. *)
Definition handle (w : world) (c : console) : result unit * world * console :=
  match backup_db w with
  | (Raises e, w1) => (Raises e, w1, c)
  | (Returns _, w1) =>
      match load_config w1 c with
      | (Raises e, c1) => (Raises e, w1, c1)
      | (Returns None, c1) => (Returns tt, w1, c1)
      | (Returns (Some jsonconfig), c1) =>
          match (themeindices ← discover_themes json_load_index w1;
                 compile_css path_suffix b64encode compress w1 jsonconfig
                             themeindices) c1 with
          | (Raises e, c2) => (Raises e, w1, c2)
          | (Returns themes, c2) =>
              match write_file w1 "themecfg.json" (json_dumps themes) with
              | Raises e => (Raises e, w1, c2)
              | Returns w2 => (Returns tt, w2, c2)
              end
          end
      end
  end.

End Handle.

(** A project directory with a database, a configuration and one theme. *)
Definition sample_loads_config (content : string)
    : string + gmap string jsonconfig :=
  if String.eqb content "{}" then inr ∅
  else if String.prefix "{" content then inr {["config" := plain_config]}
  else inl "Expecting value: line 1 column 1 (char 0)".

Definition sample_load_index (content : string)
    : string + gmap string theme_desc :=
  if String.prefix "{" content then inr {["theme" := plain_theme]}
  else inl "Expecting value: line 1 column 1 (char 0)".

Definition sample_dumps (themes : list (string * theme_desc)) : string :=
  fold_right (fun kv s => fst kv +:+ ":" +:+ css (snd kv) +:+ ";" +:+ s)
             EmptyString themes.

Definition project_files : gmap string string :=
  <["db.sqlite3" := "DATA"]>
    (<["db_backup.sqlite3" := "OLD"]>
       (<["config/config.json" := "{config}"]> plain_files)).

Definition project_world : world :=
  World (Some ["plain"]) (fun p => String.eqb p "config/themes/plain") project_files.

Definition sample_handle : world -> console -> result unit * world * console :=
  handle sample_loads_config sample_load_index (fun _ => ".ttf")
         (fun b => b) (fun s => s) sample_dumps "/srv/cams".

(** [w'] differs from [w] in the files [ps] at most. *)
Definition unchanged_outside (ps : list string) (w w' : world) : Prop :=
  themes_listing w' = themes_listing w /\
  is_dir w' = is_dir w /\
  forall p, p ∉ ps -> files w' !! p = files w !! p.

(** A directory with a database and nothing else, and a project in which
    every path is a directory as well, themecfg.json included. *)
Definition bare_world : world :=
  World None (fun _ => false) {["db.sqlite3" := "DATA"]}.

Definition locked_world : world :=
  World (Some ["plain"]) (fun p => negb (String.eqb p "db_backup.sqlite3"))
        project_files.

(** What the dict [d] of the row [row] holds, for a header of distinct
    names: each name with the text of the cell in its column, or [None]
    when the row ends before that column; no other name; and under the
    key [None] the list of the cells beyond the header, when there are
    any. *)
Definition row_mapping (fieldnames row : list string)
    (d : gmap (option string) cell) : Prop :=
  (forall i name, fieldnames !! i = Some name ->
     d !! Some name = Some (match row !! i with
                            | Some s => Text s
                            | None => Missing
                            end)) /\
  (forall name, name ∉ fieldnames -> d !! Some name = None) /\
  d !! None = (if (length fieldnames <? length row)%nat
               then Some (Rest (drop (length fieldnames) row)) else None).

(** *** A table written as text

    A cell is plain when it holds no delimiter, no quote, no line break
    and no NUL, which older versions of the module refuse; such a cell
    is written as it is.  A row is written with its cells joined by
    commas and a line feed at the end. *)
Definition plain_char (c : ascii) : bool :=
  negb (is_newline c || is_quote c || is_delimiter c
        || Ascii.eqb c (ascii_of_nat 0)).

Fixpoint plain_cell (s : string) : bool :=
  match s with
  | EmptyString => true
  | String c s' => plain_char c && plain_cell s'
  end.

Definition csv_line (row : list string) : string :=
  String.concat "," row +:+ nl.

Definition csv_text (rows : list (list string)) : string :=
  fold_right (fun row s => csv_line row +:+ s) EmptyString rows.

(** A row that its line determines: it has a cell, and it is not the
    one empty cell, whose line is the line of no cell at all; its cells
    are plain and within the field size limit. *)
Definition written_row (row : list string) : bool :=
  match row with
  | [] => false
  | [EmptyString] => false
  | _ => forallb plain_cell row
         && forallb (fun cell => N.of_nat (String.length cell) <=? field_size_limit)%N
                    row
  end.

(** What follows the first cell on the line of a row. *)
Fixpoint rest_line (cells : list string) : string :=
  match cells with
  | [] => nl
  | cell :: cells' => "," +:+ cell +:+ rest_line cells'
  end.

Fixpoint no_newline (s : string) : bool :=
  match s with
  | EmptyString => true
  | String c s' => negb (is_newline c) && no_newline s'
  end.

(** ** The import of [cams/lib.py]

    The body of the module runs from top to bottom.  A [def] binds its
    name when it is reached; a call of a global name that is not bound
    yet raises [NameError].  The two [if] statements of the module read
    config/config.json and themecfg.json. *)
Inductive import_exn :=
| Raised (e : exn)
| JSONDecodeError (msg : string).

Record module_env := ModuleEnv {
  defined : list string;
  env_jsondata : option (gmap string pyval);
  env_themes : option (gmap string pyval)
}.

Inductive stmt :=
| LoadConfig
| Def (name : string)
| LoadThemes.

Definition lib_body : list stmt :=
  [LoadConfig; Def "printe"; Def "getconfig"; Def "dt2fmt"; Def "hsize";
   Def "mkcontext"; LoadThemes; Def "theme"].

Definition config_missing_text : string :=
  "lib.py ERROR: config/config.json does not exist".

Definition themecfg_missing_text : string :=
  "lib.py ERROR: themecfg.json does not exist, it may not have been generated yet".

(** A call [printe(text)] in the module body. *)
Definition call_printe (env : module_env) (text : string) (c : console)
    : (import_exn + unit) * console :=
  if in_list "printe" (defined env) then (inr tt, c ++ [text])
  else (inl (Raised (NameError "printe")), c).

Section LibImport.

(** [json.loads] on the text of the two files: the message of a
    [JSONDecodeError], or the document, a JSON object. *)
Variable json_loads_document : string -> string + gmap string (gmap string pyval).
Variable json_loads_themes : string -> string + gmap string pyval.

Definition exec_stmt (w : world) (s : stmt) (env : module_env) (c : console)
    : (import_exn + module_env) * console :=
  match s with
  | Def name =>
      (inr (ModuleEnv (defined env ++ [name]) (env_jsondata env) (env_themes env)),
       c)
  | LoadConfig =>
      if path_exists w "config/config.json" then
        match open_read w "config/config.json" with
        | Raises e => (inl (Raised e), c)
        | Returns content =>
            match json_loads_document content with
            | inl msg => (inl (JSONDecodeError msg), c)
            | inr doc =>
                match doc !! "config" with
                | None => (inl (Raised (KeyError "config")), c)
                | Some cfg =>
                    (inr (ModuleEnv (defined env) (Some cfg) (env_themes env)), c)
                end
            end
        end
      else
        match call_printe env config_missing_text c with
        | (inl e, c') => (inl e, c')
        | (inr _, c') => (inr env, c')
        end
  | LoadThemes =>
      if path_exists w "themecfg.json" then
        match open_read w "themecfg.json" with
        | Raises e => (inl (Raised e), c)
        | Returns content =>
            match json_loads_themes content with
            | inl msg => (inl (JSONDecodeError msg), c)
            | inr registry =>
                (inr (ModuleEnv (defined env) (env_jsondata env) (Some registry)),
                 c)
            end
        end
      else
        match call_printe env themecfg_missing_text c with
        | (inl e, c') => (inl e, c')
        | (inr _, c') =>
            (inr (ModuleEnv (defined env) (env_jsondata env) (Some ∅)), c')
        end
  end.

Fixpoint exec_body (w : world) (body : list stmt) (env : module_env)
    (c : console) : (import_exn + module_env) * console :=
  match body with
  | [] => (inr env, c)
  | s :: body' =>
      match exec_stmt w s env c with
      | (inl e, c') => (inl e, c')
      | (inr env', c') => exec_body w body' env' c'
      end
  end.

Definition import_lib (w : world) : console -> (import_exn + module_env) * console :=
  exec_body w lib_body (ModuleEnv [] None None).

End LibImport.

(** The globals that the functions of the module see after the import. *)
Definition globals_of (env : module_env) (ver : string) : option lib_globals :=
  match env_jsondata env, env_themes env with
  | Some j, Some t => Some (LibGlobals j t ver)
  | _, _ => None
  end.

Definition sample_loads_document (content : string)
    : string + gmap string (gmap string pyval) :=
  if String.prefix "{" content
  then inr {["config" := {["misc" := PDict [("strftime", PStr "%Y")]]}]}
  else inl "Expecting value: line 1 column 1 (char 0)".

Definition sample_loads_themes (content : string)
    : string + gmap string pyval :=
  if String.prefix "{" content then inr {["default" := PStr content]}
  else inl "Expecting value: line 1 column 1 (char 0)".

Definition configured_world : world :=
  World None (fun _ => false) {["config/config.json" := "{config}"]}.

(** A datatype that no branch of [configmodels] takes, and the warnings
    that the columns of such datatypes get. *)
Definition unknown_datatype (dt : string) : bool :=
  negb (str_in dt "select") && negb (String.eqb dt "string")
  && negb (String.eqb dt "text") && negb (String.eqb dt "date").

Definition column_warnings (cols : list column) : list string :=
  map (fun y => unknown_warning (datatype y))
      (List.filter (fun y => unknown_datatype (datatype y)) cols).

(** The member that the branch of [configmodels] for the column [y]
    reads and [y] does not have. *)
Definition missing_member (y : column) : option string :=
  if str_in (datatype y) "select" then
    match ddfile y with
    | None => Some "ddfile"
    | Some _ => None
    end
  else if String.eqb (datatype y) "string" then
    match max y with
    | None => Some "max"
    | Some _ => None
    end
  else None.

(** The two methods of the generated module that hold the column names,
    as they read for the list [names]: [todict] returns a dict display
    with an entry for every name, in order, and [fieldnames] returns
    the list, written as [str] writes it. *)
Definition todict_entry (i : string) : string :=
  dq +:+ i +:+ dq +:+ ": self." +:+ i +:+ ", ".

Definition todict_method (names : list string) : string :=
  "    def todict(self):" +:+ nl +:+
  "        return {" +:+ String.concat EmptyString (map todict_entry names)
  +:+ "}" +:+ nl.

Definition fieldnames_method (names_text : string) : string :=
  "    def fieldnames():" +:+ nl +:+
  "        return " +:+ names_text +:+ nl.

(** ** The font type of a font face *)

(** The font type that the suffix of a font file names. *)
Definition known_type (ext : string) : option string :=
  if String.eqb ext ".otf" then Some "opentype"
  else if String.eqb ext ".ttf" then Some "truetype"
  else None.

(** The type with which a font is to be declared: that of the last
    font, among the fonts handled before it and the font itself, whose
    file has one of the two known suffixes. *)
Definition declared_type (path_suffix : string -> string)
    (before : list (string * string)) (font : string * string)
    : option string :=
  last (omap (fun f => known_type (path_suffix (snd f))) (before ++ [font])).

(** The font faces of the fonts [l], handled after the fonts [before];
    [content] gives the bytes of a font file. *)
Fixpoint font_faces (path_suffix b64encode content : string -> string)
    (before l : list (string * string)) : string :=
  match l with
  | [] => EmptyString
  | font :: l' =>
      font_face (fst font)
                (default EmptyString (declared_type path_suffix before font))
                (b64encode (content (snd font)))
      +:+ font_faces path_suffix b64encode content (before ++ [font]) l'
  end.

(** Two themes: the font of the first is a TrueType file, that of the
    second has a suffix that names no type. *)
Definition sample_suffix (p : string) : string :=
  if String.eqb p "fonts/body.ttf" then ".ttf" else ".woff".

Definition sample_font_bytes (p : string) : string :=
  if String.eqb p "fonts/body.ttf" then "FONT" else "WOFF".

Definition two_font_themes : list theme_desc :=
  [ThemeDesc "plain" "Plain" [("Body", "fonts/body.ttf")] "plain.css";
   ThemeDesc "fancy" "Fancy" [("Head", "fonts/head.woff")] "fancy.css"].

Definition two_font_world : world :=
  World None (fun _ => false)
        {["fonts/body.ttf" := "FONT"; "fonts/head.woff" := "WOFF"]}.

(* ================================================================== *)
(** * Theorems *)

(** ** [hsize] *)

Section HsizeFacts.

(** Linear arithmetic over [Q] after turning [_ / 1024] into a product. *)
Ltac lra1024 :=
  unfold Qdiv in *; change (/ 1024)%Q with (1 # 1024)%Q in *; lra.

Lemma float_of_int_exact (n : Z) :
  Z.abs n < 2 ^ 53 -> float_of_int n = Returns (inject_Z n).
Proof.
  intros Hn. unfold float_of_int.
  assert (Hlog : Z.log2 (Z.abs n) - 52 <= 0).
  { destruct (Z.eq_dec (Z.abs n) 0) as [->|Hz]; [simpl; lia|].
    assert (Z.log2 (Z.abs n) < 53); [|lia].
    apply Z.log2_lt_pow2; lia. }
  rewrite Z.max_l by lia.
  rewrite Z.shiftr_0_r, Z.shiftl_0_r, Z.sub_diag.
  change (2 * 0 ?= 2 ^ 0)%Z with Lt. cbv iota.
  destruct (Z.leb_spec (2 ^ 1024) (Z.abs n)) as [H|H].
  - exfalso. assert (2 ^ 53 < 2 ^ 1024) by (apply Z.pow_lt_mono_r; lia). lia.
  - do 2 f_equal. clear. destruct n; reflexivity.
Qed.

(** [round_half_even] returns a nearest integer, and the even one at a tie. *)
Lemma round_half_even_nearest (x : Q) :
  (Qabs (x - inject_Z (round_half_even x)) <= 1 # 2)%Q /\
  ((Qabs (x - inject_Z (round_half_even x)) == 1 # 2)%Q ->
   Z.even (round_half_even x) = true).
Proof.
  unfold round_half_even.
  pose proof (Qfloor_le x) as Hlo. pose proof (Qlt_floor x) as Hhi.
  set (f := Qfloor x) in *.
  rewrite inject_Z_plus in Hhi. change (inject_Z 1) with 1%Q in Hhi.
  destruct (Qcompare_spec (x - inject_Z f) (1 # 2)) as [He|Hl|Hg].
  - destruct (Z.even f) eqn:Hev.
    + split; [|auto]. apply Qabs_Qle_condition. split; lra.
    + split.
      * rewrite inject_Z_plus. change (inject_Z 1) with 1%Q.
        apply Qabs_Qle_condition. split; lra.
      * intros _. rewrite Z.even_add, Hev. reflexivity.
  - split.
    + apply Qabs_Qle_condition. split; lra.
    + intros Habs. exfalso. rewrite Qabs_pos in Habs by lra. lra.
  - rewrite inject_Z_plus. change (inject_Z 1) with 1%Q. split.
    + apply Qabs_Qle_condition. split; lra.
    + intros Habs. exfalso.
      rewrite Qabs_neg in Habs by lra. lra.
Qed.

Lemma round_half_even_Z (n : Z) : round_half_even (inject_Z n) = n.
Proof.
  unfold round_half_even. rewrite Qfloor_Z.
  destruct (Qcompare_spec (inject_Z n - inject_Z n) (1 # 2)) as [H|H|H];
    [exfalso; lra | reflexivity | exfalso; lra].
Qed.

Lemma Qle_bool_0_inject_Z (n : Z) : Qle_bool 0 (inject_Z n) = (0 <=? n).
Proof. unfold Qle_bool, inject_Z. cbn [Qnum Qden]. f_equal; lia. Qed.

Lemma format_0f_nonneg (n : Z) :
  0 <= n -> format_0f (inject_Z n) = str_of_nonneg n.
Proof.
  intros Hn. unfold format_0f. rewrite Qle_bool_0_inject_Z.
  replace (0 <=? n) with true by (symmetry; apply Z.leb_le; exact Hn).
  change (Qabs (inject_Z n)) with (inject_Z (Z.abs n)).
  rewrite round_half_even_Z, Z.abs_eq by exact Hn. reflexivity.
Qed.

Lemma format_0f_neg (n : Z) :
  n < 0 -> format_0f (inject_Z n) = "-" +:+ str_of_nonneg (- n).
Proof.
  intros Hn. unfold format_0f. rewrite Qle_bool_0_inject_Z.
  destruct (Z.leb_spec 0 n) as [Hle|_].
  - lia.
  - change (Qabs (inject_Z n)) with (inject_Z (Z.abs n)).
    rewrite round_half_even_Z, Z.abs_neq by lia. reflexivity.
Qed.

(** Below 1024 in magnitude the first unit is used and nothing is scaled. *)
Lemma hsize_first_unit (n : Z) :
  Z.abs n < 1024 ->
  hsize n = Returns (pad3 (format_0f (inject_Z n)) +:+ " " +:+ suffix).
Proof.
  intros Hn. unfold hsize, units. cbn [hsize_loop abs_lt_1024].
  replace (Z.abs n <? 1024) with true by (symmetry; apply Z.ltb_lt; exact Hn).
  cbn [format_3_0f]. rewrite float_of_int_exact by lia. reflexivity.
Qed.

Lemma hsize_second_unit (n : Z) :
  1024 <= n < 1024 ^ 2 ->
  hsize n =
  Returns (pad3 (str_of_nonneg (round_half_even (Qabs (inject_Z n / 1024))))
           +:+ "Ki" +:+ suffix).
Proof.
  intros Hn. unfold hsize, units. cbn [hsize_loop abs_lt_1024].
  replace (Z.abs n <? 1024) with false by (symmetry; apply Z.ltb_ge; lia).
  cbn [truediv_1024]. rewrite float_of_int_exact by lia.
  cbn [mbind result_bind hsize_loop abs_lt_1024].
  assert (Hq : (1024 <= inject_Z n < 1048576)%Q).
  { split.
    - change 1024%Q with (inject_Z 1024). rewrite <- Zle_Qle. lia.
    - change 1048576%Q with (inject_Z 1048576). rewrite <- Zlt_Qlt. lia. }
  remember (inject_Z n) as y eqn:Hy. clear Hy.
  destruct (Qle_bool 1024 (Qabs (y / 1024))) eqn:Hle.
  - exfalso. apply Qle_bool_iff in Hle.
    apply (Qle_not_lt _ _ Hle), Qabs_Qlt_condition. split; lra1024.
  - cbn [negb format_3_0f mbind result_bind]. unfold format_0f.
    replace (Qle_bool 0 (y / 1024)) with true
      by (symmetry; apply Qle_bool_iff; lra1024).
    reflexivity.
Qed.

(** A float whose magnitude is at least [1024 ^ length us] is scaled past
    every unit of [us], so the loop ends in the final [return]. *)
Lemma hsize_loop_exhausts (us : list string) (x : Q) :
  (inject_Z (1024 ^ Z.of_nat (length us)) <= Qabs x)%Q ->
  hsize_loop us (PyFloat x) = Raises (NameError "num").
Proof.
  revert x. induction us as [|u us IH]; intros x Hx; [reflexivity|].
  cbn [hsize_loop abs_lt_1024 truediv_1024 mbind result_bind].
  cbn [length] in Hx.
  rewrite Nat2Z.inj_succ, Z.pow_succ_r, inject_Z_mult in Hx by lia.
  change (inject_Z 1024) with 1024%Q in Hx.
  assert (Hpos : (1 <= inject_Z (1024 ^ Z.of_nat (length us)))%Q).
  { change 1%Q with (inject_Z 1). rewrite <- Zle_Qle.
    assert (0 < 1024 ^ Z.of_nat (length us)) by (apply Z.pow_pos_nonneg; lia).
    lia. }
  assert (Hdiv : (Qabs (x / 1024) == Qabs x * (1 # 1024))%Q).
  { unfold Qdiv. rewrite Qabs_Qmult. reflexivity. }
  destruct (Qle_bool 1024 (Qabs x)) eqn:Hle.
  - cbn [negb]. apply IH. rewrite Hdiv.
    remember (inject_Z (1024 ^ Z.of_nat (length us))) as p.
    remember (Qabs x) as y. lra.
  - exfalso. assert (Hn : ~ (1024 <= Qabs x)%Q).
    { intros H. apply Qle_bool_iff in H. congruence. }
    apply Hn. remember (inject_Z (1024 ^ Z.of_nat (length us))) as p.
    remember (Qabs x) as y. lra.
Qed.

(** Rounding an [int] to a [float] never brings it below a power of two
    that the [int] has reached. *)
Lemma float_of_int_lower (n : Z) (x : Q) (k : Z) :
  53 <= k -> 2 ^ k <= Z.abs n ->
  float_of_int n = Returns x ->
  (inject_Z (2 ^ k) <= Qabs x)%Q.
Proof.
  intros Hk Hn. unfold float_of_int.
  set (a := Z.abs n) in *.
  assert (Ha : 0 < a) by (assert (0 < 2 ^ k) by (apply Z.pow_pos_nonneg; lia); lia).
  assert (Hlog : k <= Z.log2 a) by (apply Z.log2_le_pow2; lia).
  rewrite Z.max_r by lia.
  set (sh := Z.log2 a - 52).
  set (q := Z.shiftr a sh).
  set (q' := match (2 * (a - Z.shiftl q sh) ?= 2 ^ sh)%Z with
             | Eq => if Z.even q then q else q + 1
             | Lt => q
             | Gt => q + 1
             end).
  assert (Hq' : q <= q') by (subst q'; destruct (_ ?= _)%Z; [destruct (Z.even q)| |]; lia).
  assert (Hsh : 0 < 2 ^ sh) by (apply Z.pow_pos_nonneg; lia).
  assert (Hq : 2 ^ 52 <= q).
  { subst q. rewrite Z.shiftr_div_pow2 by lia.
    apply Z.div_le_lower_bound; [lia|].
    rewrite <- Z.pow_add_r by lia. replace (sh + 52) with (Z.log2 a) by lia.
    apply Z.log2_spec. exact Ha. }
  assert (Hv : 2 ^ k <= Z.shiftl q' sh).
  { rewrite Z.shiftl_mul_pow2 by lia.
    transitivity (2 ^ 52 * 2 ^ sh); [|apply Z.mul_le_mono_nonneg_r; lia].
    rewrite <- Z.pow_add_r by lia. apply Z.pow_le_mono_r; lia. }
  destruct (2 ^ 1024 <=? Z.shiftl q' sh); [discriminate|].
  intros [= <-]. change (Qabs (inject_Z ?z)) with (inject_Z (Z.abs z)).
  rewrite <- Zle_Qle. rewrite Z.abs_mul.
  replace (Z.abs (Z.sgn n)) with 1 by (subst a; clear - Ha; destruct n; cbn in *; lia).
  lia.
Qed.

(** An [int] below [2 ^ 1023] in magnitude converts to a [float]. *)
Lemma float_of_int_fits (n : Z) :
  Z.abs n < 2 ^ 1023 -> exists x, float_of_int n = Returns x.
Proof.
  intros Hn. unfold float_of_int.
  set (a := Z.abs n) in *.
  set (sh := Z.max 0 (Z.log2 a - 52)).
  set (q := Z.shiftr a sh).
  set (q' := match (2 * (a - Z.shiftl q sh) ?= 2 ^ sh)%Z with
             | Eq => if Z.even q then q else q + 1
             | Lt => q
             | Gt => q + 1
             end).
  assert (H0 : 0 <= a) by (subst a; lia).
  assert (Hsh0 : 0 <= sh) by (subst sh; lia).
  assert (Hsh : 0 < 2 ^ sh) by (apply Z.pow_pos_nonneg; lia).
  assert (Hq' : q' <= q + 1) by (subst q'; destruct (_ ?= _)%Z; [destruct (Z.even q)| |]; lia).
  assert (Hq : q * 2 ^ sh <= a).
  { subst q. rewrite Z.shiftr_div_pow2 by lia. rewrite Z.mul_comm.
    apply Z.mul_div_le. lia. }
  assert (Hpow : a = 0 \/ 2 ^ sh <= a).
  { destruct (Z.eq_dec a 0) as [|Hne]; [left; assumption|right].
    transitivity (2 ^ Z.log2 a); [|apply Z.log2_spec; lia].
    apply Z.pow_le_mono_r; [lia|]. subst sh.
    pose proof (Z.log2_nonneg a). lia. }
  destruct (Z.leb_spec (2 ^ 1024) (Z.shiftl q' sh)) as [Hbig|_]; [|eauto].
  exfalso. rewrite Z.shiftl_mul_pow2 in Hbig by lia.
  change (2 ^ 1024) with (2 * 2 ^ 1023) in Hbig.
  destruct Hpow as [Hz|Hpow].
  - assert (sh = 0) by (subst sh; rewrite Hz; reflexivity).
    assert (q = 0) by (subst q; rewrite Hz; apply Z.shiftr_0_l).
    assert (q' = 0).
    { subst q'. replace q with 0 by lia. replace sh with 0 by lia.
      rewrite Hz. reflexivity. }
    assert (0 < 2 ^ 1023) by (apply Z.pow_pos_nonneg; lia). nia.
  - nia.
Qed.

(** An [int] of magnitude 1024 or more is converted and divided once. *)
Lemma hsize_loop_int_scales (u : string) (us : list string) (n : Z) :
  1024 <= Z.abs n ->
  hsize_loop (u :: us) (PyInt n) =
  float_of_int n ≫= (fun x => hsize_loop us (PyFloat (x / 1024))).
Proof.
  intros Hn. cbn [hsize_loop abs_lt_1024].
  replace (Z.abs n <? 1024) with false by (symmetry; apply Z.ltb_ge; lia).
  cbn [truediv_1024]. destruct (float_of_int n); reflexivity.
Qed.

Lemma pad3_length (s : string) : (3 <= String.length (pad3 s))%nat.
Proof.
  unfold pad3.
  assert (Hsp : forall k, String.length (spaces k) = k)
    by (induction k; cbn; congruence).
  assert (Happ : forall a b, String.length (a +:+ b)
                             = (String.length a + String.length b)%nat)
    by (induction a; intros; simpl; [|rewrite IHa]; reflexivity).
  rewrite Happ, Hsp. lia.
Qed.

End HsizeFacts.

(** C1 (as amended).  For [0 <= n < 1024], [hsize n] is [n] in a field of
    width 3, the first unit (one space) and [Bytes].  For
    [1024 <= n < 1024^2] it is the integer nearest to [n/1024] (the even
    one at a tie) in a field of width at least 3, followed directly by
    [KiBytes]: no space separates [Ki] from [Bytes].  In particular
    [hsize 1023] is [1023 Bytes] and [hsize 1024] is [  1KiBytes]. *)
Theorem hsize_bytes_and_Ki (n : Z) :
  (0 <= n < 1024 ->
   hsize n = Returns (pad3 (str_of_nonneg n) +:+ " " +:+ "Bytes")) /\
  (1024 <= n < 1024 ^ 2 ->
   exists m : Z,
     hsize n = Returns (pad3 (str_of_nonneg m) +:+ "Ki" +:+ "Bytes") /\
     (3 <= String.length (pad3 (str_of_nonneg m)))%nat /\
     (Qabs (inject_Z n / 1024 - inject_Z m) <= 1 # 2)%Q /\
     ((Qabs (inject_Z n / 1024 - inject_Z m) == 1 # 2)%Q -> Z.even m = true)) /\
  hsize 1023 = Returns "1023 Bytes" /\
  hsize 1024 = Returns "  1KiBytes".
Proof.
  split; [|split; [|split; reflexivity]].
  - intros Hn. rewrite hsize_first_unit by lia.
    rewrite format_0f_nonneg by lia. reflexivity.
  - intros Hn. exists (round_half_even (Qabs (inject_Z n / 1024))).
    split; [apply hsize_second_unit; exact Hn|].
    split; [apply pad3_length|].
    assert (Habs : (Qabs (inject_Z n / 1024) == inject_Z n / 1024)%Q).
    { apply Qabs_pos. apply Qle_shift_div_l; [reflexivity|].
      rewrite Qmult_0_l. change 0%Q with (inject_Z 0). rewrite <- Zle_Qle. lia. }
    generalize (round_half_even_nearest (Qabs (inject_Z n / 1024))).
    generalize (round_half_even (Qabs (inject_Z n / 1024))). intros m.
    rewrite Habs. tauto.
Qed.

(** C1, the witness: 5 bytes, and 1536 bytes, which is a tie between 1
    and 2 and is written as 2. *)
Lemma hsize_bytes_and_Ki_witness :
  hsize 5 = Returns "  5 Bytes" /\
  exists m : Z,
    hsize 1536 = Returns (pad3 (str_of_nonneg m) +:+ "Ki" +:+ "Bytes") /\
    (3 <= String.length (pad3 (str_of_nonneg m)))%nat /\
    (Qabs (inject_Z 1536 / 1024 - inject_Z m) <= 1 # 2)%Q /\
    ((Qabs (inject_Z 1536 / 1024 - inject_Z m) == 1 # 2)%Q -> Z.even m = true).
Proof.
  split.
  - apply (proj1 (hsize_bytes_and_Ki 5)). lia.
  - apply (proj1 (proj2 (hsize_bytes_and_Ki 1536))). lia.
Defined.

(** C1, the counterexample: [hsize 1024] is not [  1Ki Bytes]. *)
Lemma hsize_1024_has_no_space :
  ~ (hsize 1024 = Returns "  1Ki Bytes").
Proof. vm_compute. discriminate. Qed.

(** C9.  For [-1024 < n < 0], [hsize n] is [n] with its sign, in a field
    of width 3, followed by the first unit and [Bytes]: the threshold is
    tested on [abs(fsize)], so nothing is scaled.  [hsize (-500)] is
    [-500 Bytes]. *)
Theorem hsize_negative_bytes (n : Z) :
  (-1024 < n < 0 ->
   abs_lt_1024 (PyInt n) = true /\
   hsize n = Returns (pad3 ("-" +:+ str_of_nonneg (- n)) +:+ " " +:+ "Bytes")) /\
  hsize (-500) = Returns "-500 Bytes".
Proof.
  split; [|reflexivity]. intros Hn. split.
  - cbn [abs_lt_1024]. apply Z.ltb_lt. lia.
  - rewrite hsize_first_unit by lia. rewrite format_0f_neg by lia. reflexivity.
Qed.

Lemma hsize_negative_bytes_witness :
  abs_lt_1024 (PyInt (-7)) = true /\ hsize (-7) = Returns " -7 Bytes".
Proof. apply (proj1 (hsize_negative_bytes (-7))). lia. Defined.

(** The largest [int] that converts: [float] rounds to nearest, so the
    conversion overflows from [2^1024 - 2^970] on, half a unit in the last
    place below [2^1024]. *)
Lemma float_of_int_top_binade (a : Z) :
  2 ^ 1023 <= a < 2 ^ 1024 ->
  Z.max 0 (Z.log2 a - 52) = 971 /\
  Z.shiftr a 971 * 2 ^ 971 <= a < (Z.shiftr a 971 + 1) * 2 ^ 971 /\
  2 ^ 52 <= Z.shiftr a 971 < 2 ^ 53.
Proof.
  intros Ha.
  assert (Hlog : Z.log2 a = 1023) by (apply Z.log2_unique; [lia|exact Ha]).
  rewrite Hlog. split; [reflexivity|].
  rewrite Z.shiftr_div_pow2 by lia.
  assert (Hp : 0 < 2 ^ 971) by (apply Z.pow_pos_nonneg; lia).
  pose proof (Z.div_mod a (2 ^ 971) ltac:(lia)) as Hdm.
  pose proof (Z.mod_pos_bound a (2 ^ 971) Hp) as Hmod.
  change (2 ^ 1023) with (2 ^ 52 * 2 ^ 971) in Ha.
  change (2 ^ 1024) with (2 ^ 53 * 2 ^ 971) in Ha.
  split; [lia|].
  split.
  - apply Z.div_le_lower_bound; lia.
  - apply Z.div_lt_upper_bound; lia.
Qed.

Lemma float_of_int_overflows (n : Z) :
  2 ^ 1024 - 2 ^ 970 <= Z.abs n -> float_of_int n = Raises OverflowError.
Proof.
  intros Hn. unfold float_of_int. set (a := Z.abs n) in *.
  assert (Hp970 : 0 < 2 ^ 970) by (apply Z.pow_pos_nonneg; lia).
  assert (Hbinade : 2 ^ 1023 <= a).
  { change (2 ^ 1024) with (2 * 2 ^ 1023) in Hn.
    change (2 ^ 1023) with (2 ^ 53 * 2 ^ 970) in Hn |- *. lia. }
  destruct (Z.lt_ge_cases a (2 ^ 1024)) as [Hlt|Hge].
  - destruct (float_of_int_top_binade a (conj Hbinade Hlt)) as (-> & [Hq1 Hq2] & Hq3).
    set (q := Z.shiftr a 971) in *.
    change (2 ^ 1024) with (2 ^ 53 * 2 ^ 971) in Hn.
    change (2 ^ 971) with (2 * 2 ^ 970) in Hn, Hq1, Hq2.
    assert (Hq : q = 2 ^ 53 - 1) by nia.
    assert (Hodd : Z.even q = false) by (rewrite Hq; reflexivity).
    rewrite !Z.shiftl_mul_pow2 by lia.
    change (2 ^ 1024) with (2 ^ 53 * (2 * 2 ^ 970)).
    change (2 ^ 971) with (2 * 2 ^ 970).
    rewrite Hodd.
    assert (Hv : 2 ^ 53 * (2 * 2 ^ 970)
                 <= match (2 * (a - q * (2 * 2 ^ 970)) ?= 2 * 2 ^ 970)%Z with
                    | Eq => q + 1
                    | Lt => q
                    | Gt => q + 1
                    end * (2 * 2 ^ 970)).
    { destruct (Z.compare_spec (2 * (a - q * (2 * 2 ^ 970))) (2 * 2 ^ 970))
        as [Heq|Hlow|Hhigh]; nia. }
    apply Z.leb_le in Hv. rewrite Hv. reflexivity.
  - assert (Ha : 0 < a) by (assert (0 < 2 ^ 1024) by (apply Z.pow_pos_nonneg; lia); lia).
    assert (Hlog : 1024 <= Z.log2 a) by (apply Z.log2_le_pow2; lia).
    rewrite Z.max_r by lia.
    set (sh := Z.log2 a - 52).
    set (q := Z.shiftr a sh).
    set (q' := match (2 * (a - Z.shiftl q sh) ?= 2 ^ sh)%Z with
               | Eq => if Z.even q then q else q + 1
               | Lt => q
               | Gt => q + 1
               end).
    assert (Hq' : q <= q')
      by (subst q'; destruct (_ ?= _)%Z; [destruct (Z.even q)| |]; lia).
    assert (Hsh : 0 < 2 ^ sh) by (apply Z.pow_pos_nonneg; lia).
    assert (Hq : 2 ^ 52 <= q).
    { subst q. rewrite Z.shiftr_div_pow2 by lia.
      apply Z.div_le_lower_bound; [lia|].
      rewrite <- Z.pow_add_r by lia. replace (sh + 52) with (Z.log2 a) by lia.
      apply Z.log2_spec. exact Ha. }
    assert (Hv : 2 ^ 1024 <= Z.shiftl q' sh).
    { rewrite Z.shiftl_mul_pow2 by lia.
      transitivity (2 ^ 52 * 2 ^ sh); [|apply Z.mul_le_mono_nonneg_r; lia].
      rewrite <- Z.pow_add_r by lia. apply Z.pow_le_mono_r; lia. }
    apply Z.leb_le in Hv. rewrite Hv. reflexivity.
Qed.

Lemma float_of_int_fits_below_max (n : Z) :
  Z.abs n < 2 ^ 1024 - 2 ^ 970 -> exists x, float_of_int n = Returns x.
Proof.
  intros Hn. destruct (Z.lt_ge_cases (Z.abs n) (2 ^ 1023)) as [Hsmall|Hbig];
    [exact (float_of_int_fits n Hsmall)|].
  unfold float_of_int. set (a := Z.abs n) in *.
  assert (Hp970 : 0 < 2 ^ 970) by (apply Z.pow_pos_nonneg; lia).
  assert (Hlt : a < 2 ^ 1024) by lia.
  destruct (float_of_int_top_binade a (conj Hbig Hlt)) as (-> & [Hq1 Hq2] & Hq3).
  set (q := Z.shiftr a 971) in *.
  rewrite !Z.shiftl_mul_pow2 by lia.
  change (2 ^ 1024) with (2 ^ 53 * (2 * 2 ^ 970)) in Hn |- *.
  change (2 ^ 971) with (2 * 2 ^ 970) in *.
  assert (Hv : match (2 * (a - q * (2 * 2 ^ 970)) ?= 2 * 2 ^ 970)%Z with
               | Eq => if Z.even q then q else q + 1
               | Lt => q
               | Gt => q + 1
               end * (2 * 2 ^ 970) < 2 ^ 53 * (2 * 2 ^ 970)).
  { destruct (Z.compare_spec (2 * (a - q * (2 * 2 ^ 970))) (2 * 2 ^ 970))
      as [Heq|Hlow|Hhigh]; [destruct (Z.even q)| |]; nia. }
  apply Z.ltb_lt in Hv. rewrite Z.ltb_antisym in Hv.
  apply negb_true_iff in Hv. rewrite Hv. eauto.
Qed.

(** C5 (as amended).  When [1024^8 <= |n|] the call returns no string.
    For [|n| < 2^1024 - 2^970], the [int]s that convert to a [float],
    the loop runs through all eight units and the final [return] raises
    [NameError] for the unbound name [num].  From [2^1024 - 2^970] on,
    the conversion at the first division raises [OverflowError], and the
    final [return] is not reached. *)
Theorem hsize_Yi_fallback_unbound (n : Z) :
  1024 ^ 8 <= Z.abs n ->
  (forall s, hsize n <> Returns s) /\
  (Z.abs n < 2 ^ 1024 - 2 ^ 970 -> hsize n = Raises (NameError "num")) /\
  (2 ^ 1024 - 2 ^ 970 <= Z.abs n -> hsize n = Raises OverflowError).
Proof.
  intros Hn.
  assert (Hconv : forall x, float_of_int n = Returns x ->
                            hsize n = Raises (NameError "num")).
  { intros x Hx. unfold hsize, units.
    rewrite hsize_loop_int_scales, Hx by lia. cbn [mbind result_bind].
    apply hsize_loop_exhausts.
    pose proof (float_of_int_lower n x 80 ltac:(lia) Hn Hx) as Hlow.
    unfold Qdiv. rewrite Qabs_Qmult.
    change (Qabs (/ 1024)) with (1 # 1024)%Q.
    change (inject_Z (1024 ^ Z.of_nat (length _))) with (inject_Z (2 ^ 70)).
    change (inject_Z (2 ^ 80)) with (inject_Z (2 ^ 70) * 1024)%Q in Hlow.
    remember (Qabs x) as y. remember (inject_Z (2 ^ 70)) as p. lra. }
  assert (Hover : float_of_int n = Raises OverflowError ->
                  hsize n = Raises OverflowError).
  { intros Hf. unfold hsize, units. rewrite hsize_loop_int_scales by lia.
    rewrite Hf. reflexivity. }
  assert (Hfits : Z.abs n < 2 ^ 1024 - 2 ^ 970 ->
                  hsize n = Raises (NameError "num")).
  { intros Hsmall. destruct (float_of_int_fits_below_max n Hsmall) as [x Hx].
    exact (Hconv x Hx). }
  assert (Hbig : 2 ^ 1024 - 2 ^ 970 <= Z.abs n -> hsize n = Raises OverflowError).
  { intros Hge. exact (Hover (float_of_int_overflows n Hge)). }
  split; [|split; [exact Hfits|exact Hbig]].
  intros s. destruct (Z.lt_ge_cases (Z.abs n) (2 ^ 1024 - 2 ^ 970)) as [Hlt|Hge].
  - rewrite (Hfits Hlt). discriminate.
  - rewrite (Hbig Hge). discriminate.
Qed.

Lemma hsize_Yi_fallback_unbound_witness :
  (forall s, hsize (1024 ^ 8) <> Returns s) /\
  (Z.abs (1024 ^ 8) < 2 ^ 1024 - 2 ^ 970 ->
   hsize (1024 ^ 8) = Raises (NameError "num")) /\
  (2 ^ 1024 - 2 ^ 970 <= Z.abs (1024 ^ 8) ->
   hsize (1024 ^ 8) = Raises OverflowError).
Proof. apply (hsize_Yi_fallback_unbound (1024 ^ 8)). vm_compute. discriminate. Defined.

(** C5, the counterexample: [2^1024] is at least [1024^8] in magnitude,
    and [hsize] does not reach the final [return] for it: the first
    division raises [OverflowError], not [NameError]. *)
Lemma hsize_huge_int_overflows :
  ~ (1024 ^ 8 <= Z.abs (2 ^ 1024) ->
     hsize (2 ^ 1024) = Raises (NameError "num")).
Proof.
  intros H. assert (Hn : 1024 ^ 8 <= Z.abs (2 ^ 1024)) by (vm_compute; discriminate).
  specialize (H Hn). vm_compute in H. discriminate.
Qed.

(** ** Sequencing on the console *)

Lemma io_bind_returns {A B : Type} (m : io A) (f : A -> io B)
    (c c' : console) (a : A) :
  m c = (Returns a, c') -> (m ≫= f) c = f a c'.
Proof. intros H. unfold mbind, io_bind. rewrite H. reflexivity. Qed.

Lemma io_bind_raises {A B : Type} (m : io A) (f : A -> io B)
    (c c' : console) (e : exn) :
  m c = (Raises e, c') -> (m ≫= f) c = (Raises e, c').
Proof. intros H. unfold mbind, io_bind. rewrite H. reflexivity. Qed.

(** ** [theme] and [mkcontext] *)

Lemma theme_hit (g : lib_globals) (tname : option string) (v : pyval) (c : console) :
  dict_get (themes g) tname = Some v -> theme g tname c = (Returns v, c).
Proof. intros H. unfold theme. rewrite H. reflexivity. Qed.

Lemma theme_miss (g : lib_globals) (tname : option string) (c : console) :
  dict_get (themes g) tname = None ->
  theme g tname c =
  match themes g !! "default" with
  | Some d => (Returns d, c ++ [theme_warning tname])
  | None => (Raises (KeyError "default"), c ++ [theme_warning tname])
  end.
Proof.
  intros H. unfold theme. rewrite H.
  destruct (themes g !! "default"); reflexivity.
Qed.

(** C3.  For a name that is not in the registry, [theme] prints the
    warning and returns the [default] entry when there is one, which is
    what [theme] returns for [default] itself; when there is no [default]
    entry the call raises [KeyError], after the warning. *)
Theorem theme_falls_back_to_default (g : lib_globals) (name : string) (c : console) :
  themes g !! name = None ->
  (forall d, themes g !! "default" = Some d ->
     theme g (Some name) c = (Returns d, c ++ [theme_warning (Some name)]) /\
     theme g (Some "default") c = (Returns d, c)) /\
  (themes g !! "default" = None ->
     theme g (Some name) c =
     (Raises (KeyError "default"), c ++ [theme_warning (Some name)])).
Proof.
  intros Hmiss. split.
  - intros d Hd. split.
    + rewrite theme_miss by exact Hmiss. rewrite Hd. reflexivity.
    + apply theme_hit. exact Hd.
  - intros Hd. rewrite theme_miss by exact Hmiss. rewrite Hd. reflexivity.
Qed.

Lemma theme_falls_back_to_default_witness :
  (forall d, themes globals_with_default !! "default" = Some d ->
     theme globals_with_default (Some "nonexistent") [] =
       (Returns d, [] ++ [theme_warning (Some "nonexistent")]) /\
     theme globals_with_default (Some "default") [] = (Returns d, [])) /\
  (themes globals_with_default !! "default" = None ->
     theme globals_with_default (Some "nonexistent") [] =
     (Raises (KeyError "default"), [] ++ [theme_warning (Some "nonexistent")])).
Proof.
  apply (theme_falls_back_to_default globals_with_default "nonexistent" []).
  reflexivity.
Defined.

Lemma getconfig_returns (g : lib_globals) (part : string) (c : console) :
  exists v c', getconfig g part c = (Returns v, c').
Proof.
  unfold getconfig. destruct (jsondata g !! part); cbn; eauto.
Qed.

Lemma flags_are_set (ctx : gmap string pyval) (fa jq ts s2 : bool) :
  flags_are (<["s2" := PBool s2]> (<["ts" := PBool ts]> (<["jq" := PBool jq]>
               (<["fa" := PBool fa]> ctx)))) fa jq ts s2.
Proof. unfold flags_are. repeat split; by simplify_map_eq. Qed.

(** C4 (as amended).  When the theme of the request's cookie or the
    [default] theme is in the registry, [mkcontext] returns a mapping
    whose four flags are those of the table: [font], [form], [table],
    and all false for any other value of [scripts].  When neither theme
    is in the registry no mapping is returned: the call raises
    [KeyError]. *)
Theorem mkcontext_flags (g : lib_globals) (req : request) (title : pyval)
    (scripts : string) (c : console) :
  (is_Some (dict_get (themes g) (COOKIES req !! "theme")) \/
   is_Some (themes g !! "default") ->
   exists ctx c',
     mkcontext g req title scripts c = (Returns ctx, c') /\
     (scripts = "font" -> flags_are ctx true false false false) /\
     (scripts = "form" -> flags_are ctx false true false true) /\
     (scripts = "table" -> flags_are ctx true true true false) /\
     (scripts <> "font" -> scripts <> "form" -> scripts <> "table" ->
      flags_are ctx false false false false)) /\
  (dict_get (themes g) (COOKIES req !! "theme") = None ->
   themes g !! "default" = None ->
   exists c', mkcontext g req title scripts c = (Raises (KeyError "default"), c')).
Proof.
  split.
  - intros Hth.
    assert (Hstyle : exists v c1, theme g (COOKIES req !! "theme") c = (Returns v, c1)).
    { destruct (dict_get (themes g) (COOKIES req !! "theme")) as [v|] eqn:Hget.
      - exists v, c. apply theme_hit. exact Hget.
      - destruct Hth as [[v Hv]|[d Hd]]; [discriminate|].
        rewrite theme_miss by exact Hget. rewrite Hd. eauto. }
    destruct Hstyle as (styling & c1 & Hstyle).
    destruct (getconfig_returns g "misc" c1) as (misc & c2 & Hmisc).
    destruct (getconfig_returns g "navbar" c2) as (navbar & c3 & Hnav).
    unfold mkcontext.
    rewrite (io_bind_returns _ _ _ _ _ Hstyle), (io_bind_returns _ _ _ _ _ Hmisc),
      (io_bind_returns _ _ _ _ _ Hnav).
    eexists _, c3. split; [reflexivity|].
    split; [|split; [|split]].
    + intros ->. apply flags_are_set.
    + intros ->. apply flags_are_set.
    + intros ->. apply flags_are_set.
    + intros Hfont Hform Htable.
      apply String.eqb_neq in Hfont, Hform, Htable.
      rewrite Hfont, Hform, Htable. apply flags_are_set.
  - intros Hget Hd. unfold mkcontext. eexists.
    apply io_bind_raises. rewrite theme_miss by exact Hget. rewrite Hd.
    reflexivity.
Qed.

Lemma mkcontext_flags_witness :
  exists ctx c',
    mkcontext globals_with_default request_without_cookies (PStr "Home") "table" []
      = (Returns ctx, c') /\
    flags_are ctx true true true false.
Proof.
  destruct (proj1 (mkcontext_flags globals_with_default request_without_cookies
                     (PStr "Home") "table" []))
    as (ctx & c' & Hrun & _ & _ & Htable & _).
  - right. exists (PStr "plain"). reflexivity.
  - exists ctx, c'. split; [exact Hrun|]. apply Htable. reflexivity.
Defined.

(** C4, the counterexample: with an empty registry (the value of [themes]
    when themecfg.json does not exist) [mkcontext] returns no mapping. *)
Lemma mkcontext_raises_without_themes :
  ~ (exists ctx c',
       mkcontext globals_without_themes request_without_cookies (PStr "Home")
                 "table" [] = (Returns ctx, c') /\
       flags_are ctx true true true false).
Proof.
  intros (ctx & c' & Hrun & _). vm_compute in Hrun. discriminate.
Qed.

(** ** [configmodels] *)

Lemma fold_left_append_col (cols : list column) (acc : list string) :
  fold_left (fun acc y => acc ++ [col y]) cols acc = acc ++ map col cols.
Proof.
  revert acc. induction cols as [|y cols IH]; intros acc; cbn.
  - rewrite app_nil_r. reflexivity.
  - rewrite IH, <- app_assoc. reflexivity.
Qed.

Lemma fold_left_groups (tbl : list (string * list column)) (acc : list string) :
  fold_left (fun acc g => fold_left (fun acc y => acc ++ [col y]) (snd g) acc)
            tbl acc
  = acc ++ map col (flat_map snd tbl).
Proof.
  revert acc. induction tbl as [|g tbl IH]; intros acc; cbn.
  - rewrite app_nil_r. reflexivity.
  - rewrite IH, fold_left_append_col, map_app, app_assoc. reflexivity.
Qed.

Lemma colnames_of_eq (cfg : jsonconfig) :
  colnames_of cfg = "inid" :: map col (all_columns cfg) ++ ["tcrd"; "tmod"].
Proof.
  unfold colnames_of, all_columns. rewrite fold_left_groups. cbn.
  rewrite <- app_assoc. reflexivity.
Qed.

(** A column whose datatype is none of the four and does not occur in
    [select] gets the warning and no declaration; the loop goes on. *)
Lemma column_step_unknown (x : string) (y : column) (tbl : string)
    (cfgdata : list (string * column)) (c : console) :
  str_in (datatype y) "select" = false ->
  datatype y <> "string" -> datatype y <> "text" -> datatype y <> "date" ->
  column_step x y (tbl, cfgdata) c =
  (Returns (tbl, dict_set (col y) y cfgdata),
   c ++ [unknown_warning (datatype y)]).
Proof.
  intros Hsel Hs Ht Hd. unfold column_step. rewrite Hsel.
  apply String.eqb_neq in Hs, Ht, Hd. rewrite Hs, Ht, Hd. reflexivity.
Qed.

(** A loop whose body returns on every element of the list returns. *)
Lemma for_each_returns {A S : Type} (body : A -> S -> io S) (l : list A) :
  Forall (fun a => forall s c, exists s' c', body a s c = (Returns s', c')) l ->
  forall s c, exists s' c', for_each body l s c = (Returns s', c').
Proof.
  induction 1 as [|a l Ha _ IH]; intros s c; cbn [for_each].
  - exists s, c. reflexivity.
  - destruct (Ha s c) as (s1 & c1 & H1).
    rewrite (io_bind_returns _ _ _ _ _ H1). apply IH.
Qed.

Lemma column_step_returns (x : string) (y : column)
    (st : string * list (string * column)) (c : console) :
  column_complete y ->
  exists st' c', column_step x y st c = (Returns st', c').
Proof.
  intros [Hdd Hmax]. destruct st as [tbl cfgdata]. unfold column_step.
  destruct (str_in (datatype y) "select").
  - destruct (Hdd eq_refl) as [dd ->]. cbn. eauto.
  - destruct (String.eqb_spec (datatype y) "string") as [Hs|_].
    + destruct (Hmax eq_refl Hs) as [m ->]. cbn. eauto.
    + destruct (String.eqb (datatype y) "text"); [cbn; eauto|].
      destruct (String.eqb (datatype y) "date"); cbn; eauto.
Qed.

Lemma table_loop_returns (cfg : jsonconfig) (c : console) :
  Forall column_complete (all_columns cfg) ->
  exists r c', table_loop cfg c = (Returns r, c').
Proof.
  intros Hall. unfold table_loop. apply for_each_returns.
  unfold all_columns in Hall. induction (table cfg) as [|g tbl IH]; [constructor|].
  cbn [flat_map] in Hall. apply Forall_app in Hall as [Hg Htbl].
  constructor; [|apply IH; exact Htbl].
  intros s c0. unfold group_step. apply for_each_returns.
  eapply Forall_impl; [exact Hg|]. intros y Hy s1 c1.
  apply column_step_returns. exact Hy.
Qed.

Lemma string_app_nil_r (s : string) : s +:+ EmptyString = s.
Proof.
  induction s as [|a s IH]; [reflexivity|].
  change (String a (s +:+ EmptyString) = String a s). f_equal. exact IH.
Qed.

Lemma string_app_assoc (s t u : string) : (s +:+ t) +:+ u = s +:+ (t +:+ u).
Proof.
  induction s as [|a s IH]; [reflexivity|].
  change (String a ((s +:+ t) +:+ u) = String a (s +:+ (t +:+ u))).
  f_equal. exact IH.
Qed.

Lemma concat_empty_cons (x : string) (l : list string) :
  String.concat EmptyString (x :: l) = x +:+ String.concat EmptyString l.
Proof.
  destruct l as [|y l]; [|reflexivity]. cbn [String.concat].
  symmetry. apply string_app_nil_r.
Qed.

(** The text of [todict] is the dict display of the entries. *)
Lemma todict_of_entries (names : list string) :
  todict_of names
  = "{" +:+ String.concat EmptyString (map todict_entry names) +:+ "}".
Proof.
  unfold todict_of.
  assert (H : forall acc,
            fold_left (fun todict i =>
                         todict +:+ dq +:+ i +:+ dq +:+ ": self." +:+ i +:+ ", ")
                      names acc
            = acc +:+ String.concat EmptyString (map todict_entry names)).
  { induction names as [|i names IH]; intros acc.
    - cbn. symmetry. apply string_app_nil_r.
    - cbn [fold_left map]. rewrite IH, concat_empty_cons.
      unfold todict_entry. rewrite !string_app_assoc. reflexivity. }
  rewrite H. reflexivity.
Qed.

(** C10.  The list of column names in the generated module is [inid],
    then the name of every column of the schema in schema order, then
    [tcrd] and [tmod].  Every column is in it whatever its datatype, a
    column that was skipped with the warning included.  A module that
    [configmodels] returns contains the method [todict] with an entry
    for every name of this list, in order, and after it the method
    [fieldnames] with the list itself.  [configmodels] does return a
    module when the columns have the members their declarations
    read. *)
Theorem colnames_inid_columns_tcrd_tmod (cfg : jsonconfig) :
  colnames_of cfg = "inid" :: map col (all_columns cfg) ++ ["tcrd"; "tmod"] /\
  (forall y, y ∈ all_columns cfg -> col y ∈ colnames_of cfg) /\
  (forall x y tbl cfgdata c,
     y ∈ all_columns cfg ->
     str_in (datatype y) "select" = false ->
     datatype y <> "string" -> datatype y <> "text" -> datatype y <> "date" ->
     fst (column_step x y (tbl, cfgdata) c)
       = Returns (tbl, dict_set (col y) y cfgdata) /\
     col y ∈ colnames_of cfg) /\
  (forall str_of_cfgdata str_of_list today c text c',
     configmodels str_of_cfgdata str_of_list today cfg c = (Returns text, c') ->
     exists tbl cfgdata pre mid post,
       text = modelspy today tbl
                (todict_of ("inid" :: map col (all_columns cfg) ++ ["tcrd"; "tmod"]))
                (str_of_cfgdata cfgdata)
                (str_of_list ("inid" :: map col (all_columns cfg) ++ ["tcrd"; "tmod"]))
       /\
       text = pre
              +:+ todict_method
                    ("inid" :: map col (all_columns cfg) ++ ["tcrd"; "tmod"])
              +:+ mid
              +:+ fieldnames_method
                    (str_of_list
                       ("inid" :: map col (all_columns cfg) ++ ["tcrd"; "tmod"]))
              +:+ post) /\
  (Forall column_complete (all_columns cfg) ->
   forall str_of_cfgdata str_of_list today c,
   exists text c',
     configmodels str_of_cfgdata str_of_list today cfg c = (Returns text, c')).
Proof.
  assert (Hin : forall y, y ∈ all_columns cfg -> col y ∈ colnames_of cfg).
  { intros y Hy. rewrite colnames_of_eq. apply elem_of_cons. right.
    apply elem_of_app. left. apply list_elem_of_fmap. exists y. auto. }
  split; [apply colnames_of_eq|]. split; [exact Hin|]. split; [|split].
  - intros x y tbl cfgdata c Hy Hsel Hs Ht Hd. split; [|auto].
    rewrite column_step_unknown by assumption. reflexivity.
  - intros sd sl today c text c' Hrun. unfold configmodels in Hrun.
    unfold mbind, io_bind in Hrun.
    destruct (table_loop cfg c) as [[[tbl cfgdata]|e] c1]; [|discriminate].
    cbv beta iota zeta delta [mret io_ret] in Hrun. injection Hrun as <- _.
    rewrite colnames_of_eq.
    set (names := "inid" :: map col (all_columns cfg) ++ ["tcrd"; "tmod"]).
    exists tbl, cfgdata.
    exists ("# CAMS Asset Management System - CTCL 2017-2023" +:+ nl +:+
            "# Generated: " +:+ today +:+ nl +:+
            "# Purpose: Database model metadata" +:+ nl +:+
            "# THIS FILE IS AUTOMATICALLY GENERATED" +:+ nl +:+
            nl +:+
            "from django.utils import timezone" +:+ nl +:+
            "from django.db import models" +:+ nl +:+
            "from .choices import Choices" +:+ nl +:+
            nl +:+
            "class ContactItem(models.Model):" +:+ nl +:+
            "    # inid, tcrd, tmod are not defined by the configuration file" +:+ nl +:+
            "    inid = models.AutoField(primary_key = True)" +:+ nl +:+
            "    tcrd = models.DateTimeField(null = True)" +:+ nl +:+
            "    tmod = models.DateTimeField(null = True)" +:+ nl +:+
            nl +:+
            tbl +:+ nl +:+
            "    class Meta:" +:+ nl +:+
            "        verbose_name_plural = " +:+ dq +:+ "Contact Entries" +:+ dq +:+ nl +:+
            nl).
    exists ("        " +:+ nl +:+
            "    def cfgdata():" +:+ nl +:+
            "        return " +:+ sd cfgdata +:+ nl +:+
            "        " +:+ nl).
    exists ("        " +:+ nl +:+
            "    def __str__(self):" +:+ nl +:+
            "        return self.name" +:+ nl).
    split; [reflexivity|].
    rewrite todict_of_entries. unfold modelspy, todict_method, fieldnames_method.
    rewrite !string_app_assoc. reflexivity.
  - intros Hall sd sl today c.
    destruct (table_loop_returns cfg c Hall) as ([tbl cfgdata] & c1 & Hloop).
    unfold configmodels. rewrite (io_bind_returns _ _ _ _ _ Hloop).
    eexists _, c1. reflexivity.
Qed.

Lemma colnames_inid_columns_tcrd_tmod_witness :
  "photo" ∈ colnames_of schema_with_blob /\
  colnames_of schema_with_blob = ["inid"; "name"; "photo"; "tcrd"; "tmod"] /\
  exists text c' pre mid post,
    configmodels (fun _ => "{}") (fun _ => "[]") "July 30, 2023"
                 schema_with_blob [] = (Returns text, c') /\
    text = pre
           +:+ todict_method ["inid"; "name"; "photo"; "tcrd"; "tmod"]
           +:+ mid +:+ fieldnames_method "[]" +:+ post.
Proof.
  split; [|split].
  - apply (proj1 (proj2 (colnames_inid_columns_tcrd_tmod schema_with_blob))
             (Column "photo" "blob" None None)).
    cbn. apply elem_of_cons. right. apply elem_of_cons. left. reflexivity.
  - exact (proj1 (colnames_inid_columns_tcrd_tmod schema_with_blob)).
  - destruct (proj2 (proj2 (proj2 (proj2
                (colnames_inid_columns_tcrd_tmod schema_with_blob))))
                ltac:(repeat constructor; discriminate)
                (fun _ => "{}") (fun _ => "[]") "July 30, 2023" [])
      as (text & c' & Hrun).
    destruct (proj1 (proj2 (proj2 (proj2
                (colnames_inid_columns_tcrd_tmod schema_with_blob))))
                (fun _ => "{}") (fun _ => "[]") "July 30, 2023" [] text c' Hrun)
      as (tbl & cfgdata & pre & mid & post & _ & Htext).
    exists text, c', pre, mid, post. split; [exact Hrun|exact Htext].
Defined.

(** C2.  [dt in "select"] is a substring test: the datatype [sel] is none
    of the four, yet the column gets the declaration of a [select] column
    and nothing is printed. *)
Theorem configmodels_declares_substring_of_select :
  table_loop schema_with_sel [] =
  (Returns
     ("    kind = models.CharField(blank = True, max_length = 128, choices = Choices.totuplelist("
      +:+ dq +:+ "kinds" +:+ dq +:+ "))" +:+ nl
      +:+ "    kind.group = " +:+ dq +:+ "main" +:+ dq +:+ nl,
      [("kind", Column "kind" "sel" None (Some "kinds"))]),
   []).
Proof. vm_compute. reflexivity. Qed.

(** ** Theme discovery *)

Section DiscoveryFacts.

Variable json_load_index : string -> string + gmap string theme_desc.

(** A directory without an index.json is skipped with a warning. *)
Lemma discover_step_missing (w : world) (name : string)
    (acc : list theme_desc) (c : console) :
  path_exists w (index_path name) = false ->
  discover_step json_load_index w name acc c
  = (Returns acc, c ++ [missing_index_warning name]).
Proof. intros H. unfold discover_step. fold (index_path name). rewrite H. reflexivity. Qed.

(** An index.json that is not JSON is skipped with a warning. *)
Lemma discover_step_malformed (w : world) (name content e : string)
    (acc : list theme_desc) (c : console) :
  files w !! index_path name = Some content ->
  json_load_index content = inl e ->
  discover_step json_load_index w name acc c
  = (Returns acc, c ++ [malformed_index_warning e]).
Proof.
  intros Hf He. unfold discover_step, path_exists, open_read.
  fold (index_path name). rewrite Hf.
  rewrite bool_decide_eq_true_2 by eauto. cbn [orb].
  unfold mbind, io_bind, lift. rewrite He. reflexivity.
Qed.

(** An index.json with a [theme] member is kept. *)
Lemma discover_step_valid (w : world) (name content : string)
    (doc : gmap string theme_desc) (th : theme_desc)
    (acc : list theme_desc) (c : console) :
  files w !! index_path name = Some content ->
  json_load_index content = inr doc ->
  doc !! "theme" = Some th ->
  discover_step json_load_index w name acc c = (Returns (acc ++ [th]), c).
Proof.
  intros Hf Hd Ht. unfold discover_step, path_exists, open_read.
  fold (index_path name). rewrite Hf.
  rewrite bool_decide_eq_true_2 by eauto. cbn [orb].
  unfold mbind, io_bind, lift. rewrite Hd, Ht. reflexivity.
Qed.

(** An index.json that is JSON but has no [theme] member ends the loop,
    and the run, with [KeyError]: the [except] clause names
    [JSONDecodeError] only. *)
Lemma discover_step_no_theme_member (w : world) (name content : string)
    (doc : gmap string theme_desc) (acc : list theme_desc) (c : console) :
  files w !! index_path name = Some content ->
  json_load_index content = inr doc ->
  doc !! "theme" = None ->
  discover_step json_load_index w name acc c = (Raises (KeyError "theme"), c).
Proof.
  intros Hf Hd Ht. unfold discover_step, path_exists, open_read.
  fold (index_path name). rewrite Hf.
  rewrite bool_decide_eq_true_2 by eauto. cbn [orb].
  unfold mbind, io_bind, lift. rewrite Hd, Ht. reflexivity.
Qed.

End DiscoveryFacts.

(** C6.  The index.json of [broken] is valid JSON without a [theme]
    member: the theme is not skipped with a warning, the discovery raises
    [KeyError] and the run ends there. *)
Theorem discover_themes_raises_on_index_without_theme :
  discover_themes sample_json_load world_with_empty_index []
  = (Raises (KeyError "theme"), []).
Proof. vm_compute. reflexivity. Qed.

(** ** CSS compilation *)


Section CompileFacts.

Variable path_suffix : string -> string.
Variable b64encode : string -> string.
Variable compress : string -> string.

Variables w1 w2 : world.




End CompileFacts.



(** ** [csv2list] *)

Lemma fold_left_insert_text (l : list (string * string))
    (d : gmap (option string) cell) :
  fold_left (fun d kv => <[Some (fst kv) := Text (snd kv)]> d) l d
  = list_to_map (reverse ((fun kv => (Some (fst kv), Text (snd kv))) <$> l)) ∪ d.
Proof.
  revert d. induction l as [|[k v] l IH]; intros d; cbn [fold_left].
  - rewrite fmap_nil, reverse_nil, list_to_map_nil. by rewrite (left_id_L ∅ (∪)).
  - rewrite IH, fmap_cons, reverse_cons, list_to_map_app.
    rewrite <- (assoc_L (∪)). f_equal.
    cbn [fst snd]. rewrite list_to_map_cons, list_to_map_nil, insert_empty.
    by rewrite <- insert_union_singleton_l.
Qed.

Lemma fmap_zip_some_text (fieldnames row : list string) :
  (fun kv : string * string => (Some (fst kv), Text (snd kv))) <$> zip fieldnames row
  = zip (Some <$> fieldnames) (Text <$> row).
Proof.
  revert row. induction fieldnames as [|h hs IH]; intros [|s row]; cbn;
    [reflexivity..|]. f_equal. apply IH.
Qed.

Lemma row_dict_same_length (fieldnames row : list string) :
  length row = length fieldnames ->
  row_dict fieldnames row = text_dict fieldnames row.
Proof.
  intros Hlen. unfold row_dict, text_dict. rewrite Hlen.
  rewrite Nat.ltb_irrefl, drop_all. cbn [fold_left].
  rewrite fold_left_insert_text, fmap_zip_some_text.
  by rewrite (right_id_L ∅ (∪)).
Qed.

Lemma dict_reader_same_length (fieldnames : list string) (data : list (list string)) :
  Forall (fun row => row = [] \/ length row = length fieldnames) data ->
  dict_reader (fieldnames :: data)
  = map (text_dict fieldnames) (List.filter (fun r => negb (is_empty_row r)) data).
Proof.
  intros Hdata. cbn [dict_reader].
  induction Hdata as [|row data Hrow _ IH]; [reflexivity|].
  cbn [List.filter]. destruct row as [|s row]; cbn [is_empty_row negb]; [exact IH|].
  cbn [map]. f_equal; [|exact IH].
  apply row_dict_same_length. destruct Hrow as [Hnil|Hlen]; [discriminate|exact Hlen].
Qed.

(** C8 (as amended).  For a readable file that parses into a header row
    and rows that are empty or have as many cells as the header,
    [csv2list] returns, in the order of the file, one mapping for each
    row that is not empty, from every header name to the text of the
    row's cell in that column; the cells are not converted.  For the
    header [a,b] and the row [1,2] it returns the one mapping
    [{a: "1", b: "2"}]. *)
Theorem csv2list_header_to_text (w : world) (path content : string)
    (fieldnames : list string) (data : list (list string)) :
  (files w !! path = Some content ->
   reader (file_lines content EmptyString) parse_reset
     = Returns (fieldnames :: data) ->
   Forall (fun row => row = [] \/ length row = length fieldnames) data ->
   csv2list w path
   = Returns (map (text_dict fieldnames)
                  (List.filter (fun r => negb (is_empty_row r)) data))) /\
  csv2list (csv_world ("a,b" +:+ nl +:+ "1,2" +:+ nl)) "data.csv"
  = Returns [ {[Some "a" := Text "1"; Some "b" := Text "2"]} ].
Proof.
  split; [|vm_compute; reflexivity].
  intros Hfile Hrows Hdata. unfold csv2list, open_read. rewrite Hfile.
  cbn [mbind result_bind]. rewrite Hrows. cbn [mbind result_bind].
  f_equal. apply dict_reader_same_length. exact Hdata.
Qed.

Lemma csv2list_header_to_text_witness :
  csv2list (csv_world ("n,kind" +:+ nl +:+ nl +:+ "7,x" +:+ nl)) "data.csv"
  = Returns (map (text_dict ["n"; "kind"])
                 (List.filter (fun r => negb (is_empty_row r)) [[]; ["7"; "x"]])).
Proof.
  apply (proj1 (csv2list_header_to_text
                  (csv_world ("n,kind" +:+ nl +:+ nl +:+ "7,x" +:+ nl))
                  "data.csv" ("n,kind" +:+ nl +:+ nl +:+ "7,x" +:+ nl)
                  ["n"; "kind"] [[]; ["7"; "x"]])).
  - reflexivity.
  - vm_compute. reflexivity.
  - constructor; [left; reflexivity|].
    constructor; [right; reflexivity|constructor].
Defined.

(** C8, the counterexample: the file has the header [a,b] and the row
    [1].  The mapping of that row gives [b] the value [None], which is
    not the text of a cell. *)
Lemma csv2list_short_row_has_none :
  ~ (exists d,
       csv2list (csv_world ("a,b" +:+ nl +:+ "1" +:+ nl)) "data.csv" = Returns [d] /\
       forall k v, d !! k = Some v -> exists s, v = Text s).
Proof.
  intros (d & Hrun & Htext).
  assert (Hd : d = {[Some "a" := Text "1"; Some "b" := Missing]}).
  { vm_compute in Hrun. injection Hrun as <-. vm_compute. reflexivity. }
  destruct (Htext (Some "b") Missing) as [s Hs]; [|discriminate].
  rewrite Hd. vm_compute. reflexivity.
Qed.

(** ** More on [hsize] *)

Section HsizeUnits.

Lemma nearest_even_Qeq (y y' : Q) (m : Z) :
  (y == y')%Q -> nearest_even y m -> nearest_even y' m.
Proof. unfold nearest_even. intros Hy. rewrite Hy. tauto. Qed.

Lemma pow1024_pos (k : nat) : (1 <= inject_Z (1024 ^ Z.of_nat k))%Q.
Proof.
  change 1%Q with (inject_Z 1). rewrite <- Zle_Qle.
  assert (0 < 1024 ^ Z.of_nat k) by (apply Z.pow_pos_nonneg; lia). lia.
Qed.

Lemma pow1024_succ (k : nat) :
  (inject_Z (1024 ^ Z.of_nat (S k)) == 1024 * inject_Z (1024 ^ Z.of_nat k))%Q.
Proof.
  rewrite Nat2Z.inj_succ, Z.pow_succ_r, inject_Z_mult by lia. reflexivity.
Qed.

Lemma Qabs_div_1024 (x : Q) : (Qabs (x / 1024) == Qabs x * (1 # 1024))%Q.
Proof. unfold Qdiv. rewrite Qabs_Qmult. reflexivity. Qed.

Lemma Qle_bool_0_div_1024 (x : Q) : Qle_bool 0 (x / 1024) = Qle_bool 0 x.
Proof.
  destruct (Qle_bool 0 x) eqn:Hx.
  - apply Qle_bool_iff. apply Qle_bool_iff in Hx.
    unfold Qdiv. change (/ 1024)%Q with (1 # 1024)%Q. lra.
  - destruct (Qle_bool 0 (x / 1024)) eqn:Hd; [|reflexivity].
    apply Qle_bool_iff in Hd.
    assert (Hn : ~ (0 <= x)%Q) by (intros H; apply Qle_bool_iff in H; congruence).
    exfalso. apply Hn. unfold Qdiv in Hd.
    change (/ 1024)%Q with (1 # 1024)%Q in Hd. lra.
Qed.

(** A float whose magnitude lies between [1024^k] and [1024^(k+1)] is
    divided [k] times and written with the unit at index [k]. *)
Lemma hsize_loop_float_unit (k : nat) :
  forall (us : list string) (u : string) (x : Q),
  us !! k = Some u ->
  (k = 0%nat \/ (inject_Z (1024 ^ Z.of_nat k) <= Qabs x)%Q) ->
  (Qabs x < inject_Z (1024 ^ Z.of_nat (S k)))%Q ->
  exists m : Z,
    hsize_loop us (PyFloat x)
    = Returns (pad3 (sign_text (negb (Qle_bool 0 x)) +:+ str_of_nonneg m)
               +:+ u +:+ suffix) /\
    nearest_even (Qabs x / inject_Z (1024 ^ Z.of_nat k)) m.
Proof.
  induction k as [|k IH]; intros us u x Hu Hlo Hhi.
  - destruct us as [|u0 us]; [discriminate|]. injection Hu as ->.
    exists (round_half_even (Qabs x)). split.
    + cbn [hsize_loop abs_lt_1024].
      destruct (Qle_bool 1024 (Qabs x)) eqn:Hle.
      * exfalso. apply Qle_bool_iff in Hle.
        change (inject_Z (1024 ^ Z.of_nat 1)) with 1024%Q in Hhi.
        apply (Qle_not_lt _ _ Hle Hhi).
      * cbn [negb format_3_0f mbind result_bind]. unfold format_0f, sign_text.
        destruct (Qle_bool 0 x); reflexivity.
    + apply (nearest_even_Qeq (Qabs x)); [|apply round_half_even_nearest].
      change (inject_Z (1024 ^ Z.of_nat 0)) with 1%Q. field.
  - destruct us as [|u0 us]; [discriminate|]. cbn [lookup list_lookup] in Hu.
    destruct Hlo as [Hk|Hlo]; [discriminate|].
    pose proof (pow1024_pos k) as Hpos. pose proof (pow1024_succ k) as Hsucc.
    pose proof (pow1024_succ (S k)) as Hsucc2.
    pose proof (Qabs_div_1024 x) as Hdiv.
    rewrite Hsucc in Hlo. rewrite Hsucc2, Hsucc in Hhi.
    destruct (IH us u (x / 1024)%Q Hu) as (m & Hrun & Hnear).
    + right. rewrite Hdiv. remember (inject_Z (1024 ^ Z.of_nat k)) as p.
      remember (Qabs x) as y. lra.
    + rewrite Hdiv, Hsucc. remember (inject_Z (1024 ^ Z.of_nat k)) as p.
      remember (Qabs x) as y. lra.
    + exists m. split.
      * cbn [hsize_loop abs_lt_1024].
        destruct (Qle_bool 1024 (Qabs x)) eqn:Hle.
        -- cbn [negb truediv_1024 mbind result_bind].
           rewrite Hrun, Qle_bool_0_div_1024. reflexivity.
        -- exfalso.
           assert (Hn : ~ (1024 <= Qabs x)%Q)
             by (intros H; apply Qle_bool_iff in H; congruence).
           apply Hn. remember (inject_Z (1024 ^ Z.of_nat k)) as p.
           remember (Qabs x) as y. lra.
      * eapply nearest_even_Qeq; [|exact Hnear].
        rewrite Hdiv, Hsucc. field.
        intros H0. rewrite H0 in Hpos. apply (Qle_not_lt _ _ Hpos). reflexivity.
Qed.


(** A float of magnitude 1024 or more is divided once. *)
Lemma hsize_loop_float_scales (u : string) (us : list string) (x : Q) :
  (1024 <= Qabs x)%Q ->
  hsize_loop (u :: us) (PyFloat x) = hsize_loop us (PyFloat (x / 1024)).
Proof.
  intros Hx. cbn [hsize_loop abs_lt_1024].
  replace (Qle_bool 1024 (Qabs x)) with true
    by (symmetry; apply Qle_bool_iff; exact Hx).
  reflexivity.
Qed.

Lemma float_of_int_at_least_1024 (n : Z) (x : Q) :
  1024 <= Z.abs n -> float_of_int n = Returns x -> (1024 <= Qabs x)%Q.
Proof.
  intros Hn Hx. destruct (Z.lt_ge_cases (Z.abs n) (2 ^ 53)) as [Hsmall|Hbig].
  - rewrite float_of_int_exact in Hx by exact Hsmall. injection Hx as <-.
    change (Qabs (inject_Z n)) with (inject_Z (Z.abs n)).
    change 1024%Q with (inject_Z 1024). rewrite <- Zle_Qle. exact Hn.
  - pose proof (float_of_int_lower n x 53 ltac:(lia) Hbig Hx) as Hlow.
    apply Qle_trans with (inject_Z (2 ^ 53)); [|exact Hlow].
    change 1024%Q with (inject_Z 1024). rewrite <- Zle_Qle. lia.
Qed.

(** The float of an [int] has the sign of the [int]. *)
Lemma float_of_int_sign (n : Z) (x : Q) :
  float_of_int n = Returns x -> Qle_bool 0 x = (0 <=? n).
Proof.
  intros Hx. destruct (Z.lt_ge_cases (Z.abs n) (2 ^ 53)) as [Hsmall|Hbig].
  - rewrite float_of_int_exact in Hx by exact Hsmall. injection Hx as <-.
    apply Qle_bool_0_inject_Z.
  - pose proof (float_of_int_lower n x 53 ltac:(lia) Hbig Hx) as Hlow.
    unfold float_of_int in Hx.
    set (sh := Z.max 0 (Z.log2 (Z.abs n) - 52)) in *.
    set (q := Z.shiftr (Z.abs n) sh) in *.
    set (q' := match (2 * (Z.abs n - Z.shiftl q sh) ?= 2 ^ sh)%Z with
               | Eq => if Z.even q then q else q + 1
               | Lt => q
               | Gt => q + 1
               end) in *.
    assert (Hq : 0 <= q) by (subst q; apply Z.shiftr_nonneg; lia).
    assert (Hq' : 0 <= q')
      by (subst q'; destruct (_ ?= _)%Z; [destruct (Z.even q)| |]; lia).
    assert (Hv : 0 <= Z.shiftl q' sh) by (apply Z.shiftl_nonneg; exact Hq').
    destruct (2 ^ 1024 <=? Z.shiftl q' sh); [discriminate|].
    injection Hx as <-. rewrite Qle_bool_0_inject_Z.
    change (Qabs (inject_Z ?z)) with (inject_Z (Z.abs z)) in Hlow.
    rewrite <- Zle_Qle in Hlow.
    assert (0 < 2 ^ 53) by (apply Z.pow_pos_nonneg; lia).
    destruct n as [|p|p]; cbn [Z.sgn] in *.
    + reflexivity.
    + rewrite Z.mul_1_l. apply Z.leb_le in Hv. rewrite Hv. reflexivity.
    + destruct (Z.leb_spec 0 (-1 * Z.shiftl q' sh)) as [Hle|Hlt];
        [exfalso; lia|reflexivity].
Qed.

(** An [int] behaves in the loop as its float does. *)
Lemma hsize_as_float (n : Z) (x : Q) :
  float_of_int n = Returns x -> hsize n = hsize_loop units (PyFloat x).
Proof.
  intros Hx. unfold hsize, units.
  destruct (Z.lt_ge_cases (Z.abs n) 1024) as [Hsmall|Hbig].
  - pose proof Hx as Hx'. rewrite float_of_int_exact in Hx' by lia.
    injection Hx' as <-.
    cbn [hsize_loop abs_lt_1024 format_3_0f].
    replace (Z.abs n <? 1024) with true by (symmetry; apply Z.ltb_lt; exact Hsmall).
    replace (Qle_bool 1024 (Qabs (inject_Z n))) with false.
    + rewrite Hx. reflexivity.
    + symmetry. change (Qabs (inject_Z n)) with (inject_Z (Z.abs n)).
      destruct (Qle_bool 1024 (inject_Z (Z.abs n))) eqn:Hle; [|reflexivity].
      apply Qle_bool_iff in Hle. change 1024%Q with (inject_Z 1024) in Hle.
      rewrite <- Zle_Qle in Hle. lia.
  - rewrite hsize_loop_int_scales, Hx by exact Hbig. cbn [mbind result_bind].
    rewrite (hsize_loop_float_scales " " _ x); [reflexivity|].
    apply (float_of_int_at_least_1024 n x Hbig Hx).
Qed.

End HsizeUnits.

(** X1.  The unit of [hsize] is decided by the magnitude of the byte
    count as a float [x]: when it lies between [1024^k] and [1024^(k+1)]
    the result is the integer nearest to [|x| / 1024^k] (the even one
    at a tie), with the sign of the count, in a field of width 3,
    followed by the unit at index [k] and [Bytes]. *)
Theorem hsize_unit_by_magnitude (n : Z) (x : Q) (k : nat) (u : string) :
  float_of_int n = Returns x ->
  units !! k = Some u ->
  (k = 0%nat \/ (inject_Z (1024 ^ Z.of_nat k) <= Qabs x)%Q) ->
  (Qabs x < inject_Z (1024 ^ Z.of_nat (S k)))%Q ->
  exists m : Z,
    hsize n = Returns (pad3 (sign_text (n <? 0) +:+ str_of_nonneg m)
                       +:+ u +:+ "Bytes") /\
    nearest_even (Qabs x / inject_Z (1024 ^ Z.of_nat k)) m.
Proof.
  intros Hx Hu Hlo Hhi.
  destruct (hsize_loop_float_unit k units u x Hu Hlo Hhi) as (m & Hrun & Hnear).
  exists m. split; [|exact Hnear].
  rewrite (hsize_as_float n x Hx), Hrun.
  rewrite (float_of_int_sign n x Hx), <- Z.ltb_antisym. reflexivity.
Qed.

Lemma hsize_unit_by_magnitude_witness :
  exists m : Z,
    hsize (-5368709120) = Returns (pad3 (sign_text (-5368709120 <? 0) +:+ str_of_nonneg m)
                                   +:+ "Gi" +:+ "Bytes") /\
    nearest_even (Qabs (inject_Z (-5368709120)) / inject_Z (1024 ^ Z.of_nat 3)) m.
Proof.
  apply (hsize_unit_by_magnitude (-5368709120) (inject_Z (-5368709120)) 3 "Gi").
  - reflexivity.
  - reflexivity.
  - right. vm_compute. discriminate.
  - vm_compute. reflexivity.
Defined.

(** The 53 bits of a float cannot hold an [int] within [2^26] of [2^80]:
    it is rounded up to [2^80]. *)
Lemma float_of_int_rounds_to_2_80 (n : Z) (x : Q) :
  2 ^ 80 - 2 ^ 26 <= Z.abs n < 2 ^ 80 ->
  float_of_int n = Returns x -> (inject_Z (2 ^ 80) <= Qabs x)%Q.
Proof.
  intros Hn. unfold float_of_int. set (a := Z.abs n) in *.
  assert (Hlog : Z.log2 a = 79).
  { apply Z.log2_unique; [lia|]. change (2 ^ 79) with 604462909807314587353088.
    change (2 ^ (79 + 1)) with (2 ^ 80).
    change (2 ^ 80) with 1208925819614629174706176 in *.
    change (2 ^ 26) with 67108864 in *. lia. }
  rewrite Hlog. change (Z.max 0 (79 - 52)) with 27.
  rewrite Z.shiftr_div_pow2 by lia.
  change (2 ^ 80) with 1208925819614629174706176 in *.
  change (2 ^ 26) with 67108864 in *. change (2 ^ 27) with 134217728.
  assert (Hq : a / 134217728 = 9007199254740991).
  { symmetry.
    apply (Z.div_unique a 134217728 9007199254740991
             (a - 134217728 * 9007199254740991)); lia. }
  rewrite Hq. rewrite !Z.shiftl_mul_pow2 by lia.
  change (2 ^ 27) with 134217728.
  change (Z.even 9007199254740991) with false. cbv iota.
  destruct (Z.compare_spec (2 * (a - 9007199254740991 * 134217728)) 134217728)
    as [He|Hl|Hg]; [|exfalso; lia|].
  - change ((9007199254740991 + 1) * 134217728) with 1208925819614629174706176.
    change (2 ^ 1024 <=? 1208925819614629174706176) with false. cbv iota.
    intros [= <-]. change (Qabs (inject_Z ?z)) with (inject_Z (Z.abs z)).
    rewrite <- Zle_Qle. subst a. destruct n; cbn in *; lia.
  - change ((9007199254740991 + 1) * 134217728) with 1208925819614629174706176.
    change (2 ^ 1024 <=? 1208925819614629174706176) with false. cbv iota.
    intros [= <-]. change (Qabs (inject_Z ?z)) with (inject_Z (Z.abs z)).
    rewrite <- Zle_Qle. subst a. destruct n; cbn in *; lia.
Qed.

(** X2.  The fallback is reached below [1024^8] too: an [int] within
    [2^26] of [1024^8] becomes the float [2^80], which no unit of the
    list takes, and [hsize] raises [NameError]. *)
Theorem hsize_unbound_just_below_Yi (n : Z) :
  1024 ^ 8 - 2 ^ 26 <= Z.abs n < 1024 ^ 8 ->
  hsize n = Raises (NameError "num").
Proof.
  intros Hn. change (1024 ^ 8) with (2 ^ 80) in Hn.
  assert (Hsmall : Z.abs n < 2 ^ 1023).
  { assert (2 ^ 80 < 2 ^ 1023) by (apply Z.pow_lt_mono_r; lia). lia. }
  destruct (float_of_int_fits n Hsmall) as [x Hx].
  pose proof (float_of_int_rounds_to_2_80 n x Hn Hx) as Hlow.
  rewrite (hsize_as_float n x Hx). apply hsize_loop_exhausts.
  exact Hlow.
Qed.

Lemma hsize_unbound_just_below_Yi_witness :
  hsize (1024 ^ 8 - 1) = Raises (NameError "num").
Proof.
  apply (hsize_unbound_just_below_Yi (1024 ^ 8 - 1)). vm_compute.
  split; [discriminate|reflexivity].
Defined.

(** ** More on [getconfig], [theme] and [mkcontext] *)

Lemma getconfig_run (g : lib_globals) (part : string) (c : console) :
  getconfig g part c = (Returns (config_value g part), c ++ config_warnings g part).
Proof.
  unfold getconfig, config_value, config_warnings.
  destruct (jsondata g !! part); cbn; [rewrite app_nil_r|]; reflexivity.
Qed.

Lemma theme_run (g : lib_globals) (tname : option string) (c : console) :
  theme g tname c =
  (match dict_get (themes g) tname with
   | Some v => Returns v
   | None => match themes g !! "default" with
             | Some d => Returns d
             | None => Raises (KeyError "default")
             end
   end, c ++ theme_warnings g tname).
Proof.
  unfold theme_warnings.
  destruct (dict_get (themes g) tname) as [v|] eqn:Hget.
  - rewrite (theme_hit g tname v c Hget), app_nil_r. reflexivity.
  - rewrite theme_miss by exact Hget.
    destruct (themes g !! "default"); reflexivity.
Qed.

(** X3.  A context that [mkcontext] returns has exactly the nine keys
    [title], [styling], [misc], [navbar], [ver], [fa], [jq], [ts] and
    [s2].  [title] and [ver] are the argument and the version, [misc]
    and [navbar] are the sections of the configuration, [None] for a
    section that is missing, and [styling] is the theme of the cookie
    when it is registered and the [default] theme otherwise. *)
Theorem mkcontext_entries (g : lib_globals) (req : request) (title : pyval)
    (scripts : string) (c c' : console) (ctx : gmap string pyval) :
  mkcontext g req title scripts c = (Returns ctx, c') ->
  dom ctx = context_keys /\
  ctx !! "title" = Some title /\
  ctx !! "ver" = Some (PStr (version g)) /\
  ctx !! "misc" = Some (config_value g "misc") /\
  ctx !! "navbar" = Some (config_value g "navbar") /\
  ctx !! "styling" =
    match dict_get (themes g) (COOKIES req !! "theme") with
    | Some v => Some v
    | None => themes g !! "default"
    end.
Proof.
  unfold mkcontext. intros Hrun.
  unfold mbind, io_bind in Hrun. rewrite theme_run in Hrun.
  assert (Hstyle : exists styling,
    match dict_get (themes g) (COOKIES req !! "theme") with
    | Some v => Some v
    | None => themes g !! "default"
    end = Some styling /\
    match dict_get (themes g) (COOKIES req !! "theme") with
    | Some v => Returns v
    | None => match themes g !! "default" with
              | Some d => Returns d
              | None => Raises (KeyError "default")
              end
    end = Returns styling).
  { destruct (dict_get (themes g) (COOKIES req !! "theme")) as [v|]; [eauto|].
    destruct (themes g !! "default") as [d|]; [eauto|discriminate]. }
  destruct Hstyle as (styling & -> & Hst). rewrite Hst in Hrun.
  rewrite !getconfig_run in Hrun. cbn [mret io_ret] in Hrun.
  injection Hrun as <- _.
  destruct (String.eqb scripts "font"); [|destruct (String.eqb scripts "form");
    [|destruct (String.eqb scripts "table")]];
    (split; [unfold context_keys; rewrite !dom_insert_L, dom_empty_L; set_solver|]);
    repeat split; by simplify_map_eq.
Qed.

Lemma mkcontext_entries_witness :
  exists ctx c',
    mkcontext globals_with_default request_with_unknown_theme (PStr "Home")
              "form" [] = (Returns ctx, c') /\
    dom ctx = context_keys /\
    ctx !! "misc" = Some PNone /\
    ctx !! "styling" = Some (PStr "plain").
Proof.
  eexists _, _. split; [reflexivity|].
  destruct (mkcontext_entries globals_with_default request_with_unknown_theme
              (PStr "Home") "form" [] _ _ eq_refl)
    as (Hdom & _ & _ & Hmisc & _ & Hstyle).
  split; [exact Hdom|]. split; [exact Hmisc|exact Hstyle].
Defined.

(** X4.  [mkcontext] prints its warnings in the order in which it
    evaluates the entries: the theme warning when the theme of the
    cookie is not registered, then the warning for a missing [misc]
    section, then the one for a missing [navbar] section; it prints
    nothing else, also when it raises for want of a [default] theme. *)
Theorem mkcontext_prints_in_order (g : lib_globals) (req : request)
    (title : pyval) (scripts : string) (c : console) :
  (is_Some (dict_get (themes g) (COOKIES req !! "theme")) \/
   is_Some (themes g !! "default") ->
   snd (mkcontext g req title scripts c)
   = c ++ theme_warnings g (COOKIES req !! "theme")
       ++ config_warnings g "misc" ++ config_warnings g "navbar") /\
  (dict_get (themes g) (COOKIES req !! "theme") = None ->
   themes g !! "default" = None ->
   snd (mkcontext g req title scripts c)
   = c ++ [theme_warning (COOKIES req !! "theme")]).
Proof.
  unfold mkcontext, mbind, io_bind. rewrite theme_run. split.
  - intros Hth.
    assert (Hst : exists styling,
      match dict_get (themes g) (COOKIES req !! "theme") with
      | Some v => Returns v
      | None => match themes g !! "default" with
                | Some d => Returns d
                | None => Raises (KeyError "default")
                end
      end = Returns styling).
    { destruct (dict_get (themes g) (COOKIES req !! "theme")) as [v|]; [eauto|].
      destruct Hth as [[v Hv]|[d ->]]; [discriminate|eauto]. }
    destruct Hst as [styling ->]. rewrite !getconfig_run. cbn [mret io_ret snd].
    rewrite <- !app_assoc. reflexivity.
  - intros Hget Hd. unfold theme_warnings. rewrite Hget, Hd. reflexivity.
Qed.

Lemma mkcontext_prints_in_order_witness :
  snd (mkcontext globals_with_default request_with_unknown_theme (PStr "Home")
                 "form" ["started"])
  = ["started"] ++ theme_warnings globals_with_default (Some "neon")
      ++ config_warnings globals_with_default "misc"
      ++ config_warnings globals_with_default "navbar".
Proof.
  apply (proj1 (mkcontext_prints_in_order globals_with_default
                  request_with_unknown_theme (PStr "Home") "form" ["started"])).
  right. exists (PStr "plain"). reflexivity.
Defined.

(** ** [dt2fmt] *)

(** X5.  [dt2fmt] reads the format from the configuration on every call.
    It returns [dt.strftime] of [misc["strftime"]] when that is a [str];
    without a [misc] section it prints the warning of [getconfig] and
    fails with [TypeError], because [None] cannot be subscripted; with a
    [misc] dict that has no [strftime] member it fails with [KeyError]. *)
Theorem dt2fmt_format_or_failure (g : lib_globals)
    (dt_strftime : string -> string) (c : console) :
  (forall d fmt,
     jsondata g !! "misc" = Some (PDict d) ->
     py_getitem (PDict d) "strftime" = inr (PStr fmt) ->
     dt2fmt g dt_strftime c = (inr (dt_strftime fmt), c)) /\
  (jsondata g !! "misc" = None ->
   dt2fmt g dt_strftime c
   = (inl (TypeError "'NoneType' object is not subscriptable"),
      c ++ config_warnings g "misc")) /\
  (forall d,
     jsondata g !! "misc" = Some (PDict d) ->
     Forall (fun kv => fst kv <> "strftime") d ->
     dt2fmt g dt_strftime c = (inl (Exn (KeyError "strftime")), c)).
Proof.
  unfold dt2fmt. rewrite getconfig_run. unfold config_value, config_warnings.
  split; [|split].
  - intros d fmt Hmisc Hget. rewrite Hmisc. cbv [default from_option id].
    rewrite Hget, app_nil_r. reflexivity.
  - intros Hmisc. rewrite Hmisc. reflexivity.
  - intros d Hmisc Hno. rewrite Hmisc. cbv [default from_option id].
    cbn [py_getitem]. rewrite app_nil_r.
    destruct (list_find _ d) as [[i kv]|] eqn:Hfind; [|reflexivity].
    exfalso. apply list_find_Some in Hfind as (Hi & Hk & _).
    rewrite Forall_forall in Hno. apply (Hno kv).
    + eapply list_elem_of_lookup_2. exact Hi.
    + apply String.eqb_eq. exact Hk.
Qed.

Lemma dt2fmt_format_or_failure_witness :
  dt2fmt globals_with_misc (fun fmt => "date in " +:+ fmt) []
  = (inr ("date in " +:+ "%B %e, %Y"), []) /\
  dt2fmt globals_with_default (fun fmt => "date in " +:+ fmt) []
  = (inl (TypeError "'NoneType' object is not subscriptable"),
     [] ++ config_warnings globals_with_default "misc").
Proof.
  split.
  - apply (proj1 (dt2fmt_format_or_failure globals_with_misc
                    (fun fmt => "date in " +:+ fmt) [])
             [("strftime", PStr "%B %e, %Y")] "%B %e, %Y"); reflexivity.
  - apply (proj1 (proj2 (dt2fmt_format_or_failure globals_with_default
                           (fun fmt => "date in " +:+ fmt) []))).
    reflexivity.
Defined.

(** ** Dicts in insertion order, strings and loops *)

Section DictFacts.

Context {V : Type}.

Lemma dict_lookup_set_eq (k : string) (v : V) (d : list (string * V)) :
  dict_lookup k (dict_set k v d) = Some v.
Proof.
  induction d as [|[k' v'] d IH]; cbn.
  - rewrite String.eqb_refl. reflexivity.
  - destruct (String.eqb k' k) eqn:Hk; cbn; rewrite Hk; [reflexivity|exact IH].
Qed.

Lemma dict_lookup_set_ne (k k' : string) (v : V) (d : list (string * V)) :
  k <> k' -> dict_lookup k' (dict_set k v d) = dict_lookup k' d.
Proof.
  intros Hne. induction d as [|[k0 v0] d IH]; cbn.
  - apply String.eqb_neq in Hne. rewrite Hne. reflexivity.
  - destruct (String.eqb k0 k) eqn:Hk; cbn.
    + apply String.eqb_eq in Hk. subst k0.
      apply String.eqb_neq in Hne. rewrite Hne. reflexivity.
    + rewrite IH. reflexivity.
Qed.

Lemma dict_lookup_None (k : string) (d : list (string * V)) :
  dict_lookup k d = None <-> k ∉ d.*1.
Proof.
  induction d as [|[k' v'] d IH]; cbn.
  - split; [intros _; apply not_elem_of_nil|reflexivity].
  - destruct (String.eqb_spec k' k) as [->|Hne].
    + split; [discriminate|]. intros Hn. exfalso. apply Hn. left.
    + rewrite IH. rewrite not_elem_of_cons. split; [auto|tauto].
Qed.

Lemma dict_set_new (k : string) (v : V) (d : list (string * V)) :
  k ∉ d.*1 -> dict_set k v d = d ++ [(k, v)].
Proof.
  induction d as [|[k' v'] d IH]; cbn; [reflexivity|].
  intros [Hne Hd]%not_elem_of_cons.
  destruct (String.eqb_spec k' k) as [Heq|_]; [congruence|].
  rewrite IH by exact Hd. reflexivity.
Qed.

Lemma dict_set_keys_known (k : string) (v : V) (d : list (string * V)) :
  k ∈ d.*1 -> (dict_set k v d).*1 = d.*1.
Proof.
  induction d as [|[k' v'] d IH]; cbn; [intros H; inversion H|].
  intros Hin. destruct (String.eqb_spec k' k) as [Heq|Hne]; cbn; [reflexivity|].
  f_equal. apply IH. apply elem_of_cons in Hin as [Heq|Hin]; [congruence|exact Hin].
Qed.

Lemma dict_set_NoDup (k : string) (v : V) (d : list (string * V)) :
  NoDup d.*1 -> NoDup (dict_set k v d).*1.
Proof.
  intros Hd. destruct (decide (k ∈ d.*1)) as [Hin|Hout].
  - rewrite dict_set_keys_known by exact Hin. exact Hd.
  - rewrite dict_set_new, fmap_app by exact Hout. cbn.
    apply NoDup_app. split; [exact Hd|]. split; [|apply NoDup_singleton].
    intros x Hx Hk. apply list_elem_of_singleton in Hk. subst x. auto.
Qed.

End DictFacts.

(** A loop over [l1 ++ l2] is the loop over [l1] followed by the loop
    over [l2]. *)
Lemma for_each_app {A S : Type} (body : A -> S -> io S) (l1 l2 : list A)
    (s : S) (c : console) :
  for_each body (l1 ++ l2) s c
  = (for_each body l1 s ≫= for_each body l2) c.
Proof.
  revert s c. induction l1 as [|a l1 IH]; intros s c; cbn [app for_each].
  - reflexivity.
  - unfold mbind, io_bind. destruct (body a s c) as [[s'|e] c']; [|reflexivity].
    rewrite IH. reflexivity.
Qed.

Lemma allfields_of_eq (cfg : jsonconfig) : allfields_of cfg = all_columns cfg.
Proof.
  unfold allfields_of, all_columns.
  assert (H : forall tbl acc,
            fold_left (fun allfields (g : string * list column) => allfields ++ snd g)
                      tbl acc = acc ++ flat_map snd tbl).
  { induction tbl as [|g tbl IH]; intros acc; cbn.
    - rewrite app_nil_r. reflexivity.
    - rewrite IH, app_assoc. reflexivity. }
  rewrite H. reflexivity.
Qed.

Lemma in_list_form_datatype (dt : string) :
  in_list dt ["date"; "select"; "string"; "text"] = true <-> form_datatype dt.
Proof.
  unfold in_list, form_datatype. cbn [existsb].
  rewrite !orb_true_iff, !String.eqb_eq. intuition congruence.
Qed.

(** Assigning the entries of a list with distinct new keys appends them
    in order. *)
Lemma fold_left_dict_set_new {A V : Type} (f : A -> string) (g : A -> V)
    (l : list A) (d : list (string * V)) :
  NoDup (map f l) ->
  Forall (fun x => f x ∉ d.*1) l ->
  fold_left (fun d x => dict_set (f x) (g x) d) l d
  = d ++ map (fun x => (f x, g x)) l.
Proof.
  revert d. induction l as [|x l IH]; intros d Hnd Hnew; cbn.
  - rewrite app_nil_r. reflexivity.
  - apply NoDup_cons in Hnd as [Hx Hnd]. apply Forall_cons in Hnew as [Hxd Hnew].
    rewrite dict_set_new by exact Hxd. rewrite IH.
    + rewrite <- app_assoc. reflexivity.
    + exact Hnd.
    + rewrite Forall_forall in Hnew |- *. intros y Hy.
      rewrite fmap_app, elem_of_app. cbn. intros [Hin|Hin]; [exact (Hnew y Hy Hin)|].
      apply list_elem_of_singleton in Hin. apply Hx. rewrite <- Hin.
      apply list_elem_of_fmap. exists y. auto.
Qed.

(** ** [configfields] *)

Lemma fields_loop_from (h : list (string * string)) (l : list column) :
  Forall (fun y => form_datatype (datatype y) ->
                   is_Some (dict_lookup (col y) h)) l ->
  forall fs ls c,
  exists ls',
    for_each (field_step h) l (fs, ls) c
    = (Returns (fs ++ map col (filter (fun y => form_datatype (datatype y)) l), ls'), c) /\
    forall f, dict_lookup f ls'
              = if decide (f ∈ map col (filter (fun y => form_datatype (datatype y)) l))
                then dict_lookup f h else dict_lookup f ls.
Proof.
  induction 1 as [|y l Hy _ IH]; intros fs ls c.
  - exists ls. cbn. rewrite app_nil_r. split; [reflexivity|].
    intros f. destruct (decide _) as [Hin|_]; [inversion Hin|reflexivity].
  - cbn [for_each]. destruct (decide (form_datatype (datatype y))) as [Hf|Hf].
    + destruct (Hy Hf) as [label Hlabel].
      assert (Hstep : field_step h y (fs, ls) c
                      = (Returns (fs ++ [col y], dict_set (col y) label ls), c)).
      { unfold field_step.
        rewrite (proj2 (in_list_form_datatype (datatype y)) Hf), Hlabel.
        reflexivity. }
      rewrite (io_bind_returns _ _ _ _ _ Hstep).
      destruct (IH (fs ++ [col y]) (dict_set (col y) label ls) c) as (ls' & Hrun & Hls).
      exists ls'. rewrite filter_cons_True by exact Hf. cbn [map].
      split; [rewrite Hrun, <- app_assoc; reflexivity|].
      intros f. rewrite Hls.
      destruct (decide (f ∈ map col (filter _ l))) as [Hin|Hout].
      * rewrite decide_True by (right; exact Hin). reflexivity.
      * destruct (decide (f = col y)) as [->|Hne].
        -- rewrite decide_True by left. rewrite dict_lookup_set_eq. auto.
        -- rewrite decide_False
             by (intros [?|?]%elem_of_cons; [congruence|contradiction]).
           apply dict_lookup_set_ne. congruence.
    + assert (Hstep : field_step h y (fs, ls) c = (Returns (fs, ls), c)).
      { unfold field_step.
        destruct (in_list (datatype y) _) eqn:Hin; [|reflexivity].
        apply in_list_form_datatype in Hin. contradiction. }
      rewrite (io_bind_returns _ _ _ _ _ Hstep).
      rewrite filter_cons_False by exact Hf. apply IH.
Qed.

(** X6.  When every column with one of the four datatypes has a header,
    the form fields of [configfields] are exactly the columns whose
    datatype is one of [date], [select], [string], [text], in schema
    order; each is labelled with its header and nothing else is
    labelled; every field is one of the column names of the model; and
    nothing is printed. *)
Theorem configfields_lists_form_columns (cfg : genconfig) (c : console) :
  Forall (fun y => form_datatype (datatype y) ->
                   is_Some (dict_lookup (col y) (headers cfg)))
         (all_columns (schema cfg)) ->
  exists labels,
    let fields := map col (filter (fun y => form_datatype (datatype y))
                                  (all_columns (schema cfg))) in
    fields_loop cfg c = (Returns (fields, labels), c) /\
    (forall str_of_list str_of_labels today,
       configfields str_of_list str_of_labels today cfg c
       = (Returns (fieldspy today (str_of_list fields) (str_of_labels labels)), c)) /\
    (forall f, f ∈ fields -> dict_lookup f labels = dict_lookup f (headers cfg)) /\
    (forall f, f ∉ fields -> dict_lookup f labels = None) /\
    (forall f, f ∈ fields -> f ∈ colnames_of (schema cfg)).
Proof.
  intros Hh. unfold fields_loop. rewrite allfields_of_eq.
  destruct (fields_loop_from (headers cfg) (all_columns (schema cfg)) Hh [] [] c)
    as (labels & Hrun & Hlabels).
  exists labels. cbn zeta. cbn [app] in Hrun.
  split; [exact Hrun|]. split; [|split; [|split]].
  - intros sl sb today. unfold configfields, fields_loop.
    rewrite allfields_of_eq. rewrite (io_bind_returns _ _ _ _ _ Hrun). reflexivity.
  - intros f Hf. rewrite Hlabels, decide_True by exact Hf. reflexivity.
  - intros f Hf. rewrite Hlabels, decide_False by exact Hf. reflexivity.
  - intros f Hf. rewrite colnames_of_eq. right. apply elem_of_app. left.
    apply list_elem_of_fmap in Hf as (y & -> & Hy).
    apply list_elem_of_fmap. exists y. split; [reflexivity|].
    apply list_elem_of_filter in Hy. tauto.
Qed.

Lemma configfields_lists_form_columns_witness :
  exists labels,
    fields_loop contacts_config [] = (Returns (["name"; "kind"], labels), []) /\
    dict_lookup "kind" labels = Some "Kind" /\
    dict_lookup "photo" labels = None.
Proof.
  destruct (configfields_lists_form_columns contacts_config [])
    as (labels & Hrun & _ & Hin & Hout & _).
  - repeat constructor; cbn; intros; eauto;
      repeat match goal with H : form_datatype _ |- _ =>
        destruct H as [H|[H|[H|H]]]; discriminate H end.
  - exists labels. split; [exact Hrun|]. split.
    + apply (Hin "kind"). cbn. right. left.
    + apply (Hout "photo"). cbn.
      intros [H|[H|H]%elem_of_cons]%elem_of_cons; [discriminate..|inversion H].
Defined.

(** X7.  [configfields] raises [KeyError] for the first column, in
    schema order, that has one of the four datatypes and no header: the
    label is read with [hconfig[col]].  Nothing is printed and no text
    is returned. *)
Theorem configfields_raises_without_header (cfg : genconfig)
    (before after : list column) (y : column) (c : console) :
  all_columns (schema cfg) = before ++ y :: after ->
  Forall (fun y => form_datatype (datatype y) ->
                   is_Some (dict_lookup (col y) (headers cfg))) before ->
  form_datatype (datatype y) ->
  dict_lookup (col y) (headers cfg) = None ->
  forall str_of_list str_of_labels today,
    configfields str_of_list str_of_labels today cfg c
    = (Raises (KeyError (col y)), c).
Proof.
  intros Hall Hbefore Hf Hnone sl sb today.
  unfold configfields. apply io_bind_raises.
  unfold fields_loop. rewrite allfields_of_eq, Hall, for_each_app.
  destruct (fields_loop_from (headers cfg) before Hbefore [] [] c)
    as (ls & Hrun & _).
  rewrite (io_bind_returns _ _ _ _ _ Hrun). cbn [for_each].
  apply io_bind_raises. unfold field_step.
  rewrite (proj2 (in_list_form_datatype (datatype y)) Hf), Hnone. reflexivity.
Qed.

Lemma configfields_raises_without_header_witness :
  configfields (fun _ => "[]") (fun _ => "{}") "July 30, 2023"
               contacts_without_kind_header []
  = (Raises (KeyError "kind"), []).
Proof.
  apply (configfields_raises_without_header contacts_without_kind_header
           [Column "name" "string" (Some 64) None]
           [Column "photo" "blob" None None]
           (Column "kind" "select" None (Some "kinds")) []).
  - reflexivity.
  - constructor; [|constructor]. intros _. exists "Name". reflexivity.
  - right. left. reflexivity.
  - reflexivity.
Defined.

(** ** [configchoices] *)

Lemma themechoices_of_distinct (themes : list (string * theme_desc)) :
  NoDup themes.*1 ->
  themechoices_of themes = map (fun kv => (fst kv, disp_name (snd kv))) themes.
Proof.
  intros Hnd. unfold themechoices_of.
  rewrite (fold_left_dict_set_new fst (fun kv => disp_name (snd kv))).
  - reflexivity.
  - exact Hnd.
  - apply Forall_forall. intros x _. apply not_elem_of_nil.
Qed.

(** X8.  After [configchoices] the [dropdown] section of the
    configuration has a list [themes] that gives each registered theme
    its display name, in the order of the registry; a list of that name
    in the configuration is replaced, where it stood, and every other
    list is as it was.  The text is built from the section so changed. *)
Theorem configchoices_sets_themes
    (str_of_choicedict : list (string * list (string * string)) -> string)
    (today : string) (cfg : genconfig) (themes : list (string * theme_desc)) :
  NoDup themes.*1 ->
  let choices := map (fun kv => (fst kv, disp_name (snd kv))) themes in
  let cfg' := snd (configchoices str_of_choicedict today cfg themes) in
  dict_lookup "themes" (dropdown cfg') = Some choices /\
  (forall k, k <> "themes" ->
             dict_lookup k (dropdown cfg') = dict_lookup k (dropdown cfg)) /\
  ("themes" ∈ (dropdown cfg).*1 -> (dropdown cfg').*1 = (dropdown cfg).*1) /\
  ("themes" ∉ (dropdown cfg).*1 ->
   dropdown cfg' = dropdown cfg ++ [("themes", choices)]) /\
  fst (configchoices str_of_choicedict today cfg themes)
  = choicespy today (str_of_choicedict (dropdown cfg')).
Proof.
  intros Hnd. cbn zeta. unfold configchoices. cbn [fst snd dropdown].
  rewrite themechoices_of_distinct by exact Hnd.
  split; [apply dict_lookup_set_eq|].
  split; [intros k Hk; apply dict_lookup_set_ne; congruence|].
  split; [apply dict_set_keys_known|].
  split; [apply dict_set_new|reflexivity].
Qed.

Lemma configchoices_sets_themes_witness :
  dict_lookup "themes"
    (dropdown (snd (configchoices (fun _ => "{}") "July 30, 2023" contacts_config
                                  [("plain", plain_theme)])))
  = Some [("plain", "Plain")] /\
  dict_lookup "kinds"
    (dropdown (snd (configchoices (fun _ => "{}") "July 30, 2023" contacts_config
                                  [("plain", plain_theme)])))
  = Some [("p", "Person"); ("c", "Company")].
Proof.
  destruct (configchoices_sets_themes (fun _ => "{}") "July 30, 2023"
              contacts_config [("plain", plain_theme)])
    as (Hthemes & Hothers & _).
  - cbn. apply NoDup_singleton.
  - split; [exact Hthemes|]. rewrite Hothers by discriminate. reflexivity.
Defined.

(** ** More on [configmodels] *)

(** What one column adds to [table] and to the console, and whether it
    raises, does not depend on what [table], [cfgdata] and the console
    hold; [cfgdata] gets the column under its name. *)
Lemma column_step_appends (x : string) (y : column) (t : string)
    (d : list (string * column)) (c : console) :
  column_step x y (t, d) c =
  match column_step x y (EmptyString, []) [] with
  | (Returns (t', _), w) => (Returns (t +:+ t', dict_set (col y) y d), c ++ w)
  | (Raises e, w) => (Raises e, c ++ w)
  end.
Proof.
  unfold column_step, member, print, raise, mbind, io_bind, mret, io_ret.
  destruct (str_in (datatype y) "select").
  { destruct (ddfile y); cbv beta iota; rewrite app_nil_r; reflexivity. }
  destruct (String.eqb (datatype y) "string").
  { destruct (max y); cbv beta iota; rewrite app_nil_r; reflexivity. }
  destruct (String.eqb (datatype y) "text");
    [cbv beta iota; rewrite app_nil_r; reflexivity|].
  destruct (String.eqb (datatype y) "date");
    [cbv beta iota; rewrite app_nil_r; reflexivity|].
  cbv beta iota. rewrite string_app_nil_r. reflexivity.
Qed.

(** The nested loops are one loop over the columns with their groups. *)
Lemma table_loop_flat (tbl : list (string * list column))
    (st : string * list (string * column)) (c : console) :
  for_each group_step tbl st c
  = for_each (fun xy => column_step (fst xy) (snd xy)) (grouped_columns tbl) st c.
Proof.
  revert st c. induction tbl as [|[x cols] tbl IH]; intros st c; [reflexivity|].
  cbn [for_each grouped_columns flat_map fst snd]. rewrite for_each_app.
  assert (Hin : forall st c,
            group_step (x, cols) st c
            = for_each (fun xy : string * column => column_step (fst xy) (snd xy))
                       (map (fun y => (x, y)) cols) st c).
  { unfold group_step. cbn [fst snd]. clear.
    induction cols as [|y cols IHc]; intros st c; [reflexivity|].
    cbn [for_each map fst snd]. unfold mbind, io_bind.
    destruct (column_step x y st c) as [[st'|e] c']; [apply IHc|reflexivity]. }
  unfold mbind, io_bind. rewrite Hin.
  destruct (for_each _ (map _ cols) st c) as [[st'|e] c']; [apply IH|reflexivity].
Qed.

(** The loop started with any [table], [cfgdata] and console, in terms
    of the loop started with empty ones. *)
Lemma columns_loop_from (l : list (string * column)) :
  forall (t : string) (d : list (string * column)) (c : console),
  for_each (fun xy => column_step (fst xy) (snd xy)) l (t, d) c =
  match for_each (fun xy => column_step (fst xy) (snd xy)) l (EmptyString, []) [] with
  | (Returns (t1, _), w) =>
      (Returns (t +:+ t1,
                fold_left (fun d xy => dict_set (col (snd xy)) (snd xy) d) l d),
       c ++ w)
  | (Raises e, w) => (Raises e, c ++ w)
  end.
Proof.
  induction l as [|[x y] l IH]; intros t d c.
  - cbn. rewrite string_app_nil_r, app_nil_r. reflexivity.
  - cbn [for_each fst snd fold_left]. unfold mbind, io_bind.
    rewrite (column_step_appends x y t d c).
    destruct (column_step x y (EmptyString, []) []) as [[[ta da]|e] wa];
      [|reflexivity].
    cbv beta iota.
    rewrite (IH (t +:+ ta) (dict_set (col y) y d) (c ++ wa)).
    rewrite (IH ta da wa).
    destruct (for_each _ l (EmptyString, []) []) as [[[t1 d1]|e] w1].
    + rewrite string_app_assoc, <- app_assoc. reflexivity.
    + rewrite <- app_assoc. reflexivity.
Qed.

Lemma grouped_columns_snd (tbl : list (string * list column)) :
  map snd (grouped_columns tbl) = flat_map snd tbl.
Proof.
  induction tbl as [|[x cols] tbl IH]; [reflexivity|].
  cbn [grouped_columns flat_map fst snd]. rewrite map_app. f_equal; [|exact IH].
  clear. induction cols as [|y cols IHc]; [reflexivity|]. cbn. f_equal. exact IHc.
Qed.

Lemma dict_set_keys_elem {V : Type} (k k' : string) (v : V) (d : list (string * V)) :
  k' ∈ (dict_set k v d).*1 <-> k' = k \/ k' ∈ d.*1.
Proof.
  destruct (decide (k ∈ d.*1)) as [Hin|Hout].
  - rewrite dict_set_keys_known by exact Hin. split; [auto|].
    intros [->|H]; assumption.
  - rewrite dict_set_new, fmap_app, elem_of_app by exact Hout. cbn.
    rewrite list_elem_of_singleton. tauto.
Qed.

Lemma fold_left_dict_set_keys (l : list column) (d : list (string * column)) :
  NoDup d.*1 ->
  let d' := fold_left (fun d y => dict_set (col y) y d) l d in
  NoDup d'.*1 /\ forall name, name ∈ d'.*1 <-> name ∈ d.*1 \/ name ∈ map col l.
Proof.
  revert d. induction l as [|y l IH]; intros d Hd; cbn zeta; cbn [fold_left map].
  - split; [exact Hd|]. intros name. split; [auto|]. intros [H|H]; [exact H|inversion H].
  - destruct (IH (dict_set (col y) y d) (dict_set_NoDup _ _ _ Hd)) as [Hnd Hkeys].
    split; [exact Hnd|]. intros name. rewrite Hkeys, dict_set_keys_elem, elem_of_cons.
    tauto.
Qed.

(** X9.  The [cfgdata] that [configmodels] builds has one entry for each
    name of a column, whatever the datatype of the column, also for a
    column that is skipped with the warning.  When the names of the
    columns are distinct it lists every column under its name, in schema
    order. *)
Theorem cfgdata_has_every_column (cfg : jsonconfig) (c c' : console)
    (t : string) (cfgdata : list (string * column)) :
  table_loop cfg c = (Returns (t, cfgdata), c') ->
  NoDup cfgdata.*1 /\
  (forall name, name ∈ cfgdata.*1 <-> name ∈ map col (all_columns cfg)) /\
  (NoDup (map col (all_columns cfg)) ->
   cfgdata = map (fun y => (col y, y)) (all_columns cfg)).
Proof.
  unfold table_loop. rewrite table_loop_flat, columns_loop_from.
  destruct (for_each _ (grouped_columns (table cfg)) (EmptyString, []) [])
    as [[[t1 d1]|e] w]; [|discriminate].
  intros Hrun. injection Hrun as _ <- _.
  assert (Hfold : fold_left (fun d (xy : string * column) =>
                               dict_set (col (snd xy)) (snd xy) d)
                            (grouped_columns (table cfg)) []
                  = fold_left (fun d y => dict_set (col y) y d) (all_columns cfg) []).
  { unfold all_columns. rewrite <- grouped_columns_snd.
    generalize (@nil (string * column)).
    induction (grouped_columns (table cfg)) as [|xy l IH]; intros d; [reflexivity|].
    cbn. apply IH. }
  rewrite Hfold.
  destruct (fold_left_dict_set_keys (all_columns cfg) [] (NoDup_nil_2)) as [Hnd Hkeys].
  split; [exact Hnd|]. split.
  - intros name. rewrite Hkeys. split; [intros [H|H]; [inversion H|exact H]|auto].
  - intros Hnames.
    rewrite (fold_left_dict_set_new col (fun y => y)); [reflexivity|exact Hnames|].
    apply Forall_forall. intros y _. apply not_elem_of_nil.
Qed.

Lemma cfgdata_has_every_column_witness :
  exists t cfgdata c',
    table_loop schema_with_blob [] = (Returns (t, cfgdata), c') /\
    cfgdata = [("name", Column "name" "text" None None);
               ("photo", Column "photo" "blob" None None)].
Proof.
  eexists _, _, _. split; [reflexivity|].
  apply (proj2 (proj2 (cfgdata_has_every_column schema_with_blob [] _ _ _ eq_refl))).
  cbn. apply NoDup_cons. split; [|apply NoDup_singleton].
  intros H. apply list_elem_of_singleton in H. discriminate H.
Defined.

(** X10.  The declarations and the warnings of a schema are those of its
    groups, one after the other: for a table section made of two parts,
    [configmodels] builds the text of the first part followed by the
    text of the second, and prints the warnings of the first followed by
    those of the second; when the first part raises, so does the whole,
    with the same exception and output. *)
Theorem table_loop_of_two_parts (b : option string)
    (tbl1 tbl2 : list (string * list column)) (c : console) :
  (forall t1 d1 w1 t2 d2 w2,
     table_loop (JsonConfig tbl1 b) [] = (Returns (t1, d1), w1) ->
     table_loop (JsonConfig tbl2 b) [] = (Returns (t2, d2), w2) ->
     exists d,
       table_loop (JsonConfig (tbl1 ++ tbl2) b) c
       = (Returns (t1 +:+ t2, d), c ++ w1 ++ w2)) /\
  (forall e w1,
     table_loop (JsonConfig tbl1 b) [] = (Raises e, w1) ->
     table_loop (JsonConfig (tbl1 ++ tbl2) b) c = (Raises e, c ++ w1)).
Proof.
  unfold table_loop. cbn [table]. rewrite !table_loop_flat.
  assert (Happ : grouped_columns (tbl1 ++ tbl2)
                 = grouped_columns tbl1 ++ grouped_columns tbl2)
    by (unfold grouped_columns; apply flat_map_app).
  rewrite Happ, for_each_app. unfold mbind, io_bind.
  rewrite (columns_loop_from (grouped_columns tbl1) EmptyString [] c).
  split.
  - intros t1 d1 w1 t2 d2 w2 H1 H2. rewrite H1. cbv beta iota.
    rewrite (columns_loop_from (grouped_columns tbl2)), H2.
    eexists. rewrite string_app_assoc, <- app_assoc. reflexivity.
  - intros e w1 H1. rewrite H1. reflexivity.
Qed.

Lemma table_loop_of_two_parts_witness :
  exists d,
    table_loop (JsonConfig ([("main", [Column "photo" "blob" None None])]
                            ++ [("extra", [Column "born" "date" None None])]) None)
               ["started"]
    = (Returns (EmptyString +:+
                ("    born = models.DateField(null = True)" +:+ nl
                 +:+ group_line (Column "born" "date" None None) "extra"), d),
       ["started"] ++ [unknown_warning "blob"] ++ []).
Proof.
  apply (proj1 (table_loop_of_two_parts None
                  [("main", [Column "photo" "blob" None None])]
                  [("extra", [Column "born" "date" None None])] ["started"])
           EmptyString [("photo", Column "photo" "blob" None None)]
           [unknown_warning "blob"] _
           [("born", Column "born" "date" None None)] []).
  - vm_compute. reflexivity.
  - vm_compute. reflexivity.
Defined.

(** ** More on theme discovery *)




Section DiscoveryCount.

Variable json_load_index : string -> string + gmap string theme_desc.




End DiscoveryCount.



(** ** The registry that the compile step builds *)

Lemma dict_set_elem {V : Type} (k k' : string) (v v' : V) (d : list (string * V)) :
  (k', v') ∈ dict_set k v d -> (k', v') = (k, v) \/ (k', v') ∈ d.
Proof.
  induction d as [|[k0 v0] d IH]; cbn.
  - intros H%list_elem_of_singleton. left. exact H.
  - destruct (String.eqb_spec k0 k) as [->|Hne].
    + intros [H|H]%elem_of_cons; [left; exact H|].
      right. apply elem_of_cons. right. exact H.
    + intros [H|H]%elem_of_cons; [right; apply elem_of_cons; left; exact H|].
      destruct (IH H) as [Heq|Hin]; [left; exact Heq|].
      right. apply elem_of_cons. right. exact Hin.
Qed.

Section Registry.

Variable compress : string -> string.
Variable w : world.
Variable themecss : string.

Lemma registered_cons (a : theme_desc) (l : list theme_desc) (k : string)
    (th : theme_desc) :
  registered compress w themecss l k th ->
  registered compress w themecss (a :: l) k th.
Proof.
  intros (Hex & th0 & own & Hin & H). split; [exact Hex|].
  exists th0, own. split; [right; exact Hin|exact H].
Qed.

Lemma compile_step_outcome (th0 : theme_desc)
    (themes themes' : list (string * theme_desc)) (c c' : console) :
  compile_step compress w themecss th0 themes c = (Returns themes', c') ->
  (path_exists w (theme_index (int_name th0)) = true /\ c' = c /\
   exists own, open_read w (css th0) = Returns own /\
     themes' = dict_set (int_name th0)
                        (compiled_theme compress themecss own th0) themes) \/
  (path_exists w (theme_index (int_name th0)) = false /\
   c' = c ++ [index_warning (int_name th0)] /\ themes' = themes).
Proof.
  unfold compile_step, theme_index.
  destruct (path_exists w _) eqn:Hex.
  - unfold mbind, io_bind, lift.
    destruct (open_read w (css th0)) as [own|e]; [|discriminate].
    cbn. intros [= <- <-]. left. split; [reflexivity|]. split; [reflexivity|].
    exists own. split; reflexivity.
  - cbn. intros [= <- <-]. right. split; [reflexivity|]. split; reflexivity.
Qed.

Lemma compile_loop_registry (l : list theme_desc) :
  forall (themes0 themes : list (string * theme_desc)) (c c' : console),
  for_each (compile_step compress w themecss) l themes0 c = (Returns themes, c') ->
  NoDup themes0.*1 ->
  NoDup themes.*1 /\
  (forall k, k ∈ themes0.*1 -> k ∈ themes.*1) /\
  (forall k th, (k, th) ∈ themes ->
     (k, th) ∈ themes0 \/ registered compress w themecss l k th) /\
  (forall th0, th0 ∈ l -> path_exists w (theme_index (int_name th0)) = true ->
               int_name th0 ∈ themes.*1) /\
  c' = c ++ map index_warning
              (List.filter (fun k => negb (path_exists w (theme_index k)))
                           (map int_name l)).
Proof.
  induction l as [|a l IH]; intros themes0 themes c c' Hrun Hnd.
  - cbn in Hrun. injection Hrun as <- <-.
    split; [exact Hnd|]. split; [auto|]. split; [auto|].
    split; [intros th0 H; inversion H|]. cbn. rewrite app_nil_r. reflexivity.
  - cbn [for_each] in Hrun. unfold mbind, io_bind in Hrun.
    destruct (compile_step compress w themecss a themes0 c)
      as [[themes1|e] c1] eqn:Hstep; [|discriminate].
    assert (Hnd1 : NoDup themes1.*1 /\
                   (forall k, k ∈ themes0.*1 -> k ∈ themes1.*1)).
    { destruct (compile_step_outcome _ _ _ _ _ Hstep)
        as [(_ & _ & own & _ & ->)|(_ & _ & ->)].
      - split; [apply dict_set_NoDup; exact Hnd|].
        intros k Hk. apply dict_set_keys_elem. right. exact Hk.
      - split; [exact Hnd|auto]. }
    destruct Hnd1 as [Hnd1 Hmono].
    destruct (IH _ _ _ _ Hrun Hnd1) as (HND & Hkeys & Helem & Hcov & Hout).
    split; [exact HND|]. split; [auto|]. split; [|split].
    + intros k th Hin. destruct (Helem k th Hin) as [H1|Hreg].
      * destruct (compile_step_outcome _ _ _ _ _ Hstep)
          as [(Hex & _ & own & Hown & ->)|(_ & _ & ->)]; [|left; exact H1].
        apply dict_set_elem in H1 as [[= -> ->]|H0]; [|left; exact H0].
        right. split; [exact Hex|]. exists a, own.
        split; [left|]. split; [reflexivity|]. split; [exact Hown|reflexivity].
      * right. apply registered_cons. exact Hreg.
    + intros th0 [->|Hin]%elem_of_cons Hex; [|apply Hcov; assumption].
      apply Hkeys.
      destruct (compile_step_outcome _ _ _ _ _ Hstep)
        as [(_ & _ & own & _ & ->)|(Hno & _)]; [|congruence].
      apply dict_set_keys_elem. left. reflexivity.
    + subst c'. cbn [map List.filter].
      destruct (compile_step_outcome _ _ _ _ _ Hstep)
        as [(Hex & -> & _)|(Hno & -> & _)].
      * rewrite Hex. reflexivity.
      * rewrite Hno. cbn. rewrite <- app_assoc. reflexivity.
Qed.

End Registry.

(** A loop whose body prints nothing prints nothing. *)
Lemma for_each_silent {A S : Type} (body : A -> S -> io S) (l : list A) :
  (forall a s c r c', body a s c = (r, c') -> c' = c) ->
  forall s c r c', for_each body l s c = (r, c') -> c' = c.
Proof.
  intros Hbody. induction l as [|a l IH]; intros s c r c' Hrun.
  - cbn [for_each] in Hrun. unfold mret, io_ret in Hrun. congruence.
  - cbn [for_each] in Hrun. unfold mbind, io_bind in Hrun.
    destruct (body a s c) as [r1 c1] eqn:Ha.
    apply Hbody in Ha. subst c1.
    destruct r1 as [s1|e]; [exact (IH _ _ _ _ Hrun)|congruence].
Qed.

Lemma font_step_silent (path_suffix b64encode : string -> string) (w : world)
    (font : string * string) (st : string * option string) (c c' : console)
    (r : result (string * option string)) :
  font_step path_suffix b64encode w font st c = (r, c') -> c' = c.
Proof.
  destruct st as [tc fty]. unfold font_step, mbind, io_bind, lift.
  destruct (open_read w (snd font)); [|congruence].
  destruct (if String.eqb _ _ then _ else _);
    unfold mret, io_ret, raise; congruence.
Qed.

(** The font loop prints nothing. *)
Lemma fonts_loop_silent (path_suffix b64encode : string -> string) (w : world)
    (themeindices : list theme_desc) (c c1 : console)
    (r : result (string * option string)) :
  fonts_loop path_suffix b64encode w themeindices c = (r, c1) -> c1 = c.
Proof.
  unfold fonts_loop. apply for_each_silent.
  intros th st c0 r0 c0'. apply for_each_silent.
  intros font st0 c2 r2 c2'. apply font_step_silent.
Qed.

(** X12.  The registry that the CSS compile step returns has one entry
    for each internal name, stored under that name.  Every entry is a
    discovered descriptor whose [config/themes/<int_name>/index.json]
    exists, with its [css] replaced by the compressed text of the font
    faces of all themes, the base stylesheet and the theme's own
    stylesheet, in that order; every discovered descriptor with such an
    index.json has an entry under its name; and the lines printed are
    the warnings for the descriptors without one, in order. *)
Theorem compile_css_registry
    (path_suffix b64encode compress : string -> string)
    (w : world) (cfg : jsonconfig) (themeindices : list theme_desc)
    (c c' : console) (themes : list (string * theme_desc)) :
  compile_css path_suffix b64encode compress w cfg themeindices c
  = (Returns themes, c') ->
  exists fontcss ft base_path base,
    fonts_loop path_suffix b64encode w themeindices c = (Returns (fontcss, ft), c) /\
    basecss cfg = Some base_path /\
    open_read w base_path = Returns base /\
    NoDup themes.*1 /\
    (forall k th, (k, th) ∈ themes ->
       registered compress w (fontcss +:+ base) themeindices k th) /\
    (forall th0, th0 ∈ themeindices ->
       path_exists w (theme_index (int_name th0)) = true ->
       int_name th0 ∈ themes.*1) /\
    c' = c ++ map index_warning
                (List.filter (fun k => negb (path_exists w (theme_index k)))
                             (map int_name themeindices)).
Proof.
  intros Hrun. unfold compile_css, mbind, io_bind in Hrun.
  destruct (fonts_loop path_suffix b64encode w themeindices c)
    as [[[fontcss ft]|e] c1] eqn:Hfonts; [|discriminate].
  pose proof (fonts_loop_silent _ _ _ _ _ _ _ Hfonts) as ->.
  destruct (basecss cfg) as [base_path|] eqn:Hbase; [|discriminate].
  cbn [member mret io_ret lift] in Hrun.
  destruct (open_read w base_path) as [base|e] eqn:Hopen; [|discriminate].
  destruct (compile_loop_registry compress w (fontcss +:+ base) themeindices
              [] themes c c' Hrun (NoDup_nil_2 (A := string)))
    as (Hnd & _ & Helem & Hcov & Hout).
  exists fontcss, ft, base_path, base.
  split; [reflexivity|]. split; [reflexivity|]. split; [exact Hopen|].
  split; [exact Hnd|]. split; [|split; [exact Hcov|exact Hout]].
  intros k th Hin. destruct (Helem k th Hin) as [H|H]; [inversion H|exact H].
Qed.

Lemma compile_css_registry_witness :
  exists fontcss base,
    forall k th,
      (k, th) ∈ [("plain",
                  compiled_theme (fun s => s)
                    (font_face "Body" "truetype" "FONT" +:+ "body { margin: 0 }")
                    "body { color: black }" plain_theme)] ->
      registered (fun s => s) world_one (fontcss +:+ base) [plain_theme] k th.
Proof.
  destruct (compile_css_registry (fun _ => ".ttf") (fun b => b) (fun s => s)
              world_one plain_config [plain_theme] [] []
              [("plain",
                compiled_theme (fun s => s)
                  (font_face "Body" "truetype" "FONT" +:+ "body { margin: 0 }")
                  "body { color: black }" plain_theme)])
    as (fontcss & ft & base_path & base & _ & _ & _ & _ & Helem & _).
  - vm_compute. reflexivity.
  - exists fontcss, base. exact Helem.
Defined.

(** ** The font type in the font loop *)

Lemma for_each_concat {A B S : Type} (f : A -> list B) (body : B -> S -> io S)
    (l : list A) (s : S) (c : console) :
  for_each (fun a st => for_each body (f a) st) l s c
  = for_each body (concat (map f l)) s c.
Proof.
  revert s c. induction l as [|a l IH]; intros s c; [reflexivity|].
  cbn [map concat]. rewrite for_each_app. cbn [for_each].
  unfold mbind, io_bind.
  destruct (for_each body (f a) s c) as [[s1|e] c1]; [apply IH|reflexivity].
Qed.

Lemma last_app_is_Some {A : Type} (l1 l2 : list A) :
  is_Some (last l1) -> is_Some (last (l1 ++ l2)).
Proof.
  intros [x Hx]. rewrite last_app, Hx. destruct (last l2); eauto.
Qed.

(** The font type after a font is the declared type of that font. *)
Lemma declared_type_step (path_suffix : string -> string)
    (before : list (string * string)) (font : string * string) :
  (if String.eqb (path_suffix (snd font)) ".otf" then Some "opentype"
   else if String.eqb (path_suffix (snd font)) ".ttf" then Some "truetype"
   else last (omap (fun f => known_type (path_suffix (snd f))) before))
  = declared_type path_suffix before font.
Proof.
  unfold declared_type. rewrite omap_app, last_app. cbn [omap list_omap].
  unfold known_type.
  destruct (String.eqb (path_suffix (snd font)) ".otf"); [reflexivity|].
  destruct (String.eqb (path_suffix (snd font)) ".ttf"); reflexivity.
Qed.

(** The loop over the fonts [l], entered after the fonts [before]. *)
Lemma fonts_from (path_suffix b64encode content : string -> string)
    (w : world) (c : console) (l : list (string * string)) :
  forall (before : list (string * string)) (css0 : string),
  (forall font, font ∈ l -> open_read w (snd font) = Returns (content (snd font))) ->
  (forall first, head l = Some first ->
                 is_Some (declared_type path_suffix before first)) ->
  for_each (font_step path_suffix b64encode w) l
           (css0, last (omap (fun f => known_type (path_suffix (snd f))) before)) c
  = (Returns (css0 +:+ font_faces path_suffix b64encode content before l,
              last (omap (fun f => known_type (path_suffix (snd f)))
                         (before ++ l))), c).
Proof.
  induction l as [|font l IH]; intros before css0 Hread Hfirst.
  - cbn [for_each font_faces]. rewrite string_app_nil_r, app_nil_r. reflexivity.
  - destruct (Hfirst font eq_refl) as [ft Hft].
    assert (Hstep : font_step path_suffix b64encode w font
                      (css0, last (omap (fun f => known_type (path_suffix (snd f)))
                                        before)) c
                    = (Returns (css0 +:+ font_face (fst font) ft
                                           (b64encode (content (snd font))),
                                last (omap (fun f => known_type (path_suffix (snd f)))
                                           (before ++ [font]))), c)).
    { unfold font_step, mbind, io_bind, lift.
      rewrite (Hread font) by (apply elem_of_cons; left; reflexivity).
      rewrite declared_type_step. fold (declared_type path_suffix before font).
      rewrite Hft. reflexivity. }
    cbn [for_each]. rewrite (io_bind_returns _ _ _ _ _ Hstep).
    rewrite IH.
    + cbn [font_faces]. rewrite Hft. cbn [default from_option id].
      rewrite string_app_assoc, <- app_assoc. reflexivity.
    + intros f Hf. apply Hread. apply elem_of_cons. right. exact Hf.
    + intros second _. unfold declared_type. rewrite omap_app.
      apply last_app_is_Some. fold (declared_type path_suffix before font).
      rewrite Hft. eauto.
Qed.

(** X13.  The font type is a variable of the whole font loop, not of a
    theme: the loop handles the fonts of all themes as one sequence, and
    declares each font with the type of the last font, up to and
    including itself, whose file has the suffix [.otf] or [.ttf], also
    when that font belongs to another theme.  So when every font file
    can be read and the first font has one of the two suffixes, the loop
    returns the font faces with these types, and ends with the type of
    the last font with such a suffix. *)
Theorem font_type_carried_over
    (path_suffix b64encode content : string -> string)
    (w : world) (themeindices : list theme_desc) (c : console) :
  (forall font, font ∈ concat (map fonts themeindices) ->
                open_read w (snd font) = Returns (content (snd font))) ->
  (forall first, head (concat (map fonts themeindices)) = Some first ->
                 is_Some (known_type (path_suffix (snd first)))) ->
  fonts_loop path_suffix b64encode w themeindices c
  = (Returns (font_faces path_suffix b64encode content []
                         (concat (map fonts themeindices)),
              last (omap (fun f => known_type (path_suffix (snd f)))
                         (concat (map fonts themeindices)))), c).
Proof.
  intros Hread Hfirst. unfold fonts_loop. rewrite for_each_concat.
  apply (fonts_from path_suffix b64encode content w c _ [] EmptyString Hread).
  intros first H. destruct (Hfirst first H) as [t Ht].
  unfold declared_type. cbn [app omap list_omap]. rewrite Ht. eauto.
Qed.

Lemma font_type_carried_over_witness :
  fonts_loop sample_suffix (fun b => b) two_font_world two_font_themes []
  = (Returns (font_face "Body" "truetype" "FONT"
              +:+ font_face "Head" "truetype" "WOFF",
              Some "truetype"), []).
Proof.
  apply (font_type_carried_over sample_suffix (fun b => b) sample_font_bytes
           two_font_world two_font_themes []).
  - intros font Hin. cbn in Hin.
    apply elem_of_cons in Hin as [->|Hin]; [reflexivity|].
    apply list_elem_of_singleton in Hin as ->. reflexivity.
  - intros first Hfirst. cbn in Hfirst. injection Hfirst as <-.
    exists "truetype". reflexivity.
Defined.

(** X14.  When the first font of the first theme that has fonts is in a
    file whose suffix is neither [.otf] nor [.ttf], and the file can be
    read, the CSS compile step raises [UnboundLocalError] for
    [fontfiletype]; it prints nothing and returns no registry, whatever
    the other themes are. *)
Theorem compile_css_unbound_font_type
    (path_suffix b64encode compress : string -> string)
    (w : world) (cfg : jsonconfig) (before after : list theme_desc)
    (th : theme_desc) (font : string * string) (others : list (string * string))
    (bytes : string) (c : console) :
  Forall (fun t => fonts t = []) before ->
  fonts th = font :: others ->
  path_suffix (snd font) <> ".otf" -> path_suffix (snd font) <> ".ttf" ->
  open_read w (snd font) = Returns bytes ->
  compile_css path_suffix b64encode compress w cfg (before ++ th :: after) c
  = (Raises (UnboundLocalError "fontfiletype"), c).
Proof.
  intros Hbefore Hfonts Hotf Httf Hopen.
  apply String.eqb_neq in Hotf, Httf.
  unfold compile_css. apply io_bind_raises.
  unfold fonts_loop. rewrite for_each_concat, map_app, concat_app.
  assert (Hnil : concat (map fonts before) = []).
  { induction Hbefore as [|t ts Ht _ IH]; [reflexivity|].
    cbn [map concat]. rewrite Ht, IH. reflexivity. }
  rewrite Hnil. cbn [app map concat]. rewrite Hfonts.
  cbn [app for_each]. apply io_bind_raises.
  unfold font_step, mbind, io_bind, lift. rewrite Hopen, Hotf, Httf.
  reflexivity.
Qed.

Lemma compile_css_unbound_font_type_witness :
  compile_css (fun _ => ".woff") (fun b => b) (fun s => s)
              world_one plain_config
              ([ThemeDesc "bare" "Bare" [] "bare.css"] ++ plain_theme :: []) []
  = (Raises (UnboundLocalError "fontfiletype"), []).
Proof.
  apply (compile_css_unbound_font_type (fun _ => ".woff") (fun b => b) (fun s => s)
           world_one plain_config [ThemeDesc "bare" "Bare" [] "bare.css"] []
           plain_theme ("Body", "fonts/body.ttf") [] "FONT" []).
  - constructor; [reflexivity|constructor].
  - reflexivity.
  - discriminate.
  - discriminate.
  - reflexivity.
Defined.

(** ** [Command.handle] *)

Lemma unchanged_outside_refl (ps : list string) (w : world) :
  unchanged_outside ps w w.
Proof. repeat split. Qed.

Lemma unchanged_outside_trans (ps qs : list string) (w1 w2 w3 : world) :
  unchanged_outside ps w1 w2 -> unchanged_outside qs w2 w3 ->
  unchanged_outside (ps ++ qs) w1 w3.
Proof.
  intros (Hl1 & Hd1 & Hf1) (Hl2 & Hd2 & Hf2).
  split; [congruence|]. split; [congruence|].
  intros p Hp. apply not_elem_of_app in Hp as [Hp Hq].
  rewrite Hf2, Hf1 by assumption. reflexivity.
Qed.

Lemma unchanged_outside_weaken (ps qs : list string) (w w' : world) :
  ps ⊆ qs -> unchanged_outside ps w w' -> unchanged_outside qs w w'.
Proof.
  intros Hsub (Hl & Hd & Hf). split; [exact Hl|]. split; [exact Hd|].
  intros p Hp. apply Hf. intros Hin. apply Hp, Hsub, Hin.
Qed.

Lemma remove_file_spec (w w' : world) (p : string) :
  remove_file w p = Returns w' ->
  files w' = delete p (files w) /\ unchanged_outside [p] w w'.
Proof.
  unfold remove_file. destruct (files w !! p).
  - intros [= <-]. split; [reflexivity|]. split; [reflexivity|].
    split; [reflexivity|]. intros q Hq. cbn.
    apply lookup_delete_ne. intros ->. apply Hq. left.
  - destruct (is_dir w p); discriminate.
Qed.

Lemma write_file_spec (w w' : world) (p content : string) :
  write_file w p content = Returns w' ->
  files w' = <[p := content]> (files w) /\ unchanged_outside [p] w w'.
Proof.
  assert (Hok : unchanged_outside [p] w
                  (World (themes_listing w) (is_dir w) (<[p := content]> (files w)))).
  { split; [reflexivity|]. split; [reflexivity|]. intros q Hq. cbn.
    apply lookup_insert_ne. intros ->. apply Hq. left. }
  unfold write_file. destruct (files w !! p).
  - intros [= <-]. split; [reflexivity|exact Hok].
  - destruct (is_dir w p); [discriminate|].
    intros [= <-]. split; [reflexivity|exact Hok].
Qed.

Lemma write_file_returns (w : world) (p content : string) :
  (files w !! p = None -> is_dir w p = false) ->
  write_file w p content
  = Returns (World (themes_listing w) (is_dir w) (<[p := content]> (files w))).
Proof.
  intros H. unfold write_file. destruct (files w !! p); [reflexivity|].
  rewrite H by reflexivity. reflexivity.
Qed.

(** The backup changes the backup file at most. *)
Lemma backup_db_frame (w w1 : world) (r : result unit) :
  backup_db w = (r, w1) -> unchanged_outside ["db_backup.sqlite3"] w w1.
Proof.
  unfold backup_db. destruct (path_exists w "db.sqlite3").
  - assert (Hrm : forall wr,
              (if path_exists w "db_backup.sqlite3"
               then remove_file w "db_backup.sqlite3" else Returns w) = Returns wr ->
              unchanged_outside ["db_backup.sqlite3"] w wr).
    { intros wr. destruct (path_exists w "db_backup.sqlite3").
      - intros H. apply remove_file_spec in H. apply H.
      - intros [= <-]. apply unchanged_outside_refl. }
    destruct (if path_exists w "db_backup.sqlite3" then _ else _) as [wr|e].
    + specialize (Hrm wr eq_refl).
      unfold copyfile. destruct (open_read wr "db.sqlite3") as [content|e];
        cbn [mbind result_bind].
      * destruct (write_file wr "db_backup.sqlite3" content) as [w2|e] eqn:Hw.
        -- intros [= _ <-]. apply write_file_spec in Hw as [_ Hw].
           apply (unchanged_outside_weaken
                    (["db_backup.sqlite3"] ++ ["db_backup.sqlite3"])).
           ++ intros p Hp. apply elem_of_app in Hp as [Hp|Hp]; exact Hp.
           ++ exact (unchanged_outside_trans _ _ _ _ _ Hrm Hw).
        -- intros [= _ <-]. exact Hrm.
      * intros [= _ <-]. exact Hrm.
    + intros [= _ <-]. apply unchanged_outside_refl.
  - intros [= _ <-]. apply unchanged_outside_refl.
Qed.

(** A database that is a file is copied, unless the backup path is a
    directory. *)
Lemma backup_db_copies (w : world) (d : string) :
  files w !! "db.sqlite3" = Some d ->
  is_dir w "db_backup.sqlite3" = false ->
  exists w1, backup_db w = (Returns tt, w1) /\
             files w1 !! "db_backup.sqlite3" = Some d.
Proof.
  intros Hdb Hbk. unfold backup_db, path_exists. rewrite Hdb, Hbk.
  rewrite bool_decide_eq_true_2 by eauto. cbn [orb]. rewrite orb_false_r.
  destruct (files w !! "db_backup.sqlite3") as [old|] eqn:Hold.
  - rewrite bool_decide_eq_true_2 by eauto.
    unfold remove_file. rewrite Hold.
    unfold copyfile, open_read. cbn [files].
    rewrite lookup_delete_ne by discriminate. rewrite Hdb. cbn [mbind result_bind].
    rewrite write_file_returns by (intros _; exact Hbk).
    eexists. split; [reflexivity|]. cbn. apply lookup_insert_eq.
  - rewrite bool_decide_eq_false_2 by (intros [? ?]; discriminate).
    unfold copyfile, open_read. rewrite Hdb. cbn [mbind result_bind].
    rewrite write_file_returns by (intros _; exact Hbk).
    eexists. split; [reflexivity|]. cbn. apply lookup_insert_eq.
Qed.

Lemma path_exists_unchanged (ps : list string) (w w' : world) (p : string) :
  unchanged_outside ps w w' -> p ∉ ps -> path_exists w' p = path_exists w p.
Proof.
  intros (_ & Hd & Hf) Hp. unfold path_exists. rewrite Hd, Hf by exact Hp.
  reflexivity.
Qed.

Lemma open_read_unchanged (ps : list string) (w w' : world) (p : string) :
  unchanged_outside ps w w' -> p ∉ ps -> open_read w' p = open_read w p.
Proof.
  intros (_ & Hd & Hf) Hp. unfold open_read. rewrite Hd, Hf by exact Hp.
  reflexivity.
Qed.

Section HandleFacts.

Variable json_loads_config : string -> string + gmap string jsonconfig.
Variable json_load_index : string -> string + gmap string theme_desc.
Variable path_suffix b64encode compress : string -> string.
Variable json_dumps : list (string * theme_desc) -> string.
Variable cwd : string.

Lemma load_config_outcome (w : world) (c c1 : console)
    (o : option jsonconfig) :
  load_config json_loads_config cwd w c = (Returns o, c1) ->
  match o with
  | Some _ => c1 = c
  | None => exists line, c1 = c ++ [line]
  end.
Proof.
  unfold load_config. destruct (path_exists w _).
  - unfold mbind, io_bind, lift.
    destruct (open_read w _) as [content|e]; [|discriminate].
    destruct (json_loads_config content) as [e|doc].
    + cbn. intros [= <- <-]. eauto.
    + destruct (doc !! "config"); cbn; [|discriminate].
      intros [= <- <-]. reflexivity.
  - cbn. intros [= <- <-]. eauto.
Qed.

(** The three ways in which [handle] ends: with an exception, with an
    error line about the configuration, or with the registry written. *)
Lemma handle_cases (w w' : world) (c c' : console) (r : result unit) :
  handle json_loads_config json_load_index path_suffix b64encode compress
         json_dumps cwd w c = (r, w', c') ->
  exists rb w1,
    backup_db w = (rb, w1) /\
    ((w' = w1 /\ exists e, r = Raises e) \/
     (w' = w1 /\ r = Returns tt /\ exists line, c' = c ++ [line]) \/
     (r = Returns tt /\
      exists cfg themes,
        load_config json_loads_config cwd w1 c = (Returns (Some cfg), c) /\
        (themeindices ← discover_themes json_load_index w1;
         compile_css path_suffix b64encode compress w1 cfg themeindices) c
        = (Returns themes, c') /\
        write_file w1 "themecfg.json" (json_dumps themes) = Returns w')).
Proof.
  unfold handle. destruct (backup_db w) as [rb w1]. intros Hrun.
  exists rb, w1. split; [reflexivity|].
  destruct rb as [[]|e]; [|injection Hrun as <- <- <-; left; eauto].
  destruct (load_config json_loads_config cwd w1 c) as [[o|e] c1] eqn:Hload;
    [|injection Hrun as <- <- <-; left; eauto].
  pose proof (load_config_outcome _ _ _ _ Hload) as Hc1.
  destruct o as [cfg|].
  - subst c1.
    destruct ((themeindices ← discover_themes json_load_index w1;
               compile_css path_suffix b64encode compress w1 cfg themeindices) c)
      as [[themes|e] c2] eqn:Hthemes;
      [|injection Hrun as <- <- <-; left; eauto].
    destruct (write_file w1 "themecfg.json" (json_dumps themes)) as [w2|e] eqn:Hw;
      injection Hrun as <- <- <-; [|left; eauto].
    right. right. split; [reflexivity|]. exists cfg, themes. auto.
  - injection Hrun as <- <- <-. right. left. auto.
Qed.

End HandleFacts.

(** X15.  Whatever [handle] does and however it ends, it changes no
    file other than db_backup.sqlite3 and themecfg.json: the database,
    the configuration, the themes and the directories are as before. *)
Theorem handle_changes_two_files_at_most
    (json_loads_config : string -> string + gmap string jsonconfig)
    (json_load_index : string -> string + gmap string theme_desc)
    (path_suffix b64encode compress : string -> string)
    (json_dumps : list (string * theme_desc) -> string) (cwd : string)
    (w w' : world) (c c' : console) (r : result unit) :
  handle json_loads_config json_load_index path_suffix b64encode compress
         json_dumps cwd w c = (r, w', c') ->
  unchanged_outside ["db_backup.sqlite3"; "themecfg.json"] w w'.
Proof.
  intros Hrun.
  destruct (handle_cases _ _ _ _ _ _ _ _ _ _ _ _ Hrun)
    as (rb & w1 & Hb & Hcases).
  apply backup_db_frame in Hb.
  destruct Hcases as [[-> _]|[[-> _]|(_ & cfg & themes & _ & _ & Hw)]].
  - eapply unchanged_outside_weaken; [|exact Hb].
    intros p Hp. apply elem_of_cons. left.
    apply list_elem_of_singleton in Hp. exact Hp.
  - eapply unchanged_outside_weaken; [|exact Hb].
    intros p Hp. apply elem_of_cons. left.
    apply list_elem_of_singleton in Hp. exact Hp.
  - apply write_file_spec in Hw as [_ Hw].
    exact (unchanged_outside_trans _ _ _ _ _ Hb Hw).
Qed.

Lemma handle_changes_two_files_at_most_witness :
  unchanged_outside ["db_backup.sqlite3"; "themecfg.json"] project_world
    (snd (fst (sample_handle project_world []))).
Proof.
  apply (handle_changes_two_files_at_most sample_loads_config sample_load_index
           (fun _ => ".ttf") (fun b => b) (fun s => s) sample_dumps "/srv/cams"
           project_world _ [] (snd (sample_handle project_world []))
           (fst (fst (sample_handle project_world [])))).
  vm_compute. reflexivity.
Defined.

(** X16.  When db.sqlite3 is a file and db_backup.sqlite3 is not a
    directory, the backup holds the content of the database after
    [handle], however [handle] ends, and the database is as before.
    When there is no db.sqlite3, the backup is not touched. *)
Theorem handle_backs_up_database
    (json_loads_config : string -> string + gmap string jsonconfig)
    (json_load_index : string -> string + gmap string theme_desc)
    (path_suffix b64encode compress : string -> string)
    (json_dumps : list (string * theme_desc) -> string) (cwd : string)
    (w w' : world) (c c' : console) (r : result unit) :
  handle json_loads_config json_load_index path_suffix b64encode compress
         json_dumps cwd w c = (r, w', c') ->
  (forall d, files w !! "db.sqlite3" = Some d ->
             is_dir w "db_backup.sqlite3" = false ->
             files w' !! "db_backup.sqlite3" = Some d /\
             files w' !! "db.sqlite3" = Some d) /\
  (path_exists w "db.sqlite3" = false ->
   files w' !! "db_backup.sqlite3" = files w !! "db_backup.sqlite3").
Proof.
  intros Hrun.
  destruct (handle_cases _ _ _ _ _ _ _ _ _ _ _ _ Hrun)
    as (rb & w1 & Hb & Hcases).
  assert (Hkeep : forall p, p <> "themecfg.json" -> files w' !! p = files w1 !! p).
  { intros p Hp.
    destruct Hcases as [[-> _]|[[-> _]|(_ & cfg & themes & _ & _ & Hw)]];
      [reflexivity..|].
    apply write_file_spec in Hw as [_ (_ & _ & Hw)]. apply Hw.
    intros Hin. apply list_elem_of_singleton in Hin. contradiction. }
  split.
  - intros d Hdb Hdir.
    destruct (backup_db_copies w d Hdb Hdir) as (w1' & Hb' & Hcopy).
    rewrite Hb in Hb'. injection Hb' as _ <-.
    rewrite !Hkeep by discriminate. split; [exact Hcopy|].
    apply backup_db_frame in Hb as (_ & _ & Hf).
    rewrite Hf; [exact Hdb|].
    intros Hin. apply list_elem_of_singleton in Hin. discriminate.
  - intros Hno. unfold backup_db in Hb. rewrite Hno in Hb.
    injection Hb as _ <-. apply Hkeep. discriminate.
Qed.

Lemma handle_backs_up_database_witness :
  files (snd (fst (sample_handle project_world []))) !! "db_backup.sqlite3"
  = Some "DATA" /\
  files (snd (fst (sample_handle project_world []))) !! "db.sqlite3"
  = Some "DATA".
Proof.
  apply (proj1 (handle_backs_up_database sample_loads_config sample_load_index
                  (fun _ => ".ttf") (fun b => b) (fun s => s) sample_dumps
                  "/srv/cams" project_world _ []
                  (snd (sample_handle project_world []))
                  (fst (fst (sample_handle project_world [])))
                  ltac:(vm_compute; reflexivity)) "DATA").
  - vm_compute. reflexivity.
  - reflexivity.
Defined.

(** X17.  The old backup is removed before the copy is known to work:
    when db.sqlite3 is a directory and db_backup.sqlite3 is a file,
    [handle] deletes the backup and then raises [IsADirectoryError] for
    db.sqlite3, so that no backup is left; nothing is printed. *)
Theorem handle_loses_backup_when_copy_fails
    (json_loads_config : string -> string + gmap string jsonconfig)
    (json_load_index : string -> string + gmap string theme_desc)
    (path_suffix b64encode compress : string -> string)
    (json_dumps : list (string * theme_desc) -> string) (cwd : string)
    (w : world) (c : console) (old : string) :
  files w !! "db.sqlite3" = None -> is_dir w "db.sqlite3" = true ->
  files w !! "db_backup.sqlite3" = Some old ->
  exists w',
    handle json_loads_config json_load_index path_suffix b64encode compress
           json_dumps cwd w c
    = (Raises (IsADirectoryError "db.sqlite3"), w', c) /\
    files w' !! "db_backup.sqlite3" = None /\
    unchanged_outside ["db_backup.sqlite3"] w w'.
Proof.
  intros Hdb Hdir Hold.
  exists (World (themes_listing w) (is_dir w)
                (delete "db_backup.sqlite3" (files w))).
  assert (Hb : backup_db w
               = (Raises (IsADirectoryError "db.sqlite3"),
                  World (themes_listing w) (is_dir w)
                        (delete "db_backup.sqlite3" (files w)))).
  { unfold backup_db, path_exists. rewrite Hdir, orb_true_r, Hold.
    rewrite bool_decide_eq_true_2 by eauto. cbn [orb].
    unfold remove_file. rewrite Hold.
    unfold copyfile, open_read. cbn [files is_dir].
    rewrite lookup_delete_ne by discriminate. rewrite Hdb, Hdir. reflexivity. }
  split; [unfold handle; rewrite Hb; reflexivity|].
  split; [cbn; apply lookup_delete_eq|].
  exact (backup_db_frame _ _ _ Hb).
Qed.

Lemma handle_loses_backup_when_copy_fails_witness :
  exists w',
    sample_handle
      (World None (fun p => String.eqb p "db.sqlite3")
             {["db_backup.sqlite3" := "OLD"]}) []
    = (Raises (IsADirectoryError "db.sqlite3"), w', []) /\
    files w' !! "db_backup.sqlite3" = None.
Proof.
  destruct (handle_loses_backup_when_copy_fails sample_loads_config
              sample_load_index (fun _ => ".ttf") (fun b => b) (fun s => s)
              sample_dumps "/srv/cams"
              (World None (fun p => String.eqb p "db.sqlite3")
                     {["db_backup.sqlite3" := "OLD"]}) [] "OLD")
    as (w' & Hrun & Hnone & _).
  - reflexivity.
  - reflexivity.
  - reflexivity.
  - exists w'. split; [exact Hrun|exact Hnone].
Defined.

(** X18.  When the backup has gone through, a missing or malformed
    config/config.json ends [handle] normally after one error line, with
    no theme read and themecfg.json not written; a configuration
    document without the member [config] makes it raise [KeyError]. *)
Theorem handle_stops_without_config
    (json_loads_config : string -> string + gmap string jsonconfig)
    (json_load_index : string -> string + gmap string theme_desc)
    (path_suffix b64encode compress : string -> string)
    (json_dumps : list (string * theme_desc) -> string) (cwd : string)
    (w : world) (c : console) :
  fst (backup_db w) = Returns tt ->
  let run := handle json_loads_config json_load_index path_suffix b64encode
                    compress json_dumps cwd w c in
  (path_exists w "config/config.json" = false ->
   run = (Returns tt, snd (backup_db w), c ++ [config_missing_error cwd])) /\
  (forall content e,
     files w !! "config/config.json" = Some content ->
     json_loads_config content = inl e ->
     run = (Returns tt, snd (backup_db w), c ++ [config_json_error e])) /\
  (forall content doc,
     files w !! "config/config.json" = Some content ->
     json_loads_config content = inr doc -> doc !! "config" = None ->
     run = (Raises (KeyError "config"), snd (backup_db w), c)).
Proof.
  destruct (backup_db w) as [rb w1] eqn:Hb. cbn [fst snd]. intros ->.
  pose proof (backup_db_frame _ _ _ Hb) as Hframe.
  assert (Hnot : "config/config.json" ∉ ["db_backup.sqlite3"]).
  { intros Hin. apply list_elem_of_singleton in Hin. discriminate. }
  pose proof (path_exists_unchanged _ _ _ _ Hframe Hnot) as Hex.
  pose proof (open_read_unchanged _ _ _ _ Hframe Hnot) as Hread.
  cbn zeta. unfold handle. rewrite Hb. unfold load_config. rewrite Hex.
  split; [|split].
  - intros ->. reflexivity.
  - intros content e Hfile Hloads.
    unfold path_exists. rewrite Hfile, bool_decide_eq_true_2 by eauto.
    cbn [orb]. unfold mbind at 1, io_bind at 1, lift. rewrite Hread.
    unfold open_read at 1. rewrite Hfile, Hloads. reflexivity.
  - intros content doc Hfile Hloads Hdoc.
    unfold path_exists. rewrite Hfile, bool_decide_eq_true_2 by eauto.
    cbn [orb]. unfold mbind at 1, io_bind at 1, lift. rewrite Hread.
    unfold open_read at 1. rewrite Hfile, Hloads, Hdoc. reflexivity.
Qed.

Lemma handle_stops_without_config_witness :
  sample_handle bare_world []
  = (Returns tt, snd (backup_db bare_world),
     [] ++ [config_missing_error "/srv/cams"]).
Proof.
  assert (Hb : fst (backup_db bare_world) = Returns tt)
    by (vm_compute; reflexivity).
  apply (proj1 (handle_stops_without_config sample_loads_config
                  sample_load_index (fun _ => ".ttf") (fun b => b) (fun s => s)
                  sample_dumps "/srv/cams" bare_world [] Hb)).
  vm_compute. reflexivity.
Defined.

(** X19.  themecfg.json is written last and in one piece.  A run of
    [handle] that raises leaves the file as it was; a run that returns
    has either printed one error line and left the file as it was, or
    has written to it the [json.dumps] of the registry that the CSS
    compile step returned for the themes discovered after the backup. *)
Theorem handle_writes_registry_last
    (json_loads_config : string -> string + gmap string jsonconfig)
    (json_load_index : string -> string + gmap string theme_desc)
    (path_suffix b64encode compress : string -> string)
    (json_dumps : list (string * theme_desc) -> string) (cwd : string)
    (w w' : world) (c c' : console) (r : result unit) :
  handle json_loads_config json_load_index path_suffix b64encode compress
         json_dumps cwd w c = (r, w', c') ->
  (forall e, r = Raises e ->
             files w' !! "themecfg.json" = files w !! "themecfg.json") /\
  (r = Returns tt ->
   (files w' !! "themecfg.json" = files w !! "themecfg.json" /\
    exists line, c' = c ++ [line]) \/
   (exists cfg themeindices themes c1,
      discover_themes json_load_index (snd (backup_db w)) c
      = (Returns themeindices, c1) /\
      compile_css path_suffix b64encode compress (snd (backup_db w)) cfg
                  themeindices c1 = (Returns themes, c') /\
      files w' !! "themecfg.json" = Some (json_dumps themes))).
Proof.
  intros Hrun.
  destruct (handle_cases _ _ _ _ _ _ _ _ _ _ _ _ Hrun)
    as (rb & w1 & Hb & Hcases).
  assert (Hsame : files w1 !! "themecfg.json" = files w !! "themecfg.json").
  { apply backup_db_frame in Hb as (_ & _ & Hf). apply Hf.
    intros Hin. apply list_elem_of_singleton in Hin. discriminate. }
  rewrite Hb. cbn [snd].
  destruct Hcases as [[-> [e ->]]|[(-> & -> & Hline)|(-> & cfg & themes & _ & Hth & Hw)]].
  - split; [intros _ _; exact Hsame|discriminate].
  - split; [discriminate|]. intros _. left. split; [exact Hsame|exact Hline].
  - split; [discriminate|]. intros _. right.
    unfold mbind, io_bind in Hth.
    destruct (discover_themes json_load_index w1 c)
      as [[themeindices|e] c1] eqn:Hdisc; [|discriminate].
    exists cfg, themeindices, themes, c1.
    split; [reflexivity|]. split; [exact Hth|].
    apply write_file_spec in Hw as [-> _]. apply lookup_insert_eq.
Qed.

Lemma handle_writes_registry_last_witness :
  files (snd (fst (sample_handle locked_world []))) !! "themecfg.json"
  = files locked_world !! "themecfg.json".
Proof.
  assert (Hrun : sample_handle locked_world []
                 = (Raises (IsADirectoryError "themecfg.json"),
                    snd (fst (sample_handle locked_world [])), []))
    by (vm_compute; reflexivity).
  exact (proj1 (handle_writes_registry_last sample_loads_config
                  sample_load_index (fun _ => ".ttf") (fun b => b) (fun s => s)
                  sample_dumps "/srv/cams" locked_world _ [] [] _ Hrun)
               (IsADirectoryError "themecfg.json") eq_refl).
Defined.

(** ** Rows that do not fit the header *)

Section FoldInsert.

Context {A : Type}.
Variable key : A -> option string.
Variable val : A -> cell.

Lemma fold_insert_absent (l : list A) (d : gmap (option string) cell)
    (k : option string) :
  k ∉ map key l ->
  fold_left (fun d x => <[key x := val x]> d) l d !! k = d !! k.
Proof.
  revert d. induction l as [|x l IH]; intros d Hk; [reflexivity|].
  cbn [map] in Hk. apply not_elem_of_cons in Hk as [Hne Hk].
  cbn [fold_left]. rewrite IH by exact Hk.
  apply lookup_insert_ne. congruence.
Qed.

Lemma fold_insert_last (l1 l2 : list A) (x : A) (d : gmap (option string) cell) :
  key x ∉ map key l2 ->
  fold_left (fun d x => <[key x := val x]> d) (l1 ++ x :: l2) d !! key x
  = Some (val x).
Proof.
  intros Hk. rewrite fold_left_app. cbn [fold_left].
  rewrite fold_insert_absent by exact Hk. apply lookup_insert_eq.
Qed.

End FoldInsert.

Lemma elem_of_map_Some (k : option string) (l : list string) :
  k ∈ map Some l -> exists name, k = Some name /\ name ∈ l.
Proof.
  intros Hin. apply list_elem_of_In, in_map_iff in Hin as (name & <- & Hin).
  exists name. split; [reflexivity|]. apply list_elem_of_In. exact Hin.
Qed.

Lemma row_dict_cells (fieldnames row : list string) :
  NoDup fieldnames ->
  (forall i name, fieldnames !! i = Some name ->
     row_dict fieldnames row !! Some name
     = Some (match row !! i with
             | Some s => Text s
             | None => Missing
             end)) /\
  (forall name, name ∉ fieldnames -> row_dict fieldnames row !! Some name = None) /\
  row_dict fieldnames row !! None
  = (if (length fieldnames <? length row)%nat
     then Some (Rest (drop (length fieldnames) row)) else None).
Proof.
  intros Hnd. pose proof (proj1 (NoDup_alt fieldnames) Hnd) as Hidx.
  set (texts := fold_left (fun d kv => <[Some (fst kv) := Text (snd kv)]> d)
                          (zip fieldnames row) (∅ : gmap (option string) cell)).
  assert (Htext : forall i name s,
            fieldnames !! i = Some name -> row !! i = Some s ->
            texts !! Some name = Some (Text s)).
  { intros i name s Hname Hs.
    assert (Hz : zip fieldnames row !! i = Some (name, s))
      by (apply lookup_zip_Some; auto).
    unfold texts. rewrite <- (take_drop_middle _ _ _ Hz).
    apply (fold_insert_last (fun kv => Some (fst kv)) (fun kv => Text (snd kv))
             _ _ (name, s)).
    cbn [fst]. intros Hin. apply list_elem_of_In, in_map_iff in Hin
      as ([x y] & Heq & Hin). cbn [fst] in Heq. injection Heq as ->.
    apply list_elem_of_In, list_elem_of_lookup_1 in Hin as [j Hj].
    rewrite lookup_drop in Hj. apply lookup_zip_Some in Hj as [Hj _].
    specialize (Hidx _ _ _ Hname Hj). lia. }
  assert (Hnotext : forall k,
            (forall i name, fieldnames !! i = Some name -> k = Some name ->
                            (length row <= i)%nat) ->
            texts !! k = None).
  { intros k Hk. unfold texts.
    rewrite (fold_insert_absent (fun kv => Some (fst kv)) (fun kv => Text (snd kv))).
    - apply lookup_empty.
    - intros Hin. apply list_elem_of_In, in_map_iff in Hin as ([x y] & Heq & Hin).
      cbn [fst] in Heq.
      apply list_elem_of_In, list_elem_of_lookup_1 in Hin as [j Hj].
      apply lookup_zip_Some in Hj as [Hx Hy].
      apply lookup_lt_Some in Hy.
      specialize (Hk _ _ Hx (eq_sym Heq)). lia. }
  assert (Hmiss : forall k (d : gmap (option string) cell),
            (forall j name, fieldnames !! j = Some name -> k = Some name ->
                            (j < length row)%nat) ->
            fold_left (fun d key => <[Some key := Missing]> d)
                      (drop (length row) fieldnames) d !! k = d !! k).
  { intros k d Hk. apply (fold_insert_absent Some (fun _ => Missing)).
    intros Hin. apply elem_of_map_Some in Hin as (name & -> & Hin).
    apply list_elem_of_lookup_1 in Hin as [j Hj]. rewrite lookup_drop in Hj.
    specialize (Hk _ _ Hj eq_refl). lia. }
  unfold row_dict. fold texts.
  destruct (Nat.ltb_spec (length fieldnames) (length row)) as [Hlt|Hge].
  - split; [|split].
    + intros i name Hname. rewrite lookup_insert_ne by discriminate.
      pose proof (lookup_lt_Some _ _ _ Hname) as Hi.
      destruct (lookup_lt_is_Some_2 row i) as [s Hs]; [lia|].
      rewrite Hs. exact (Htext _ _ _ Hname Hs).
    + intros name Hout. rewrite lookup_insert_ne by discriminate.
      apply Hnotext. intros i name' Hname' [= ->]. exfalso. apply Hout.
      exact (list_elem_of_lookup_2 _ _ _ Hname').
    + apply lookup_insert_eq.
  - split; [|split].
    + intros i name Hname. destruct (row !! i) as [s|] eqn:Hs.
      * rewrite Hmiss; [exact (Htext _ _ _ Hname Hs)|].
        intros j name' Hj [= <-]. apply lookup_lt_Some in Hs.
        specialize (Hidx _ _ _ Hname Hj). lia.
      * apply lookup_ge_None in Hs.
        assert (Hd : drop (length row) fieldnames !! (i - length row)%nat
                     = Some name).
        { rewrite lookup_drop. replace (length row + (i - length row))%nat with i
            by lia. exact Hname. }
        rewrite <- (take_drop_middle _ _ _ Hd).
        apply (fold_insert_last Some (fun _ => Missing) _ _ name).
        intros Hin. apply elem_of_map_Some in Hin as (name' & [= <-] & Hin).
        apply list_elem_of_lookup_1 in Hin as [j Hj].
        rewrite !lookup_drop in Hj.
        specialize (Hidx _ _ _ Hname Hj). lia.
    + intros name Hout. rewrite Hmiss.
      * apply Hnotext. intros i name' Hname' [= ->]. exfalso. apply Hout.
        exact (list_elem_of_lookup_2 _ _ _ Hname').
      * intros j name' Hj [= ->]. exfalso. apply Hout.
        exact (list_elem_of_lookup_2 _ _ _ Hj).
    + rewrite Hmiss.
      * apply Hnotext. intros i name _ [=].
      * intros j name _ [=].
Qed.

(** X20.  For a file that parses into a header of distinct names and
    data rows of any length, [csv2list] returns one dict for each row
    that is not empty, in the order of the file.  The dict gives each
    header name the text of the row's cell in that column, or [None]
    when the row is too short to have one, and it holds the cells beyond
    the header as a list under the key [None]; it has no other key. *)
Theorem csv2list_ragged_rows (w : world) (path content : string)
    (fieldnames : list string) (data : list (list string)) :
  files w !! path = Some content ->
  reader (file_lines content EmptyString) parse_reset
  = Returns (fieldnames :: data) ->
  NoDup fieldnames ->
  exists dicts,
    csv2list w path = Returns dicts /\
    Forall2 (row_mapping fieldnames)
            (List.filter (fun r => negb (is_empty_row r)) data) dicts.
Proof.
  intros Hfile Hrows Hnd.
  exists (map (row_dict fieldnames)
              (List.filter (fun r => negb (is_empty_row r)) data)).
  split.
  - unfold csv2list, open_read. rewrite Hfile. cbn [mbind result_bind].
    rewrite Hrows. reflexivity.
  - induction (List.filter (fun r => negb (is_empty_row r)) data)
      as [|row rows IH]; cbn [map]; constructor; [|exact IH].
    exact (row_dict_cells fieldnames row Hnd).
Qed.

Lemma csv2list_ragged_rows_witness :
  exists dicts,
    csv2list (csv_world ("a,b" +:+ nl +:+ "1" +:+ nl +:+ "1,2,3" +:+ nl))
             "data.csv" = Returns dicts /\
    Forall2 (row_mapping ["a"; "b"])
            (List.filter (fun r => negb (is_empty_row r))
                         [["1"]; ["1"; "2"; "3"]]) dicts.
Proof.
  apply (csv2list_ragged_rows
           (csv_world ("a,b" +:+ nl +:+ "1" +:+ nl +:+ "1,2,3" +:+ nl))
           "data.csv" ("a,b" +:+ nl +:+ "1" +:+ nl +:+ "1,2,3" +:+ nl)
           ["a"; "b"] [["1"]; ["1"; "2"; "3"]]).
  - reflexivity.
  - vm_compute. reflexivity.
  - apply NoDup_cons. split; [|apply NoDup_singleton].
    intros H. apply list_elem_of_singleton in H. discriminate H.
Defined.

(** ** Reading back a table written as text *)

Lemma no_newline_app (s t : string) :
  no_newline (s +:+ t) = no_newline s && no_newline t.
Proof.
  induction s as [|a s IH]; [reflexivity|].
  change (no_newline (String a s +:+ t))
    with (negb (is_newline a) && no_newline (s +:+ t)).
  rewrite IH. cbn [no_newline]. apply andb_assoc.
Qed.

Lemma plain_char_spec (a : ascii) :
  plain_char a = true ->
  is_newline a = false /\ is_quote a = false /\ is_delimiter a = false.
Proof.
  unfold plain_char. intros Ha. apply negb_true_iff in Ha.
  apply orb_false_iff in Ha as [Ha _].
  apply orb_false_iff in Ha as [Ha Hdel].
  apply orb_false_iff in Ha as [Hnl Hq]. auto.
Qed.

Lemma written_row_plain (row : list string) :
  written_row row = true -> forallb plain_cell row = true.
Proof.
  intros Hrow.
  assert (H : forallb plain_cell row
              && forallb (fun cell => N.of_nat (String.length cell)
                                      <=? field_size_limit)%N row = true).
  { destruct row as [|cell cells]; [discriminate|].
    destruct cell, cells; try discriminate; exact Hrow. }
  apply andb_true_iff in H as [H _]. exact H.
Qed.

Lemma plain_cell_no_newline (s : string) :
  plain_cell s = true -> no_newline s = true.
Proof.
  induction s as [|a s IH]; [reflexivity|]. cbn [plain_cell no_newline].
  intros [Ha Hs]%andb_true_iff. rewrite (IH Hs), andb_true_r.
  apply plain_char_spec in Ha as (Ha & _). rewrite Ha. reflexivity.
Qed.

Lemma csv_line_cons (cell : string) (cells : list string) :
  csv_line (cell :: cells) = cell +:+ rest_line cells.
Proof.
  unfold csv_line. revert cell. induction cells as [|c2 cells IH]; intros cell.
  - reflexivity.
  - change (String.concat "," (cell :: c2 :: cells))
      with (cell +:+ "," +:+ String.concat "," (c2 :: cells)).
    rewrite string_app_assoc.
    change (("," +:+ String.concat "," (c2 :: cells)) +:+ nl)
      with ("," +:+ (String.concat "," (c2 :: cells) +:+ nl)).
    rewrite IH. reflexivity.
Qed.

Lemma rest_line_no_newline_but_last (cells : list string) :
  forallb plain_cell cells = true ->
  exists s, rest_line cells = s +:+ nl /\ no_newline s = true.
Proof.
  induction cells as [|cell cells IH]; cbn [forallb rest_line].
  - intros _. exists EmptyString. split; reflexivity.
  - intros [Hc Hcs]%andb_true_iff. destruct (IH Hcs) as (s & -> & Hs).
    exists ("," +:+ cell +:+ s). split.
    + change ("," +:+ cell +:+ s +:+ nl) with (String "," (cell +:+ s +:+ nl)).
      change (("," +:+ cell +:+ s) +:+ nl) with (String "," ((cell +:+ s) +:+ nl)).
      rewrite string_app_assoc. reflexivity.
    + change (no_newline (String "," (cell +:+ s)) = true).
      cbn [no_newline]. rewrite no_newline_app, Hs.
      rewrite (plain_cell_no_newline _ Hc). reflexivity.
Qed.

(** The iteration of a file cuts off a line at its line feed. *)
Lemma file_lines_line (s rest : string) :
  no_newline s = true ->
  forall cur,
    file_lines (s +:+ nl +:+ rest) cur
    = (cur +:+ s +:+ nl) :: file_lines rest EmptyString.
Proof.
  induction s as [|a s IH]; intros Hs cur.
  - reflexivity.
  - cbn [no_newline] in Hs. apply andb_true_iff in Hs as [Ha Hs].
    apply negb_true_iff in Ha. unfold is_newline in Ha.
    apply orb_false_iff in Ha as [Hlf Hcr].
    change (String a s +:+ nl +:+ rest) with (String a (s +:+ nl +:+ rest)).
    cbn [file_lines]. rewrite Hcr, Hlf. rewrite (IH Hs).
    rewrite string_app_assoc. reflexivity.
Qed.

Lemma file_lines_csv_text (rows : list (list string)) :
  Forall (fun row => written_row row = true) rows ->
  file_lines (csv_text rows) EmptyString = map csv_line rows.
Proof.
  induction 1 as [|row rows Hrow _ IH]; [reflexivity|].
  cbn [csv_text fold_right map]. fold (csv_text rows).
  assert (Hline : exists s, csv_line row = s +:+ nl /\ no_newline s = true).
  { pose proof (written_row_plain row Hrow) as Hall.
    destruct row as [|cell cells]; [discriminate|].
    cbn [forallb] in Hall. apply andb_true_iff in Hall as [Hc Hcs].
    destruct (rest_line_no_newline_but_last cells Hcs) as (s & Hs & Hn).
    exists (cell +:+ s). rewrite csv_line_cons, Hs. split.
    - symmetry. apply string_app_assoc.
    - rewrite no_newline_app, Hn, (plain_cell_no_newline _ Hc). reflexivity. }
  destruct Hline as (s & Hs & Hn). rewrite Hs at 1.
  rewrite string_app_assoc, (file_lines_line s _ Hn), IH.
  rewrite Hs. reflexivity.
Qed.

Lemma string_length_app (s t : string) :
  String.length (s +:+ t) = (String.length s + String.length t)%nat.
Proof.
  induction s as [|a s IH]; [reflexivity|].
  change (S (String.length (s +:+ t)) = S (String.length s + String.length t)).
  f_equal. exact IH.
Qed.

Lemma written_row_bound (row : list string) :
  written_row row = true ->
  forallb (fun cell => N.of_nat (String.length cell) <=? field_size_limit)%N row
  = true.
Proof.
  intros Hrow.
  assert (H : forallb plain_cell row
              && forallb (fun cell => N.of_nat (String.length cell)
                                      <=? field_size_limit)%N row = true).
  { destruct row as [|cell cells]; [discriminate|].
    destruct cell, cells; try discriminate; exact Hrow. }
  apply andb_true_iff in H as [_ H]. exact H.
Qed.

(** A character is added to a field that is below the limit. *)
Lemma add_char_below_limit (a : ascii) (st st' : csv_state) (f : string)
    (fs : list string) :
  (N.of_nat (String.length f) < field_size_limit)%N ->
  add_char a st' (CsvParser st f fs)
  = Returns (CsvParser st' (f +:+ String a EmptyString) fs).
Proof.
  intros Hlen. unfold add_char. cbn [cfield cfields].
  apply N.leb_gt in Hlen. rewrite Hlen. reflexivity.
Qed.

(** A field that has reached the limit takes no further character. *)
Lemma add_char_at_limit (a : ascii) (st st' : csv_state) (f : string)
    (fs : list string) :
  (field_size_limit <= N.of_nat (String.length f))%N ->
  add_char a st' (CsvParser st f fs)
  = Raises (CsvError "field larger than field limit (131072)").
Proof.
  intros Hlen. unfold add_char. cbn [cfield].
  apply N.leb_le in Hlen. rewrite Hlen. reflexivity.
Qed.

(** The characters of a plain cell are added to the field, as long as
    the field stays within the limit. *)
Lemma process_plain_cell (s rest : string) :
  plain_cell s = true ->
  forall st f fs,
    st = START_FIELD \/ st = IN_FIELD ->
    (N.of_nat (String.length f + String.length s) <= field_size_limit)%N ->
    process_line (s +:+ rest) (CsvParser st f fs)
    = process_line rest
        (CsvParser (match s with
                    | EmptyString => st
                    | String _ _ => IN_FIELD
                    end) (f +:+ s) fs).
Proof.
  induction s as [|a s IH]; intros Hs st f fs Hst Hlen.
  - rewrite string_app_nil_r. reflexivity.
  - cbn [plain_cell] in Hs. apply andb_true_iff in Hs as [Ha Hs].
    apply plain_char_spec in Ha as (Hnl & Hq & Hdel).
    change (String a s +:+ rest) with (String a (s +:+ rest)).
    cbn [process_line]. cbn [String.length] in Hlen.
    assert (Hstep : process_char (Some a) (CsvParser st f fs)
                    = Returns (CsvParser IN_FIELD (f +:+ String a EmptyString) fs)).
    { destruct Hst as [-> | ->]; unfold process_char; cbn [cstate];
        rewrite ?Hnl, ?Hq, ?Hdel; apply add_char_below_limit; lia. }
    rewrite Hstep. cbn [mbind result_bind].
    rewrite (IH Hs) by (try (right; reflexivity);
                        rewrite string_length_app; cbn [String.length]; lia).
    rewrite string_app_assoc. destruct s; reflexivity.
Qed.

(** The line of a row, read from the start of a field. *)
Lemma process_cells (cells : list string) :
  forall s fs,
    plain_cell s = true -> forallb plain_cell cells = true ->
    (N.of_nat (String.length s) <= field_size_limit)%N ->
    forallb (fun cell => N.of_nat (String.length cell) <=? field_size_limit)%N
            cells = true ->
    process_line (s +:+ rest_line cells) (CsvParser START_FIELD EmptyString fs)
    = Returns (CsvParser START_RECORD EmptyString (fs ++ s :: cells)).
Proof.
  induction cells as [|c2 cells IH]; intros s fs Hs Hcells Hlen Hlens;
    rewrite (process_plain_cell s _ Hs) by (try (left; reflexivity); exact Hlen);
    change (EmptyString +:+ s) with s.
  - cbn [rest_line]. destruct s; reflexivity.
  - cbn [forallb] in Hcells, Hlens.
    apply andb_true_iff in Hcells as [Hc2 Hcells].
    apply andb_true_iff in Hlens as [Hl2 Hlens]. apply N.leb_le in Hl2.
    cbn [rest_line].
    change ("," +:+ c2 +:+ rest_line cells)
      with (String "," (c2 +:+ rest_line cells)).
    cbn [process_line].
    assert (Hstep : process_char (Some ","%char)
                      (CsvParser (match s with
                                  | EmptyString => START_FIELD
                                  | String _ _ => IN_FIELD
                                  end) s fs)
                    = Returns (CsvParser START_FIELD EmptyString (fs ++ [s]))).
    { destruct s; reflexivity. }
    rewrite Hstep. cbn [mbind result_bind].
    rewrite (IH c2 _ Hc2 Hcells Hl2 Hlens).
    rewrite <- app_assoc. reflexivity.
Qed.

(** The line of a written row gives the row back. *)
Lemma process_csv_line (row : list string) :
  written_row row = true ->
  process_line (csv_line row) parse_reset
  = Returns (CsvParser START_RECORD EmptyString row).
Proof.
  intros Hrow. pose proof (written_row_plain row Hrow) as Hall.
  pose proof (written_row_bound row Hrow) as Hlens.
  destruct row as [|cell cells]; [discriminate|].
  cbn [forallb] in Hall, Hlens.
  apply andb_true_iff in Hall as [Hc Hcs].
  apply andb_true_iff in Hlens as [Hl Hls]. apply N.leb_le in Hl.
  rewrite csv_line_cons.
  assert (Hstart : process_line (cell +:+ rest_line cells) parse_reset
                   = process_line (cell +:+ rest_line cells)
                                  (CsvParser START_FIELD EmptyString [])).
  { destruct cell as [|a cell].
    - destruct cells as [|c2 cells]; [discriminate|]. reflexivity.
    - cbn [plain_cell] in Hc. apply andb_true_iff in Hc as [Ha _].
      apply plain_char_spec in Ha as (Hnl & Hq & Hdel).
      change (String a cell +:+ rest_line cells)
        with (String a (cell +:+ rest_line cells)).
      cbn [process_line]. unfold process_char, parse_reset. cbn [cstate].
      rewrite Hnl, Hq, Hdel. reflexivity. }
  rewrite Hstart.
  rewrite (process_cells cells cell [] Hc Hcs Hl Hls).
  reflexivity.
Qed.

Lemma reader_csv_lines (rows : list (list string)) :
  Forall (fun row => written_row row = true) rows ->
  reader (map csv_line rows) parse_reset = Returns rows.
Proof.
  induction 1 as [|row rows Hrow _ IH]; [reflexivity|].
  cbn [map reader]. rewrite (process_csv_line row Hrow).
  cbn [mbind result_bind cstate cfields]. rewrite IH. reflexivity.
Qed.

(** X21.  A table of plain cells that was written as text, one line for
    each row with the cells joined by commas, is read back by
    [csv2list] row for row: the first row is the header, and each
    further row gives one dict, built from the cells that were
    written. *)
Theorem csv2list_reads_written_table (w : world) (path : string)
    (fieldnames : list string) (data : list (list string)) :
  Forall (fun row => written_row row = true) (fieldnames :: data) ->
  files w !! path = Some (csv_text (fieldnames :: data)) ->
  reader (file_lines (csv_text (fieldnames :: data)) EmptyString) parse_reset
  = Returns (fieldnames :: data) /\
  csv2list w path = Returns (map (row_dict fieldnames) data).
Proof.
  intros Hrows Hfile.
  assert (Hread : reader (file_lines (csv_text (fieldnames :: data)) EmptyString)
                         parse_reset = Returns (fieldnames :: data)).
  { rewrite (file_lines_csv_text _ Hrows). exact (reader_csv_lines _ Hrows). }
  split; [exact Hread|].
  assert (Hkeep : List.filter (fun r => negb (is_empty_row r)) data = data).
  { apply Forall_cons in Hrows as [_ Hdata]. clear - Hdata.
    induction Hdata as [|row rows Hrow _ IH]; [reflexivity|].
    cbn [List.filter]. destruct row; [discriminate|].
    cbn [is_empty_row negb]. rewrite IH. reflexivity. }
  unfold csv2list, open_read. rewrite Hfile. cbn [mbind result_bind].
  rewrite Hread. cbn [mbind result_bind]. f_equal.
  cbn [dict_reader]. rewrite Hkeep. reflexivity.
Qed.

Lemma csv2list_reads_written_table_witness :
  csv2list (csv_world (csv_text [["n"; "kind"]; ["7"; "x"]; ["8"]])) "data.csv"
  = Returns (map (row_dict ["n"; "kind"]) [["7"; "x"]; ["8"]]).
Proof.
  apply (proj2 (csv2list_reads_written_table
                  (csv_world (csv_text [["n"; "kind"]; ["7"; "x"]; ["8"]]))
                  "data.csv" ["n"; "kind"] [["7"; "x"]; ["8"]]
                  ltac:(repeat constructor) eq_refl)).
Defined.

(** ** The import of [cams/lib.py] *)

Section ImportFacts.

Variable json_loads_document : string -> string + gmap string (gmap string pyval).
Variable json_loads_themes : string -> string + gmap string pyval.
Variable w : world.

Lemma exec_load_config (env env' : module_env) (c c' : console) :
  exec_stmt json_loads_document json_loads_themes w LoadConfig env c
  = (inr env', c') ->
  in_list "printe" (defined env) = false ->
  c' = c /\ defined env' = defined env /\ env_themes env' = env_themes env /\
  is_Some (env_jsondata env') /\ path_exists w "config/config.json" = true.
Proof.
  cbn [exec_stmt]. destruct (path_exists w "config/config.json").
  - destruct (open_read w _) as [content|e]; [|discriminate].
    destruct (json_loads_document content) as [msg|doc]; [discriminate|].
    destruct (doc !! "config") as [cfg|]; [|discriminate].
    intros [= <- <-] _. cbn. eauto 6.
  - unfold call_printe. intros H Hno. rewrite Hno in H. discriminate.
Qed.

Lemma exec_load_themes (env env' : module_env) (c c' : console) :
  exec_stmt json_loads_document json_loads_themes w LoadThemes env c
  = (inr env', c') ->
  in_list "printe" (defined env) = true ->
  defined env' = defined env /\ env_jsondata env' = env_jsondata env /\
  is_Some (env_themes env') /\
  (if path_exists w "themecfg.json" then c' = c
   else c' = c ++ [themecfg_missing_text] /\ env_themes env' = Some ∅).
Proof.
  cbn [exec_stmt]. destruct (path_exists w "themecfg.json").
  - destruct (open_read w _) as [content|e]; [|discriminate].
    destruct (json_loads_themes content) as [msg|registry]; [discriminate|].
    intros [= <- <-] _. cbn. eauto 6.
  - unfold call_printe. intros H Hyes. rewrite Hyes in H.
    injection H as <- <-. cbn. eauto 6.
Qed.

Lemma exec_def (name : string) (env : module_env) (c : console) :
  exec_stmt json_loads_document json_loads_themes w (Def name) env c
  = (inr (ModuleEnv (defined env ++ [name]) (env_jsondata env) (env_themes env)),
     c).
Proof. reflexivity. Qed.

End ImportFacts.

(** What an import that succeeds has done. *)
Lemma import_lib_returns
    (json_loads_document : string -> string + gmap string (gmap string pyval))
    (json_loads_themes : string -> string + gmap string pyval)
    (w : world) (c c' : console) (env : module_env) :
  import_lib json_loads_document json_loads_themes w c = (inr env, c') ->
  path_exists w "config/config.json" = true /\
  defined env
  = ["printe"; "getconfig"; "dt2fmt"; "hsize"; "mkcontext"; "theme"] /\
  is_Some (env_jsondata env) /\ is_Some (env_themes env) /\
  (if path_exists w "themecfg.json" then c' = c
   else c' = c ++ [themecfg_missing_text] /\ env_themes env = Some ∅).
Proof.
  unfold import_lib, lib_body. cbn [exec_body].
  destruct (exec_stmt json_loads_document json_loads_themes w LoadConfig
                      (ModuleEnv [] None None) c) as [[e|env1] c1] eqn:Hcfg;
    [discriminate|].
  apply exec_load_config in Hcfg as (-> & Hd1 & Ht1 & Hj1 & Hex);
    [|reflexivity].
  destruct env1 as [d1 j1 t1]. cbn [defined env_themes env_jsondata] in *.
  subst d1 t1.
  repeat (rewrite exec_def; cbv beta iota;
          cbn [defined env_jsondata env_themes app]).
  match goal with
  | |- context [exec_stmt ?a ?b ?w0 LoadThemes ?e ?c0] =>
      destruct (exec_stmt a b w0 LoadThemes e c0) as [[e2|env2] c2] eqn:Hth
  end; [discriminate|].
  apply exec_load_themes in Hth as (Hd2 & Hj2 & Ht2 & Hout); [|reflexivity].
  cbn [defined env_jsondata env_themes] in Hd2, Hj2.
  rewrite exec_def. cbv beta iota.
  intros [= <- <-]. cbn [defined env_jsondata env_themes].
  rewrite Hd2, Hj2. split; [exact Hex|]. split; [reflexivity|].
  split; [exact Hj1|]. split; [exact Ht2|exact Hout].
Qed.

(** The values that an import that succeeds has bound. *)
Lemma import_lib_values
    (json_loads_document : string -> string + gmap string (gmap string pyval))
    (json_loads_themes : string -> string + gmap string pyval)
    (w : world) (c c' : console) (env : module_env) :
  import_lib json_loads_document json_loads_themes w c = (inr env, c') ->
  (exists content doc,
     open_read w "config/config.json" = Returns content /\
     json_loads_document content = inr doc /\
     env_jsondata env = doc !! "config") /\
  (path_exists w "themecfg.json" = true ->
   exists content registry,
     open_read w "themecfg.json" = Returns content /\
     json_loads_themes content = inr registry /\
     env_themes env = Some registry).
Proof.
  unfold import_lib, lib_body. cbn [exec_body exec_stmt].
  destruct (path_exists w "config/config.json"); [|discriminate].
  destruct (open_read w "config/config.json") as [content|e]; [|discriminate].
  destruct (json_loads_document content) as [msg|doc] eqn:Hdoc; [discriminate|].
  destruct (doc !! "config") as [cfg|] eqn:Hcfg; [|discriminate].
  cbn [defined env_jsondata env_themes app].
  destruct (path_exists w "themecfg.json").
  - destruct (open_read w "themecfg.json") as [tcontent|e]; [|discriminate].
    destruct (json_loads_themes tcontent) as [msg|registry] eqn:Hreg;
      [discriminate|].
    intros [= <- <-]. cbn [env_jsondata env_themes]. split.
    + exists content, doc. rewrite Hcfg. auto.
    + intros _. exists tcontent, registry. auto.
  - unfold call_printe. cbn [defined in_list existsb String.eqb Ascii.eqb
                              Bool.eqb orb andb].
    intros [= <- <-]. cbn [env_jsondata env_themes]. split; [|discriminate].
    exists content, doc. rewrite Hcfg. auto.
Qed.

(** X22.  The module cannot be imported without config/config.json: the
    branch that is to report the missing file calls [printe] before the
    [def] of [printe] has run, and the import raises [NameError] with
    nothing printed.  An import that succeeds has read the [config]
    member of the file, has bound the six functions in the order of the
    file, and has bound [themes], to the document of themecfg.json, or
    to the empty dict with one error line when that file does not
    exist; it prints nothing else. *)
Theorem import_lib_needs_config
    (json_loads_document : string -> string + gmap string (gmap string pyval))
    (json_loads_themes : string -> string + gmap string pyval)
    (w : world) (c : console) :
  (path_exists w "config/config.json" = false ->
   import_lib json_loads_document json_loads_themes w c
   = (inl (Raised (NameError "printe")), c)) /\
  (forall env c',
     import_lib json_loads_document json_loads_themes w c = (inr env, c') ->
     path_exists w "config/config.json" = true /\
     defined env
     = ["printe"; "getconfig"; "dt2fmt"; "hsize"; "mkcontext"; "theme"] /\
     is_Some (env_jsondata env) /\ is_Some (env_themes env) /\
     (if path_exists w "themecfg.json" then c' = c
      else c' = c ++ [themecfg_missing_text] /\ env_themes env = Some ∅) /\
     (exists content doc,
        open_read w "config/config.json" = Returns content /\
        json_loads_document content = inr doc /\
        env_jsondata env = doc !! "config") /\
     (path_exists w "themecfg.json" = true ->
      exists content registry,
        open_read w "themecfg.json" = Returns content /\
        json_loads_themes content = inr registry /\
        env_themes env = Some registry)).
Proof.
  split.
  - intros Hno. unfold import_lib, lib_body. cbn [exec_body exec_stmt].
    rewrite Hno. reflexivity.
  - intros env c' Hrun.
    destruct (import_lib_returns _ _ _ _ _ _ Hrun) as (H1 & H2 & H3 & H4 & H5).
    destruct (import_lib_values _ _ _ _ _ _ Hrun) as (H6 & H7).
    repeat (split; [assumption|]). exact H7.
Qed.

Lemma import_lib_needs_config_witness :
  import_lib sample_loads_document sample_loads_themes bare_world []
  = (inl (Raised (NameError "printe")), []) /\
  exists env c',
    import_lib sample_loads_document sample_loads_themes configured_world []
    = (inr env, c') /\
    c' = [] ++ [themecfg_missing_text].
Proof.
  split.
  - apply (proj1 (import_lib_needs_config sample_loads_document
                    sample_loads_themes bare_world [])).
    reflexivity.
  - eexists _, _. split; [vm_compute; reflexivity|]. reflexivity.
Defined.

(** X23.  Without themecfg.json no page can be rendered: the import
    binds [themes] to the empty dict, and with the globals of such an
    import [mkcontext] prints the theme warning and raises [KeyError]
    for [default], for every request, title and script set. *)
Theorem mkcontext_after_import_without_registry
    (json_loads_document : string -> string + gmap string (gmap string pyval))
    (json_loads_themes : string -> string + gmap string pyval)
    (w : world) (c0 c1 : console) (env : module_env) (ver : string)
    (g : lib_globals) :
  path_exists w "themecfg.json" = false ->
  import_lib json_loads_document json_loads_themes w c0 = (inr env, c1) ->
  globals_of env ver = Some g ->
  forall req title scripts c,
    mkcontext g req title scripts c
    = (Raises (KeyError "default"), c ++ [theme_warning (COOKIES req !! "theme")]).
Proof.
  intros Hno Himport Hg req title scripts c.
  apply import_lib_returns in Himport as (_ & _ & _ & _ & Hth).
  rewrite Hno in Hth. destruct Hth as [_ Hth].
  unfold globals_of in Hg. rewrite Hth in Hg.
  destruct (env_jsondata env) as [j|]; [|discriminate].
  injection Hg as <-.
  unfold mkcontext. apply io_bind_raises.
  rewrite theme_miss.
  - cbn [themes]. rewrite lookup_empty. reflexivity.
  - cbn [themes]. destruct (COOKIES req !! "theme"); [apply lookup_empty|reflexivity].
Qed.

Lemma mkcontext_after_import_without_registry_witness :
  mkcontext (LibGlobals {["misc" := PDict [("strftime", PStr "%Y")]]} ∅ "1.0")
            request_with_unknown_theme (PStr "Home") "form" []
  = (Raises (KeyError "default"),
     [] ++ [theme_warning (COOKIES request_with_unknown_theme !! "theme")]).
Proof.
  apply (mkcontext_after_import_without_registry sample_loads_document
           sample_loads_themes configured_world [] [themecfg_missing_text]
           (ModuleEnv ["printe"; "getconfig"; "dt2fmt"; "hsize"; "mkcontext"; "theme"]
                      (Some {["misc" := PDict [("strftime", PStr "%Y")]]})
                      (Some ∅))
           "1.0").
  - reflexivity.
  - vm_compute. reflexivity.
  - reflexivity.
Defined.

(** ** The warnings and the exceptions of [configmodels] *)

Lemma column_step_outcome (x : string) (y : column)
    (st : string * list (string * column)) (c : console) :
  match missing_member y with
  | Some key => column_step x y st c = (Raises (KeyError key), c)
  | None => exists st', column_step x y st c
                        = (Returns st', c ++ column_warnings [y])
  end.
Proof.
  destruct st as [t d].
  unfold missing_member, column_step, column_warnings, unknown_datatype.
  cbn [List.filter].
  destruct (str_in (datatype y) "select").
  { destruct (ddfile y); [|reflexivity]. cbn. rewrite app_nil_r. eauto. }
  destruct (String.eqb (datatype y) "string").
  { destruct (max y); [|reflexivity]. cbn. rewrite app_nil_r. eauto. }
  destruct (String.eqb (datatype y) "text");
    [cbn; rewrite app_nil_r; eauto|].
  destruct (String.eqb (datatype y) "date");
    [cbn; rewrite app_nil_r; eauto|].
  cbn. eauto.
Qed.

Lemma column_warnings_cons (y : column) (cols : list column) :
  column_warnings (y :: cols) = column_warnings [y] ++ column_warnings cols.
Proof.
  unfold column_warnings. cbn [List.filter].
  destruct (unknown_datatype (datatype y)); reflexivity.
Qed.

Lemma columns_loop_outcome (l : list (string * column)) :
  forall (st : string * list (string * column)) (c : console),
  (Forall (fun y => missing_member y = None) (map snd l) ->
   exists st', for_each (fun xy => column_step (fst xy) (snd xy)) l st c
               = (Returns st', c ++ column_warnings (map snd l))) /\
  (forall before y after key,
     map snd l = before ++ y :: after ->
     Forall (fun y => missing_member y = None) before ->
     missing_member y = Some key ->
     for_each (fun xy => column_step (fst xy) (snd xy)) l st c
     = (Raises (KeyError key), c ++ column_warnings before)).
Proof.
  induction l as [|[x y0] l IH]; intros st c.
  - split.
    + intros _. exists st. cbn. rewrite app_nil_r. reflexivity.
    + intros [|b before] y after key H; discriminate H.
  - cbn [map fst snd for_each]. pose proof (column_step_outcome x y0 st c) as Hstep.
    split.
    + intros Hall. apply Forall_cons in Hall as [Hy0 Hall].
      rewrite Hy0 in Hstep. destruct Hstep as [st1 Hstep].
      rewrite (io_bind_returns _ _ _ _ _ Hstep).
      destruct (proj1 (IH st1 (c ++ column_warnings [y0])) Hall) as [st' Hrest].
      exists st'. rewrite Hrest, (column_warnings_cons y0 (map snd l)), <- app_assoc.
      reflexivity.
    + intros before y after key Hsplit Hbefore Hy.
      destruct before as [|b before]; cbn [app] in Hsplit;
        injection Hsplit as -> Hsplit.
      * rewrite Hy in Hstep. rewrite (io_bind_raises _ _ _ _ _ Hstep).
        cbn. rewrite app_nil_r. reflexivity.
      * apply Forall_cons in Hbefore as [Hb Hbefore].
        rewrite Hb in Hstep. destruct Hstep as [st1 Hstep].
        rewrite (io_bind_returns _ _ _ _ _ Hstep).
        rewrite (proj2 (IH st1 (c ++ column_warnings [b]))
                       before y after key Hsplit Hbefore Hy).
        rewrite (column_warnings_cons b before), <- app_assoc. reflexivity.
Qed.

(** X24.  [configmodels] warns once for each column whose datatype no
    branch takes, in schema order, and prints nothing else.  It returns
    the module when no column lacks the member that its branch reads;
    otherwise it raises [KeyError] for that member at the first column
    that lacks it, after the warnings of the columns before it. *)
Theorem configmodels_warnings_and_exceptions
    (str_of_cfgdata : list (string * column) -> string)
    (str_of_list : list string -> string) (today : string)
    (cfg : jsonconfig) (c : console) :
  (Forall (fun y => missing_member y = None) (all_columns cfg) ->
   exists text,
     configmodels str_of_cfgdata str_of_list today cfg c
     = (Returns text, c ++ column_warnings (all_columns cfg))) /\
  (forall before y after key,
     all_columns cfg = before ++ y :: after ->
     Forall (fun y => missing_member y = None) before ->
     missing_member y = Some key ->
     configmodels str_of_cfgdata str_of_list today cfg c
     = (Raises (KeyError key), c ++ column_warnings before)).
Proof.
  unfold configmodels, table_loop, all_columns.
  rewrite <- (grouped_columns_snd (table cfg)).
  split.
  - intros Hall. unfold mbind, io_bind. rewrite table_loop_flat.
    destruct (proj1 (columns_loop_outcome (grouped_columns (table cfg))
                       (EmptyString, []) c) Hall) as [[t d] Hrun].
    rewrite Hrun. cbv beta iota zeta delta [mret io_ret]. eauto.
  - intros before y after key Hsplit Hbefore Hy.
    apply io_bind_raises. rewrite table_loop_flat.
    exact (proj2 (columns_loop_outcome (grouped_columns (table cfg))
                    (EmptyString, []) c) before y after key Hsplit Hbefore Hy).
Qed.

Lemma configmodels_warnings_and_exceptions_witness :
  (exists text,
     configmodels (fun _ => "{}") (fun _ => "[]") "July 27, 2023"
                  schema_with_blob ["started"]
     = (Returns text, ["started"] ++ column_warnings (all_columns schema_with_blob)))
  /\
  configmodels (fun _ => "{}") (fun _ => "[]") "July 27, 2023"
               (JsonConfig [("main", [Column "photo" "blob" None None;
                                      Column "name" "string" None None])] None)
               []
  = (Raises (KeyError "max"),
     [] ++ column_warnings [Column "photo" "blob" None None]).
Proof.
  split.
  - apply (proj1 (configmodels_warnings_and_exceptions
                    (fun _ => "{}") (fun _ => "[]") "July 27, 2023"
                    schema_with_blob ["started"])).
    repeat constructor.
  - apply (proj2 (configmodels_warnings_and_exceptions
                    (fun _ => "{}") (fun _ => "[]") "July 27, 2023"
                    (JsonConfig [("main", [Column "photo" "blob" None None;
                                           Column "name" "string" None None])]
                                None) [])
                 [Column "photo" "blob" None None]
                 (Column "name" "string" None None) [] "max").
    + reflexivity.
    + repeat constructor.
    + reflexivity.
Defined.
